(** * HPM-MVS++ host-side orchestration (HPM.cpp): a shallow embedding

    The development follows src/HPM.cpp.  Host code is embedded as Rocq
    functions over explicit state: the file store, the HPM object and the
    device runtime are passed in and returned.  Single-precision values
    that are computed with are [spec_float]s at precision 24 / emax 128,
    double-precision ones at 53 / 1024; samples that sit in a matrix or in
    a file are kept as their four bytes. *)

From Stdlib Require Import ZArith List Bool String Ascii Lia SpecFloat.
From Stdlib.Strings Require Import Byte.
From stdpp Require Import base option list list_numbers fin vector gmap strings pretty.

Local Open Scope Z_scope.

(* ===================================================================== *)
(** ** Outcomes of a call *)

(** A call either returns, ends the process through [exit(EXIT_FAILURE)]
    (the body of [CudaSafeCall]), or runs into behaviour C++ leaves
    undefined (a null [FILE*], a read of an uninitialised local, a write
    past a buffer, a division by zero). *)
Inductive outcome (A : Type) : Type :=
| Returned (a : A)
| Exited
| Undefined.
Arguments Returned {A} a.
Arguments Exited {A}.
Arguments Undefined {A}.

#[global] Instance outcome_ret : MRet outcome := fun _ a => Returned a.
#[global] Instance outcome_bind : MBind outcome := fun _ _ f m =>
  match m with
  | Returned a => f a
  | Exited => Exited
  | Undefined => Undefined
  end.

(* ===================================================================== *)
(** ** Machine integers and bytes *)

Definition wrap32 (x : Z) : Z := (x + 2 ^ 31) mod 2 ^ 32 - 2 ^ 31.

Definition in_int32 (x : Z) : Prop := - 2 ^ 31 <= x < 2 ^ 31.

Definition byte_to_Z (b : byte) : Z := Z.of_N (Byte.to_N b).

Definition byte_of_Z (z : Z) : byte :=
  match Byte.of_N (Z.to_N (z mod 256)) with
  | Some b => b
  | None => x00
  end.

(** [int32_t] in memory, least significant byte first. *)
Definition int32_bytes (v : Z) : list byte :=
  [byte_of_Z v; byte_of_Z (v / 2 ^ 8); byte_of_Z (v / 2 ^ 16); byte_of_Z (v / 2 ^ 24)].

Definition int32_of_bytes (b0 b1 b2 b3 : byte) : Z :=
  wrap32 (byte_to_Z b0 + 2 ^ 8 * byte_to_Z b1 + 2 ^ 16 * byte_to_Z b2
          + 2 ^ 24 * byte_to_Z b3).

(* ===================================================================== *)
(** ** Floating point *)

(** [float] and [double] values held in locals and struct fields. *)
Definition float : Type := spec_float.
Definition double : Type := spec_float.

Definition fsub : float -> float -> float := SFsub 24 128.
Definition fmul : float -> float -> float := SFmul 24 128.
Definition fdiv : float -> float -> float := SFdiv 24 128.
Definition dadd : double -> double -> double := SFadd 53 1024.
Definition dsub : double -> double -> double := SFsub 53 1024.
Definition ddiv : double -> double -> double := SFdiv 53 1024.

(** Comparisons of two values of one format; [a > b] is [flt b a]. *)
Definition flt (a b : spec_float) : bool := SFltb a b.
Definition fne (a b : spec_float) : bool := negb (SFeqb a b).

(** [static_cast<float>(n)] for an [int]. *)
Definition float_of_int (n : Z) : float := binary_normalize 24 128 n 0 false.
Definition double_of_int (n : Z) : double := binary_normalize 53 1024 n 0 false.

(** [float] to [double] keeps the value (and gives it its 53-bit
    mantissa); [double] to [float] rounds to nearest, ties to even. *)
Definition double_of_float (x : float) : double :=
  match x with
  | S754_finite s m e => binary_round 53 1024 s m e
  | _ => x
  end.
Definition float_of_double (x : double) : float :=
  match x with
  | S754_finite s m e => binary_round 24 128 s m e
  | _ => x
  end.

(** Conversion to [int] truncates toward zero.  Out of range (and for NaN
    and infinities) C++ leaves the result open; the model gives what the
    x86 conversion instruction gives, [INT_MIN]. *)
Definition int_of_float (x : spec_float) : Z :=
  match x with
  | S754_zero _ => 0
  | S754_finite s m e =>
      let a := if 0 <=? e then Z.pos m * 2 ^ e else Z.pos m / 2 ^ (- e) in
      let v := if s then - a else a in
      if (- 2 ^ 31 <=? v) && (v <? 2 ^ 31) then v else - 2 ^ 31
  | _ => - 2 ^ 31
  end.

(** [std::round]: to the nearest integer, halves away from zero; the
    result is again a [float]. *)
Definition fround (x : float) : float :=
  match x with
  | S754_finite s m e =>
      if 0 <=? e then x
      else
        let a := (2 * Z.pos m / 2 ^ (- e) + 1) / 2 in
        binary_normalize 24 128 (if s then - a else a) 0 s
  | _ => x
  end.

(** [std::min(a, b)] is [(b < a) ? b : a]. *)
Definition fmin (a b : float) : float := if flt b a then b else a.

(** Literals, as the correctly rounded quotients they denote. *)
Definition f2_0 : float := Eval vm_compute in float_of_int 2.
Definition f0_5 : float := Eval vm_compute in fdiv (float_of_int 1) (float_of_int 2).
Definition f0_6 : float := Eval vm_compute in fdiv (float_of_int 6) (float_of_int 10).
Definition f1_2 : float := Eval vm_compute in fdiv (float_of_int 12) (float_of_int 10).
Definition d0_2 : double := Eval vm_compute in ddiv (double_of_int 2) (double_of_int 10).
Definition d0_1 : double := Eval vm_compute in ddiv (double_of_int 1) (double_of_int 10).

(** A stored sample: the four bytes of an IEEE-754 binary32, least
    significant first. *)
Definition f32 : Type := (byte * byte * byte * byte)%type.

Definition f32_bits (x : f32) : Z :=
  let '(b0, b1, b2, b3) := x in
  byte_to_Z b0 + 2 ^ 8 * byte_to_Z b1 + 2 ^ 16 * byte_to_Z b2 + 2 ^ 24 * byte_to_Z b3.

Definition f32_of_bits (z : Z) : f32 :=
  (byte_of_Z z, byte_of_Z (z / 2 ^ 8), byte_of_Z (z / 2 ^ 16), byte_of_Z (z / 2 ^ 24)).

(** The value a stored sample denotes. *)
Definition f32_val (x : f32) : float :=
  let bits := f32_bits x in
  let s := 2 ^ 31 <=? bits in
  let e := (bits / 2 ^ 23) mod 2 ^ 8 in
  let m := bits mod 2 ^ 23 in
  if e =? 0 then
    (if m =? 0 then S754_zero s else S754_finite s (Z.to_pos m) (- 149))
  else if e =? 255 then
    (if m =? 0 then S754_infinity s else S754_nan)
  else S754_finite s (Z.to_pos (m + 2 ^ 23)) (e - 150).

(** [x != x], the source's test for not-a-number. *)
Definition f32_isnan (x : f32) : bool := fne (f32_val x) (f32_val x).

Definition f32_zero : f32 := (x00, x00, x00, x00).
Definition f32_bytes (x : f32) : list byte :=
  let '(b0, b1, b2, b3) := x in [b0; b1; b2; b3].

(* ===================================================================== *)
(** ** cv::Mat *)

(** A continuous matrix with elements of type [A]: bytes for the 8-bit
    images, stored samples for [CV_32F] (one channel) and [CV_32FC3]
    (three).  Element [(r, c)], channel [k], sits at
    [(r * cols + c) * channels + k]. *)
Record Mat_ (A : Type) : Type := mkMat {
  rows : Z;
  cols : Z;
  channels : Z;
  data : list A
}.
Arguments mkMat {A} rows cols channels data.
Arguments rows {A} m.
Arguments cols {A} m.
Arguments channels {A} m.
Arguments data {A} m.

Abbreviation Mat := (Mat_ f32).

(** A default-constructed matrix. *)
Definition Mat_empty {A : Type} (ch : Z) : Mat_ A := mkMat 0 0 ch [].

(** [cv::Mat::zeros(h, w, type)].  (OpenCV refuses negative sizes; the
    properties below are stated for sizes that are not negative.) *)
Definition Mat_zeros (h w ch : Z) : Mat :=
  mkMat h w ch (replicate (Z.to_nat (h * w * ch)) f32_zero).

(** [m(r, c)[k]].  The accessor does no bounds check; a read outside the
    buffer yields an unspecified sample, taken as zero here. *)
Definition Mat_at (m : Mat) (r c k : Z) : f32 :=
  let i := (r * cols m + c) * channels m + k in
  if 0 <=? i then default f32_zero (data m !! Z.to_nat i) else f32_zero.

(** [m(r, c)[k] = v]; a store outside the buffer is not part of the
    matrix. *)
Definition Mat_set (m : Mat) (r c k : Z) (v : f32) : Mat :=
  let i := (r * cols m + c) * channels m + k in
  if 0 <=? i then mkMat (rows m) (cols m) (channels m) (<[Z.to_nat i := v]> (data m))
  else m.

(* ===================================================================== *)
(** ** Files *)

(** The file store: the content of every existing file, and which paths
    [fopen(path, "wb")] can create or truncate. *)
Record FileSystem : Type := mkFS {
  fs_files : gmap string (list byte);
  fs_writable : string -> bool
}.

(** An open stream is the bytes still to be read, or written so far. *)
Definition fopen_rb (fs : FileSystem) (path : string) : option (list byte) :=
  fs_files fs !! path.

Definition fopen_wb (fs : FileSystem) (path : string) : option (list byte) :=
  if fs_writable fs path then Some [] else None.

Definition fclose_w (fs : FileSystem) (path : string) (out : list byte) : FileSystem :=
  mkFS (<[path := out]> (fs_files fs)) (fs_writable fs).

(** [fread(&v, sizeof(int32_t), 1, f)]: [None] when fewer than four bytes
    are left, in which case the variable keeps what it held. *)
Definition fread_int32 (f : list byte) : option Z * list byte :=
  match f with
  | b0 :: b1 :: b2 :: b3 :: rest => (Some (int32_of_bytes b0 b1 b2 b3), rest)
  | _ => (None, [])
  end.

Definition fwrite_int32 (v : Z) (f : list byte) : list byte := f ++ int32_bytes v.

(** [fread(buf, sizeof(float), count, f)] delivers the whole samples it
    finds, at most [count] of them. *)
Fixpoint fread_f32 (count : nat) (f : list byte) : list f32 :=
  match count, f with
  | S n, b0 :: b1 :: b2 :: b3 :: rest => (b0, b1, b2, b3) :: fread_f32 n rest
  | _, _ => []
  end.

Definition fwrite_f32 (buf : list f32) (f : list byte) : list byte :=
  f ++ concat (f32_bytes <$> buf).

(** [count] as [size_t]: a negative [int32_t] becomes a huge count. *)
Definition size_t_of_int32 (n : Z) : Z := n mod 2 ^ 64.

(** The body shared by [readDepthDmb] ([ch = 1], [CV_32F]) and
    [readNormalDmb] ([ch = 3], [CV_32FC3]); the two differ in the type of
    the matrix alone. *)
Definition readDmb (ch : Z) (fs : FileSystem) (file_path : string) (m : Mat)
  : outcome (Z * Mat) :=
  match fopen_rb fs file_path with
  | None => Returned (-1, m)
  | Some inimage =>
      let type := -1 in
      let '(r, inimage) := fread_int32 inimage in
      let type := default type r in
      let '(oh, inimage) := fread_int32 inimage in
      let '(ow, inimage) := fread_int32 inimage in
      let '(onb, inimage) := fread_int32 inimage in
      if negb (type =? 1) then Returned (-1, m)
      else
        match oh, ow, onb with
        | Some h, Some w, Some nb =>
            let dataSize := wrap32 (h * w * nb) in
            let buf := Mat_zeros h w ch in
            let got := fread_f32 (Z.to_nat (size_t_of_int32 dataSize)) inimage in
            if (length got <=? length (data buf))%nat then
              Returned (0, mkMat h w ch (got ++ drop (length got) (data buf)))
            else Undefined
        | _, _, _ => Undefined
        end
  end.

Definition readDepthDmb : FileSystem -> string -> Mat -> outcome (Z * Mat) := readDmb 1.
Definition readNormalDmb : FileSystem -> string -> Mat -> outcome (Z * Mat) := readDmb 3.

(** The body shared by [writeDepthDmb] ([nb = 1]) and [writeNormalDmb]
    ([nb = 3]).  A failed [fopen] is reported and then the null stream is
    written to all the same. *)
Definition writeDmb (nb : Z) (fs : FileSystem) (file_path : string) (m : Mat)
  : outcome (Z * FileSystem) :=
  match fopen_wb fs file_path with
  | None => Undefined
  | Some outimage =>
      let type := 1 in
      let h := rows m in
      let w := cols m in
      let outimage := fwrite_int32 type outimage in
      let outimage := fwrite_int32 h outimage in
      let outimage := fwrite_int32 w outimage in
      let outimage := fwrite_int32 nb outimage in
      let datasize := wrap32 (w * h * nb) in
      let count := Z.to_nat (size_t_of_int32 datasize) in
      if (count <=? length (data m))%nat then
        let outimage := fwrite_f32 (take count (data m)) outimage in
        Returned (0, fclose_w fs file_path outimage)
      else Undefined
  end.

Definition writeDepthDmb : FileSystem -> string -> Mat -> outcome (Z * FileSystem) := writeDmb 1.
Definition writeNormalDmb : FileSystem -> string -> Mat -> outcome (Z * FileSystem) := writeDmb 3.

(** What [fread] leaves in [type]: the first header field, or the initial
    [-1] when the file is too short to hold one. *)
Definition dmb_type_tag (content : list byte) : Z :=
  default (-1) (fst (fread_int32 content)).

(** The four header fields of a container that has them all. *)
Definition dmb_header (content : list byte) : option (Z * Z * Z * Z) :=
  let '(t, f) := fread_int32 content in
  let '(h, f) := fread_int32 f in
  let '(w, f) := fread_int32 f in
  let '(nb, _) := fread_int32 f in
  match t, h, w, nb with
  | Some t, Some h, Some w, Some nb => Some (t, h, w, nb)
  | _, _, _, _ => None
  end.


(* ===================================================================== *)
(** ** Cameras, problems, parameters *)

#[global] Instance spec_float_inhabited : Inhabited spec_float := populate (S754_zero false).

(** A finite single-precision value back in its four bytes (the value is
    one the format holds; not-a-number is stored as the quiet pattern). *)
Definition f32_of_float (x : float) : f32 :=
  let sign (s : bool) := if s then 2 ^ 31 else 0 in
  f32_of_bits
    match x with
    | S754_zero s => sign s
    | S754_infinity s => sign s + 255 * 2 ^ 23
    | S754_nan => 255 * 2 ^ 23 + 2 ^ 22
    | S754_finite s m e =>
        sign s + (if Z.pos m <? 2 ^ 23 then Z.pos m
                  else (e + 150) * 2 ^ 23 + (Z.pos m - 2 ^ 23))
    end.

Record Camera : Type := mkCamera {
  K : vec float 9;
  R : vec float 9;
  t : vec float 3;
  height : Z;
  width : Z;
  depth_min : float;
  depth_max : float
}.

Definition Camera_set_K (i : fin 9) (v : float) (c : Camera) : Camera :=
  mkCamera (vinsert i v (K c)) (R c) (t c) (height c) (width c) (depth_min c) (depth_max c).

Definition Camera_set_size (h w : Z) (c : Camera) : Camera :=
  mkCamera (K c) (R c) (t c) h w (depth_min c) (depth_max c).

Record Problem : Type := mkProblem {
  ref_image_id : Z;
  src_image_ids : list Z;
  cur_image_size : Z
}.

(** The fields of [params] this file reads or writes. *)
Record PatchMatchParams : Type := mkParams {
  max_iterations : Z;
  p_depth_min : float;
  p_depth_max : float;
  num_images_p : Z;
  baseline : float;
  disparity_min : float;
  disparity_max : float;
  geom_consistency : bool;
  multi_geometry : bool;
  hierarchy : bool;
  prior_consistency : bool;
  mand_consistency : bool;
  upsample : bool;
  scaled_cols : Z;
  scaled_rows : Z
}.

Record float4 : Type := make_float4 { f4x : f32; f4y : f32; f4z : f32; f4w : f32 }.

Definition float4_default : float4 := make_float4 f32_zero f32_zero f32_zero f32_zero.

(** The device-side members of an [HPM] object: pointers into device
    memory, the per-image CUDA arrays and the texture objects bound to
    them. *)
Inductive dev_field : Type :=
| texture_objects_cuda
| cameras_cuda
| plane_hypotheses_cuda
| costs_cuda
| pre_costs_cuda
| rand_states_cuda
| selected_views_cuda
| depths_cuda
| texture_depths_cuda
| scaled_plane_hypotheses_cuda
| prior_planes_cuda
| plane_masks_cuda
| Canny_cuda
| texture_cuda
| cuArray (i : nat)
| cuDepthArray (i : nat)
| texture_objects_host_images (i : nat)
| texture_depths_host_images (i : nat).

#[global] Instance dev_field_eq_dec : EqDecision dev_field.
Proof. solve_decision. Defined.

(** What a device pointer holds: the allocation it was last set to, or
    nothing.  (HPM.h is not part of this file; members are taken to start
    out null.) *)
Definition ptr : Type := option nat.

(** An [HPM] object.  Host arrays are kept as values; what [new[]] leaves
    uninitialised is taken as zero. *)
Record HPM : Type := mkHPM {
  images : list Mat;
  cameras : list Camera;
  depths : list Mat;
  params : PatchMatchParams;
  num_images : Z;
  plane_hypotheses_host : list float4;
  costs_host : list f32;
  scaled_plane_hypotheses_host : list float4;
  pre_costs_host : list f32;
  dev_ptrs : dev_field -> ptr
}.

Definition set_images (v : list Mat) (o : HPM) : HPM :=
  mkHPM v (cameras o) (depths o) (params o) (num_images o) (plane_hypotheses_host o) (costs_host o) (scaled_plane_hypotheses_host o) (pre_costs_host o) (dev_ptrs o).

Definition set_cameras (v : list Camera) (o : HPM) : HPM :=
  mkHPM (images o) v (depths o) (params o) (num_images o) (plane_hypotheses_host o) (costs_host o) (scaled_plane_hypotheses_host o) (pre_costs_host o) (dev_ptrs o).

Definition set_depths (v : list Mat) (o : HPM) : HPM :=
  mkHPM (images o) (cameras o) v (params o) (num_images o) (plane_hypotheses_host o) (costs_host o) (scaled_plane_hypotheses_host o) (pre_costs_host o) (dev_ptrs o).

Definition set_params (f : PatchMatchParams -> PatchMatchParams) (o : HPM) : HPM :=
  mkHPM (images o) (cameras o) (depths o) (f (params o)) (num_images o) (plane_hypotheses_host o) (costs_host o) (scaled_plane_hypotheses_host o) (pre_costs_host o) (dev_ptrs o).

Definition set_num_images (v : Z) (o : HPM) : HPM :=
  mkHPM (images o) (cameras o) (depths o) (params o) v (plane_hypotheses_host o) (costs_host o) (scaled_plane_hypotheses_host o) (pre_costs_host o) (dev_ptrs o).

Definition set_plane_hypotheses_host (v : list float4) (o : HPM) : HPM :=
  mkHPM (images o) (cameras o) (depths o) (params o) (num_images o) v (costs_host o) (scaled_plane_hypotheses_host o) (pre_costs_host o) (dev_ptrs o).

Definition set_costs_host (v : list f32) (o : HPM) : HPM :=
  mkHPM (images o) (cameras o) (depths o) (params o) (num_images o) (plane_hypotheses_host o) v (scaled_plane_hypotheses_host o) (pre_costs_host o) (dev_ptrs o).

Definition set_scaled_plane_hypotheses_host (v : list float4) (o : HPM) : HPM :=
  mkHPM (images o) (cameras o) (depths o) (params o) (num_images o) (plane_hypotheses_host o) (costs_host o) v (pre_costs_host o) (dev_ptrs o).

Definition set_pre_costs_host (v : list f32) (o : HPM) : HPM :=
  mkHPM (images o) (cameras o) (depths o) (params o) (num_images o) (plane_hypotheses_host o) (costs_host o) (scaled_plane_hypotheses_host o) v (dev_ptrs o).

Definition set_dev_ptrs (v : dev_field -> ptr) (o : HPM) : HPM :=
  mkHPM (images o) (cameras o) (depths o) (params o) (num_images o) (plane_hypotheses_host o) (costs_host o) (scaled_plane_hypotheses_host o) (pre_costs_host o) v.

Definition with_depth_range (dmin dmax : float) (p : PatchMatchParams) : PatchMatchParams :=
  mkParams (max_iterations p) dmin dmax (num_images_p p) (baseline p)
           (disparity_min p) (disparity_max p) (geom_consistency p) (multi_geometry p)
           (hierarchy p) (prior_consistency p) (mand_consistency p)
           (upsample p) (scaled_cols p) (scaled_rows p).

Definition with_num_images (n : Z) (p : PatchMatchParams) : PatchMatchParams :=
  mkParams (max_iterations p) (p_depth_min p) (p_depth_max p) n (baseline p)
           (disparity_min p) (disparity_max p) (geom_consistency p) (multi_geometry p)
           (hierarchy p) (prior_consistency p) (mand_consistency p)
           (upsample p) (scaled_cols p) (scaled_rows p).

Definition with_disparity (lo hi : float) (p : PatchMatchParams) : PatchMatchParams :=
  mkParams (max_iterations p) (p_depth_min p) (p_depth_max p) (num_images_p p) (baseline p)
           lo hi (geom_consistency p) (multi_geometry p)
           (hierarchy p) (prior_consistency p) (mand_consistency p)
           (upsample p) (scaled_cols p) (scaled_rows p).

Definition with_upsample (b : bool) (sc sr : Z) (p : PatchMatchParams) : PatchMatchParams :=
  mkParams (max_iterations p) (p_depth_min p) (p_depth_max p) (num_images_p p) (baseline p)
           (disparity_min p) (disparity_max p) (geom_consistency p) (multi_geometry p)
           (hierarchy p) (prior_consistency p) (mand_consistency p) b sc sr.

(** [SetGeomConsistencyParams], [SetHierarchyParams],
    [SetPlanarPriorParams], [SetMandConsistencyParams]. *)
Definition SetGeomConsistencyParams (multi : bool) (p : PatchMatchParams) : PatchMatchParams :=
  mkParams 2 (p_depth_min p) (p_depth_max p) (num_images_p p) (baseline p)
           (disparity_min p) (disparity_max p) true
           (if multi then true else multi_geometry p)
           (hierarchy p) (prior_consistency p) (mand_consistency p)
           (upsample p) (scaled_cols p) (scaled_rows p).

Definition SetHierarchyParams (p : PatchMatchParams) : PatchMatchParams :=
  mkParams (max_iterations p) (p_depth_min p) (p_depth_max p) (num_images_p p) (baseline p)
           (disparity_min p) (disparity_max p) (geom_consistency p) (multi_geometry p)
           true (prior_consistency p) (mand_consistency p)
           (upsample p) (scaled_cols p) (scaled_rows p).

Definition SetPlanarPriorParams (p : PatchMatchParams) : PatchMatchParams :=
  mkParams (max_iterations p) (p_depth_min p) (p_depth_max p) (num_images_p p) (baseline p)
           (disparity_min p) (disparity_max p) (geom_consistency p) (multi_geometry p)
           (hierarchy p) true (mand_consistency p)
           (upsample p) (scaled_cols p) (scaled_rows p).

Definition SetMandConsistencyParams (flag : bool) (p : PatchMatchParams) : PatchMatchParams :=
  mkParams (max_iterations p) (p_depth_min p) (p_depth_max p) (num_images_p p) (baseline p)
           (disparity_min p) (disparity_max p) (geom_consistency p) (multi_geometry p)
           (hierarchy p) (prior_consistency p) flag
           (upsample p) (scaled_cols p) (scaled_rows p).

(** [std::setw(8) << std::setfill('0') << id]. *)
Fixpoint zeros_str (n : nat) : string :=
  match n with
  | O => EmptyString
  | S n => String "0" (zeros_str n)
  end.

Definition setw8 (id : Z) : string :=
  let s := pretty id in
  (zeros_str (8 - String.length s) ++ s)%string.

Definition result_folder_of (dense_folder : string) (id : Z) : string :=
  (dense_folder ++ "/HPM_MVS_plusplus" ++ "/2333_" ++ setw8 id)%string.

(** The getters read [cameras[0]]; without a camera the model answers 0. *)
Definition GetReferenceImageWidth (o : HPM) : Z := default 0 (width <$> cameras o !! 0%nat).
Definition GetReferenceImageHeight (o : HPM) : Z := default 0 (height <$> cameras o !! 0%nat).
Definition GetMinDepth (o : HPM) : float := p_depth_min (params o).
Definition GetMaxDepth (o : HPM) : float := p_depth_max (params o).

(* ===================================================================== *)
(** ** Loading and rescaling views *)

(** [v[i]] on a [std::vector]: out of range has no defined meaning. *)
Definition vector_at {A : Type} (v : list A) (i : Z) : outcome A :=
  if i <? 0 then Undefined
  else match v !! Z.to_nat i with
       | Some x => Returned x
       | None => Undefined
       end.

(** A loop whose body may leave the normal course. *)
Fixpoint foldM {A S : Type} (body : A -> S -> outcome S) (l : list A) (s : S) : outcome S :=
  match l with
  | [] => Returned s
  | a :: l => s' ← body a s; foldM body l s'
  end.

(** [image_uint.convertTo(image_float, CV_32FC1)]. *)
Definition convertTo_32FC1 (m : Mat_ byte) : Mat :=
  mkMat (rows m) (cols m) (channels m)
        ((fun b => f32_of_float (float_of_int (byte_to_Z b))) <$> data m).

Section Host.

(** Collaborators outside this file: OpenCV's [cv::resize] to
    [cv::Size(cols, rows)] with [INTER_LINEAR] on 8-bit and on float
    images, [cv::imread(path, IMREAD_GRAYSCALE)], and the text parser
    [ReadCamera] (whose result leaves [height] and [width] to the
    caller). *)
Variable cv_resize_8u : Mat_ byte -> Z -> Z -> Mat_ byte.
Variable cv_resize_32f : Mat -> Z -> Z -> Mat.
Variable imread_grayscale : FileSystem -> string -> Mat_ byte.
Variable ReadCamera : FileSystem -> string -> Camera.

(** [RescaleImageAndCamera(src, dst, depth, camera)]: the new [dst] and
    [camera]. *)
Definition RescaleImageAndCamera (src dst : Mat_ byte) (depth : Mat) (camera : Camera)
  : Mat_ byte * Camera :=
  let cols_ := cols depth in
  let rows_ := rows depth in
  if (cols_ =? cols src) && (rows_ =? rows src) then (src, camera)
  else
    let scale_x := fdiv (float_of_int cols_) (float_of_int (cols src)) in
    let scale_y := fdiv (float_of_int rows_) (float_of_int (rows src)) in
    let dst := cv_resize_8u src cols_ rows_ in
    let camera := Camera_set_K 0%fin (fmul (K camera !!! 0%fin) scale_x) camera in
    let camera := Camera_set_K 2%fin (fmul (K camera !!! 2%fin) scale_x) camera in
    let camera := Camera_set_K 4%fin (fmul (K camera !!! 4%fin) scale_y) camera in
    let camera := Camera_set_K 5%fin (fmul (K camera !!! 5%fin) scale_y) camera in
    (dst, Camera_set_size rows_ cols_ camera).

(** One view as [InuputInitialization] loads it: the image converted to
    float, the camera with the image's size recorded. *)
Definition load_view (fs : FileSystem) (image_folder cam_folder : string) (id : Z)
  : Mat * Camera :=
  let image_path := (image_folder ++ "/" ++ setw8 id ++ ".jpg")%string in
  let image_uint := imread_grayscale fs image_path in
  let image_float := convertTo_32FC1 image_uint in
  let cam_path := (cam_folder ++ "/" ++ setw8 id ++ "_cam.txt")%string in
  let camera := ReadCamera fs cam_path in
  (image_float, Camera_set_size (rows image_float) (cols image_float) camera).

(** The factors and target size the scaling loop computes for an image
    of [cols_] by [rows_] pixels. *)
Definition scaled_size (max_image_size cols_ rows_ : Z) : Z * Z :=
  let factor_x := fdiv (float_of_int max_image_size) (float_of_int cols_) in
  let factor_y := fdiv (float_of_int max_image_size) (float_of_int rows_) in
  let factor := fmin factor_x factor_y in
  let new_cols := int_of_float (fround (fmul (float_of_int cols_) factor)) in
  let new_rows := int_of_float (fround (fmul (float_of_int rows_) factor)) in
  (new_cols, new_rows).

Definition scale_factor (new_size old_size : Z) : float :=
  fdiv (float_of_int new_size) (float_of_int old_size).

(** What the loop does to image [i] and its camera once
    [max_image_size] is known. *)
Definition scale_view (max_image_size : Z) (image : Mat) (camera : Camera) : Mat * Camera :=
  if (cols image <=? max_image_size) && (rows image <=? max_image_size)
  then (image, camera)
  else
    let '(new_cols, new_rows) := scaled_size max_image_size (cols image) (rows image) in
    let scale_x := scale_factor new_cols (cols image) in
    let scale_y := scale_factor new_rows (rows image) in
    let scaled_image_float := cv_resize_32f image new_cols new_rows in
    let camera := Camera_set_K 0%fin (fmul (K camera !!! 0%fin) scale_x) camera in
    let camera := Camera_set_K 2%fin (fmul (K camera !!! 2%fin) scale_x) camera in
    let camera := Camera_set_K 4%fin (fmul (K camera !!! 4%fin) scale_y) camera in
    let camera := Camera_set_K 5%fin (fmul (K camera !!! 5%fin) scale_y) camera in
    (scaled_image_float,
     Camera_set_size (rows scaled_image_float) (cols scaled_image_float) camera).

(** [max_image_size] as iteration [i] of the scaling loop sets it: for
    a source view, the working size of the problem its id indexes. *)
Definition max_image_size_for (problems : list Problem) (problem : Problem) (i : nat)
    (max_image_size : Z) : outcome Z :=
  if (0 <? i)%nat then
    src ← vector_at (src_image_ids problem) (Z.of_nat i - 1);
    p ← vector_at problems src;
    Returned (cur_image_size p)
  else Returned max_image_size.

(** The body of the loop "Scale cameras and images" at index [i]; the
    state is [max_image_size], [images], [cameras]. *)
Definition scale_step (problems : list Problem) (problem : Problem) (i : nat)
    (s : Z * list Mat * list Camera) : outcome (Z * list Mat * list Camera) :=
  let '(max_image_size, images, cameras) := s in
  max_image_size ← max_image_size_for problems problem i max_image_size;
  image ← vector_at images (Z.of_nat i);
  camera ← vector_at cameras (Z.of_nat i);
  let '(image', camera') := scale_view max_image_size image camera in
  Returned (max_image_size, <[i := image']> images, <[i := camera']> cameras).

Definition depth_suffix (p : PatchMatchParams) : string :=
  if multi_geometry p then "/depths_geom.dmb"%string else "/depths.dmb"%string.

(** [HPM::InuputInitialization(dense_folder, problems, idx)]. *)
Definition InuputInitialization (fs : FileSystem) (dense_folder : string)
    (problems : list Problem) (idx : Z) (o : HPM) : outcome HPM :=
  problem ← vector_at problems idx;
  let image_folder := (dense_folder ++ "/images")%string in
  let cam_folder := (dense_folder ++ "/cams")%string in
  let views := load_view fs image_folder cam_folder
                 <$> (ref_image_id problem :: src_image_ids problem) in
  let images := fst <$> views in
  let cameras := snd <$> views in
  '(_, images, cameras) ←
    foldM (scale_step problems problem) (seq 0 (length images))
          (cur_image_size problem, images, cameras);
  camera0 ← vector_at cameras 0;
  let o := set_cameras cameras (set_images images o) in
  let o := set_params (with_depth_range (fmul (depth_min camera0) f0_6)
                                        (fmul (depth_max camera0) f1_2)) o in
  let o := set_params (with_num_images (Z.of_nat (length images))) o in
  let o := set_params (fun p =>
             with_disparity
               (fdiv (fmul (K camera0 !!! 0%fin) (baseline p)) (p_depth_max p))
               (fdiv (fmul (K camera0 !!! 0%fin) (baseline p)) (p_depth_min p)) p) o in
  if geom_consistency (params o) then
    let suffix := depth_suffix (params o) in
    let read_depth (id : Z) (ds : list Mat) : outcome (list Mat) :=
      '(_, depth) ← readDepthDmb fs (result_folder_of dense_folder id ++ suffix)%string
                                 (Mat_empty 1);
      Returned (ds ++ [depth]) in
    ds ← foldM read_depth (ref_image_id problem :: src_image_ids problem) [];
    Returned (set_depths ds o)
  else Returned o.

End Host.

(* ===================================================================== *)
(** ** The device runtime *)

(** Device resources come in three kinds, each with its own pair of
    calls: linear memory ([cudaMalloc] / [cudaFree]), arrays
    ([cudaMallocArray] / [cudaFreeArray]) and texture objects
    ([cudaCreateTextureObject] / [cudaDestroyTextureObject]). *)
Inductive dev_kind : Type := Buffer | Array | Texture.

#[global] Instance dev_kind_eq_dec : EqDecision dev_kind.
Proof. solve_decision. Defined.

(** The runtime hands out fresh allocations and is told to release them;
    the log keeps every such call in order.  Calls are taken to succeed:
    in the [HPM] methods their status is not looked at. *)
Inductive dev_event : Type :=
| Acquire (k : dev_kind) (h : nat)
| Release (k : dev_kind) (h : nat).

#[global] Instance dev_event_eq_dec : EqDecision dev_event.
Proof. solve_decision. Defined.

Record Device : Type := mkDevice {
  next_handle : nat;
  dev_log : list dev_event
}.

Definition Device_fresh : Device := mkDevice 0 [].

(** The allocating call of kind [k]: a fresh allocation. *)
Definition Device_acquire (k : dev_kind) (d : Device) : nat * Device :=
  (next_handle d, mkDevice (S (next_handle d)) (dev_log d ++ [Acquire k (next_handle d)])).

(** The releasing call of kind [k] on allocation [h]. *)
Definition Device_release (k : dev_kind) (h : nat) (d : Device) : Device :=
  mkDevice (next_handle d) (dev_log d ++ [Release k h]).

(** The allocating call of kind [k], storing its result in member [f]. *)
Definition dev_acquire (k : dev_kind) (f : dev_field) (s : HPM * Device) : HPM * Device :=
  let '(o, d) := s in
  let '(h, d) := Device_acquire k d in
  (set_dev_ptrs (fun g => if decide (g = f) then Some h else dev_ptrs o g) o, d).

(** The releasing call of kind [k] on what member [f] holds; the member
    keeps its value.  On a null pointer the call does nothing. *)
Definition dev_release (k : dev_kind) (f : dev_field) (s : HPM * Device) : HPM * Device :=
  let '(o, d) := s in
  match dev_ptrs o f with
  | Some h => (o, Device_release k h d)
  | None => (o, d)
  end.

Definition cudaMalloc := dev_acquire Buffer.
Definition cudaFree := dev_release Buffer.
Definition cudaMallocArray := dev_acquire Array.
Definition cudaFreeArray := dev_release Array.
Definition cudaCreateTextureObject := dev_acquire Texture.
Definition cudaDestroyTextureObject := dev_release Texture.

(** How often the log acquires, and releases, allocation [h]. *)
Definition is_acquire (h : nat) (e : dev_event) : bool :=
  match e with Acquire _ h' => Nat.eqb h h' | Release _ _ => false end.
Definition is_release (h : nat) (e : dev_event) : bool :=
  match e with Release _ h' => Nat.eqb h h' | Acquire _ _ => false end.
Definition acquired (h : nat) (log : list dev_event) : nat :=
  length (List.filter (is_acquire h) log).
Definition released (h : nat) (log : list dev_event) : nat :=
  length (List.filter (is_release h) log).

(** [HPM::HPM() {}], over the [params] the object is given by the
    [Set...Params] calls. *)
Definition HPM_new (p : PatchMatchParams) : HPM :=
  mkHPM [] [] [] p 0 [] [] [] [] (fun _ => None).

(** Pixels in the order of the source's nested loops: columns outside,
    rows inside. *)
Definition col_row_pairs (width height : Z) : list (Z * Z) :=
  col ← seqZ 0 width; row ← seqZ 0 height; [(col, row)].

(** [a[center] = v] on a host array. *)
Definition array_set {A : Type} (a : list A) (center : Z) (v : A) : list A :=
  if 0 <=? center then <[Z.to_nat center := v]> a else a.

(** [HPM::CudaSpaceInitialization(dense_folder, problem)].  Of the device
    only the allocations are followed; what [cudaMemcpy] puts there is
    not. *)
Definition CudaSpaceInitialization (fs : FileSystem) (dense_folder : string)
    (problem : Problem) (s : HPM * Device) : outcome (HPM * Device) :=
  let '(o, d) := s in
  let o := set_num_images (Z.of_nat (length (images o))) o in
  let s := foldl (fun s i => cudaCreateTextureObject (texture_objects_host_images i)
                               (cudaMallocArray (cuArray i) s))
                 (o, d) (seq 0 (Z.to_nat (num_images o))) in
  let s := cudaMalloc texture_objects_cuda s in
  let s := cudaMalloc cameras_cuda s in
  camera0 ← vector_at (cameras o) 0;
  let cam_height := height camera0 in
  let cam_width := width camera0 in
  let n := Z.to_nat (cam_height * cam_width) in
  let s := (set_plane_hypotheses_host (replicate n float4_default) (fst s), snd s) in
  let s := cudaMalloc plane_hypotheses_cuda s in
  let s := (set_costs_host (replicate n f32_zero) (fst s), snd s) in
  let s := cudaMalloc costs_cuda s in
  let s := cudaMalloc pre_costs_cuda s in
  let s := cudaMalloc rand_states_cuda s in
  let s := cudaMalloc selected_views_cuda s in
  let s := cudaMalloc depths_cuda s in
  s ← (if geom_consistency (params o) then
         s ← foldM (fun i s =>
                      _ ← vector_at (depths o) (Z.of_nat i);
                      Returned (cudaCreateTextureObject (texture_depths_host_images i)
                                  (cudaMallocArray (cuDepthArray i) s)))
                   (seq 0 (Z.to_nat (num_images o))) s;
         let s := cudaMalloc texture_depths_cuda s in
         let result_folder := result_folder_of dense_folder (ref_image_id problem) in
         let suffix := depth_suffix (params o) in
         let depth_path := (result_folder ++ suffix)%string in
         let normal_path := (result_folder ++ "/normals.dmb")%string in
         let cost_path := (result_folder ++ "/costs.dmb")%string in
         '(_, ref_depth) ← readDepthDmb fs depth_path (Mat_empty 1);
         let s := (set_depths (depths (fst s) ++ [ref_depth]) (fst s), snd s) in
         '(_, ref_normal) ← readNormalDmb fs normal_path (Mat_empty 3);
         '(_, ref_cost) ← readDepthDmb fs cost_path (Mat_empty 1);
         let width := cols ref_depth in
         let height := rows ref_depth in
         let fill (o : HPM) (p : Z * Z) : HPM :=
           let '(col, row) := p in
           let center := row * width + col in
           let plane_hypothesis :=
             make_float4 (Mat_at ref_normal row col 0) (Mat_at ref_normal row col 1)
                         (Mat_at ref_normal row col 2) (Mat_at ref_depth row col 0) in
           let o := set_plane_hypotheses_host
                      (array_set (plane_hypotheses_host o) center plane_hypothesis) o in
           set_costs_host (array_set (costs_host o) center (Mat_at ref_cost row col 0)) o in
         Returned (foldl fill (fst s) (col_row_pairs width height), snd s)
       else Returned s);
  if hierarchy (params o) then
    let result_folder := result_folder_of dense_folder (ref_image_id problem) in
    let depth_path := (result_folder ++ "/depths.dmb")%string in
    let normal_path := (result_folder ++ "/normals.dmb")%string in
    let cost_path := (result_folder ++ "/costs.dmb")%string in
    '(_, ref_depth) ← readDepthDmb fs depth_path (Mat_empty 1);
    let s := (set_depths (depths (fst s) ++ [ref_depth]) (fst s), snd s) in
    '(_, ref_normal) ← readNormalDmb fs normal_path (Mat_empty 3);
    '(_, ref_cost) ← readDepthDmb fs cost_path (Mat_empty 1);
    let width := cols ref_normal in
    let height := rows ref_normal in
    let s := (set_scaled_plane_hypotheses_host
                (replicate (Z.to_nat (height * width)) float4_default) (fst s), snd s) in
    let s := cudaMalloc scaled_plane_hypotheses_cuda s in
    let s := (set_pre_costs_host (replicate (Z.to_nat (height * width)) f32_zero) (fst s),
              snd s) in
    let s := cudaMalloc pre_costs_cuda s in
    image0 ← vector_at (images o) 0;
    let s :=
      if negb (width =? rows image0) || negb (height =? cols image0)
      then (set_params (fun p => with_upsample true width height p) (fst s), snd s)
      else (set_params (fun p => with_upsample false (scaled_cols p) (scaled_rows p) p) (fst s),
            snd s) in
    let fill_scaled (o : HPM) (p : Z * Z) : HPM :=
      let '(col, row) := p in
      let center := row * width + col in
      let plane_hypothesis :=
        make_float4 (Mat_at ref_normal row col 0) (Mat_at ref_normal row col 1)
                    (Mat_at ref_normal row col 2)
                    (if upsample (params o) then Mat_at ref_cost row col 0
                     else Mat_at ref_depth row col 0) in
      set_scaled_plane_hypotheses_host
        (array_set (scaled_plane_hypotheses_host o) center plane_hypothesis) o in
    let o1 := foldl fill_scaled (fst s) (col_row_pairs width height) in
    let fill_depth (o : HPM) (p : Z * Z) : HPM :=
      let '(col, row) := p in
      let center := row * cam_width + col in
      let plane_hypothesis :=
        make_float4 f32_zero f32_zero f32_zero (Mat_at ref_depth row col 0) in
      set_plane_hypotheses_host
        (array_set (plane_hypotheses_host o) center plane_hypothesis) o in
    let o2 := foldl fill_depth o1 (col_row_pairs cam_width cam_height) in
    Returned (o2, snd s)
  else Returned s.

(** [HPM::CudaPlanarPriorRelease()]. *)
Definition CudaPlanarPriorRelease (s : HPM * Device) : HPM * Device :=
  let s := cudaFree prior_planes_cuda s in
  let s := cudaFree plane_masks_cuda s in
  cudaFree Canny_cuda s.

(** [HPM::CudaSpaceRelease(geom_consistency)]. *)
Definition CudaSpaceRelease (geom : bool) (s : HPM * Device) : HPM * Device :=
  let s := cudaFree texture_objects_cuda s in
  let s := cudaFree cameras_cuda s in
  let s := cudaFree plane_hypotheses_cuda s in
  let s := cudaFree costs_cuda s in
  let s := cudaFree rand_states_cuda s in
  let s := cudaFree selected_views_cuda s in
  let s := cudaFree depths_cuda s in
  let s := cudaFree texture_cuda s in
  if geom then cudaFree texture_depths_cuda s else s.

(** [HPM::~HPM()]: what it asks of the device (the host arrays it
    deletes have no lifetime in this model). *)
Definition HPM_destructor (s : HPM * Device) : HPM * Device :=
  let o := fst s in
  let s := foldl (fun s i => cudaFreeArray (cuArray i)
                               (cudaDestroyTextureObject (texture_objects_host_images i) s))
                 s (seq 0 (Z.to_nat (num_images o))) in
  let s := cudaFree texture_objects_cuda s in
  let s := cudaFree cameras_cuda s in
  let s := cudaFree plane_hypotheses_cuda s in
  let s := cudaFree costs_cuda s in
  let s := cudaFree pre_costs_cuda s in
  let s := cudaFree rand_states_cuda s in
  let s := cudaFree selected_views_cuda s in
  let s := cudaFree depths_cuda s in
  let s :=
    if geom_consistency (params o) then
      let s := foldl (fun s i => cudaFreeArray (cuDepthArray i)
                                   (cudaDestroyTextureObject (texture_depths_host_images i) s))
                     s (seq 0 (Z.to_nat (num_images o))) in
      cudaFree texture_depths_cuda s
    else s in
  let s :=
    if hierarchy (params o) then
      let s := cudaFree scaled_plane_hypotheses_cuda s in
      cudaFree pre_costs_cuda s
    else s in
  if prior_consistency (params o) then
    let s := cudaFree prior_planes_cuda s in
    cudaFree plane_masks_cuda s
  else s.

(* ===================================================================== *)
(** ** Support points for the planar prior *)

(** [cv::Point]; default-constructed at the origin. *)
Record Point : Type := mkPoint { pt_x : Z; pt_y : Z }.

Definition Point_default : Point := mkPoint 0 0.

(** The locals of one tile of [GetSupportPoints_Classify_Check]. *)
Record TileScan : Type := mkTileScan {
  min_cost_no_texture : float;
  min_cost_texture : float;
  temp_point_no_texture : Point;
  temp_point_texture : Point;
  texture_flag : bool
}.

Definition TileScan_init : TileScan :=
  mkTileScan f2_0 f2_0 Point_default Point_default false.

(** [photometric_cost - confidence], in single precision. *)
Definition final_cost_no_texture (photometric_cost confidence : float) : float :=
  fsub photometric_cost confidence.

(** [photometric_cost + 0.2 - confidence]: the literal is a [double], so
    the sum and the difference are, and the result is rounded into the
    [float] local. *)
Definition final_cost_texture (photometric_cost confidence : float) : float :=
  float_of_double
    (dsub (dadd (double_of_float photometric_cost) d0_2) (double_of_float confidence)).

(** The body of the two inner loops at pixel [(c, r)]. *)
Definition scan_pixel (costs confidences texture : Mat) (st : TileScan) (p : Z * Z)
  : TileScan :=
  let '(c, r) := p in
  let texture_flag :=
    if flt f0_5 (f32_val (Mat_at texture r c 0)) then true else texture_flag st in
  let photometric_cost := f32_val (Mat_at costs r c 0) in
  let confidence := f32_val (Mat_at confidences r c 0) in
  if flt photometric_cost f2_0 then
    let no_texture := final_cost_no_texture photometric_cost confidence in
    let with_texture := final_cost_texture photometric_cost confidence in
    let '(pt_no, min_no) :=
      if flt no_texture (min_cost_no_texture st)
      then (mkPoint c r, no_texture)
      else (temp_point_no_texture st, min_cost_no_texture st) in
    let '(pt_tx, min_tx) :=
      if flt with_texture (min_cost_texture st)
      then (mkPoint c r, with_texture)
      else (temp_point_texture st, min_cost_texture st) in
    mkTileScan min_no min_tx pt_no pt_tx texture_flag
  else
    mkTileScan (min_cost_no_texture st) (min_cost_texture st)
               (temp_point_no_texture st) (temp_point_texture st) texture_flag.

(** The pixels of the tile at [(col, row)], columns outside, rows inside. *)
Definition tile_pixels (width height : Z) (tile : Z * Z) : list (Z * Z) :=
  let '(col, row) := tile in
  let step_size := 5 in
  let c_bound := Z.min width (col + step_size) in
  let r_bound := Z.min height (row + step_size) in
  c ← seqZ col (c_bound - col); r ← seqZ row (r_bound - row); [(c, r)].

Definition scan_tile (width height : Z) (costs confidences texture : Mat) (tile : Z * Z)
  : TileScan :=
  foldl (scan_pixel costs confidences texture) TileScan_init (tile_pixels width height tile).

(** [min_cost < 0.1]: the literal is a [double], the minimum is
    promoted. *)
Definition below_threshold (min_cost : float) : bool :=
  flt (double_of_float min_cost) d0_1.

(** What one tile appends to [support2DPoints]. *)
Definition tile_support_points (width height : Z) (costs confidences texture : Mat)
    (tile : Z * Z) : list Point :=
  let st := scan_tile width height costs confidences texture tile in
  (if below_threshold (min_cost_texture st) then [temp_point_texture st] else [])
  ++ (if below_threshold (min_cost_no_texture st) then [temp_point_no_texture st] else []).

(** The values [0, 5, 10, ...] below [bound] that the outer loops step
    through. *)
Definition tile_starts (bound : Z) : list Z :=
  (fun k => k * 5) <$> seqZ 0 ((bound + 4) `div` 5).

Definition tiles (width height : Z) : list (Z * Z) :=
  col ← tile_starts width; row ← tile_starts height; [(col, row)].

(** [HPM::GetSupportPoints_Classify_Check]: the final [support2DPoints]. *)
Definition GetSupportPoints_Classify_Check (o : HPM) (costs confidences texture : Mat)
    (hpm_factor : float) : list Point :=
  let width := int_of_float (fmul (float_of_int (GetReferenceImageWidth o)) hpm_factor) in
  let height := int_of_float (fmul (float_of_int (GetReferenceImageHeight o)) hpm_factor) in
  tile ← tiles width height; tile_support_points width height costs confidences texture tile.

(* ===================================================================== *)
(** ** Joint bilateral upsampling: the host side *)

(** [a[center]] on a host array; outside the array the sample is
    unspecified and taken as zero. *)
Definition array_get {A : Type} (dflt : A) (a : list A) (center : Z) : A :=
  if 0 <=? center then default dflt (a !! Z.to_nat center) else dflt.

Definition to_uint32 (x : Z) : Z := x mod 2 ^ 32.

(** [JBUAddImageToTextureFloatGray]: one array and one texture object per
    image; the new contents of [cuArray] and [texs]. *)
Definition JBUAddImageToTextureFloatGray (numSelViews : nat) (d : Device)
  : list nat * list nat * Device :=
  foldl (fun '(arrays, texs, d) _ =>
           let '(a, d) := Device_acquire Array d in
           let '(x, d) := Device_acquire Texture d in
           (arrays ++ [a], texs ++ [x], d))
        ([], [], d) (seq 0 numSelViews).

(** The loop of [CUDA_SAFE_CALL]s that destroys the texture objects and
    frees the arrays.  (The calls are taken to succeed, so the [exit] in
    [CudaSafeCall] is not reached.) *)
Definition JBU_release_textures (arrays texs : list nat) (d : Device) : Device :=
  foldl (fun d '(a, x) => Device_release Array a (Device_release Texture x d))
        d (zip arrays texs).

Section JBU.

(** Not part of this file: the number of images [JBU_NUM] bound for a
    run, and the device passes [JBU::CudaRun] and
    [JBU_prior::CudaRun_prior], taken by what they leave in [depth_h]
    (and [normal_h]) for a guidance image, a coarse depth map (and
    normal map) and a scale. *)
Variable JBU_NUM : nat.
Variable CudaRun : Mat -> Mat -> Z -> list f32.
Variable CudaRun_prior : Mat -> Mat -> Mat -> Z -> list f32 * list float4.

(** [std::max(image.rows / depth.rows, image.cols / depth.cols)]; a
    coarse map without rows or columns makes this a division by zero. *)
Definition Imagescale_of (scaled_image_float src_depthmap : Mat) : outcome Z :=
  if (rows src_depthmap =? 0) || (cols src_depthmap =? 0) then Undefined
  else Returned (Z.max (rows scaled_image_float ÷ rows src_depthmap)
                       (cols scaled_image_float ÷ cols src_depthmap)).

(** The body of the post-pass of [RunJBU] at column [i], row [j]. *)
Definition RunJBU_fallback (src_depthmap : Mat) (cols_ : Z) (s : list f32 * Mat)
    (p : Z * Z) : list f32 * Mat :=
  let '(i, j) := p in
  let '(depth_h, depthmap) := s in
  let center := wrap32 (i + cols_ * j) in
  let depth_h :=
    if f32_isnan (array_get f32_zero depth_h center)
    then array_set depth_h center (Mat_at src_depthmap (j ÷ 2) (i ÷ 2) 0)
    else depth_h in
  (depth_h, Mat_set depthmap j i 0 (array_get f32_zero depth_h center)).

(** [RunJBU(scaled_image_float, src_depthmap, dense_folder, problem)]
    on the file store and the device.  The copies to and from the device
    and [create_directories] leave no trace in this model; the releases
    at the end are the loop of [CUDA_SAFE_CALL]s and then [JBU::~JBU]. *)
Definition RunJBU (scaled_image_float src_depthmap : Mat) (dense_folder : string)
    (problem : Problem) (w : FileSystem * Device) : outcome (FileSystem * Device) :=
  let '(fs, d) := w in
  let rows_ := to_uint32 (rows scaled_image_float) in
  let cols_ := to_uint32 (cols scaled_image_float) in
  Imagescale ← Imagescale_of scaled_image_float src_depthmap;
  if Imagescale =? 1 then Returned (fs, d)
  else if (JBU_NUM <? 2)%nat then Undefined
  else
    let '(jbu_cuArray, jt_imgs, d) := JBUAddImageToTextureFloatGray JBU_NUM d in
    let '(depth_d, d) := Device_acquire Buffer d in
    let '(jp_d, d) := Device_acquire Buffer d in
    let '(jt_d, d) := Device_acquire Buffer d in
    let depth_h := CudaRun scaled_image_float src_depthmap Imagescale in
    let depthmap := Mat_zeros rows_ cols_ 1 in
    let '(depth_h, depthmap) :=
      foldl (RunJBU_fallback src_depthmap cols_) (depth_h, depthmap)
            (col_row_pairs cols_ rows_) in
    let disp0 := depthmap in
    let result_folder := result_folder_of dense_folder (ref_image_id problem) in
    let depth_path := (result_folder ++ "/depths.dmb")%string in
    '(_, fs) ← writeDepthDmb fs depth_path disp0;
    let d := JBU_release_textures jbu_cuArray jt_imgs d in
    let d := Device_release Buffer depth_d d in
    let d := Device_release Buffer jp_d d in
    let d := Device_release Buffer jt_d d in
    Returned (fs, d).

(** The body of the post-pass of [JointBilateralUpsampling_prior]. *)
Definition prior_fallback (src_depthmap src_normal : Mat) (cols_ : Z)
    (depth_h : list f32) (normal_h : list float4) (s : Mat * Mat) (p : Z * Z)
  : Mat * Mat :=
  let '(i, j) := p in
  let '(upsample_depthmap, upsample_normal) := s in
  let center := wrap32 (i + cols_ * j) in
  let '(upsample_depthmap, upsample_normal) :=
    if f32_isnan (array_get f32_zero depth_h center) then
      let upsample_depthmap :=
        Mat_set upsample_depthmap j i 0 (Mat_at src_depthmap (j ÷ 2) (i ÷ 2) 0) in
      let upsample_normal :=
        Mat_set upsample_normal j i 0 (Mat_at src_normal (j ÷ 2) (i ÷ 2) 0) in
      let upsample_normal :=
        Mat_set upsample_normal j i 1 (Mat_at src_normal (j ÷ 2) (i ÷ 2) 1) in
      let upsample_normal :=
        Mat_set upsample_normal j i 2 (Mat_at src_normal (j ÷ 2) (i ÷ 2) 2) in
      (upsample_depthmap, upsample_normal)
    else (upsample_depthmap, upsample_normal) in
  let upsample_depthmap :=
    Mat_set upsample_depthmap j i 0 (array_get f32_zero depth_h center) in
  let n := array_get float4_default normal_h center in
  let upsample_normal := Mat_set upsample_normal j i 0 (f4x n) in
  let upsample_normal := Mat_set upsample_normal j i 1 (f4y n) in
  let upsample_normal := Mat_set upsample_normal j i 2 (f4z n) in
  (upsample_depthmap, upsample_normal).

(** [HPM::JointBilateralUpsampling_prior]: the new [upsample_depthmap]
    and [upsample_normal], and the device.  The releases at the end are
    the loop of [CUDA_SAFE_CALL]s, [ReleaseJBUCudaMemory_prior] and then
    [JBU_prior::~JBU_prior]. *)
Definition JointBilateralUpsampling_prior
    (scaled_image_float src_depthmap upsample_depthmap src_normal upsample_normal : Mat)
    (d : Device) : outcome (Mat * Mat * Device) :=
  let rows_ := to_uint32 (rows scaled_image_float) in
  let cols_ := to_uint32 (cols scaled_image_float) in
  Imagescale ← Imagescale_of scaled_image_float src_depthmap;
  if Imagescale =? 1 then Returned (upsample_depthmap, upsample_normal, d)
  else if (JBU_NUM <? 2)%nat then Undefined
  else
    let '(jbu_cuArray, jt_imgs, d) := JBUAddImageToTextureFloatGray JBU_NUM d in
    let '(depth_d, d) := Device_acquire Buffer d in
    let '(normal_d, d) := Device_acquire Buffer d in
    let '(normal_origin_cuda, d) := Device_acquire Buffer d in
    let '(jp_d, d) := Device_acquire Buffer d in
    let '(jt_d, d) := Device_acquire Buffer d in
    let '(depth_h, normal_h) :=
      CudaRun_prior scaled_image_float src_depthmap src_normal Imagescale in
    let '(upsample_depthmap, upsample_normal) :=
      foldl (prior_fallback src_depthmap src_normal cols_ depth_h normal_h)
            (upsample_depthmap, upsample_normal) (col_row_pairs cols_ rows_) in
    let d := JBU_release_textures jbu_cuArray jt_imgs d in
    let d := Device_release Buffer depth_d d in
    let d := Device_release Buffer normal_d d in
    let d := Device_release Buffer normal_origin_cuda d in
    let d := Device_release Buffer jp_d d in
    let d := Device_release Buffer jt_d d in
    let d := Device_release Buffer depth_d d in
    let d := Device_release Buffer jp_d d in
    let d := Device_release Buffer jt_d d in
    Returned (upsample_depthmap, upsample_normal, d).

End JBU.

(* ===================================================================== *)
(** ** Reloading hypotheses, and reading them back *)






(* ===================================================================== *)
(** ** Point clouds as PLY files *)

Record float3 : Type := make_float3 { f3x : f32; f3y : f32; f3z : f32 }.

(** One point of the cloud. *)
Record PointList : Type := mkPointList {
  coord : float3;
  normal : float3;
  color : float3
}.

(** [FLT_MAX], and the comparison [a >= b] as [SFleb b a]. *)
Definition FLT_MAX : float := S754_finite false (2 ^ 24 - 1) 104.
Definition fle (a b : spec_float) : bool := SFleb a b.

(** The coordinates as they are written: all three are zeroed unless
    [X.x] and [X.y] lie strictly between [-FLT_MAX] and [FLT_MAX] and
    [X.z] lies in [-FLT_MAX, FLT_MAX).  (Comparisons are those of
    IEEE 754; the release flags of the build let the compiler assume
    finite operands.) *)
Definition ply_coord (X : float3) : float3 :=
  let x := f32_val (f3x X) in
  let y := f32_val (f3y X) in
  let z := f32_val (f3z X) in
  if negb (flt x FLT_MAX && flt (SFopp FLT_MAX) x)
     || negb (flt y FLT_MAX && flt (SFopp FLT_MAX) y)
     || negb (flt z FLT_MAX && fle (SFopp FLT_MAX) z)
  then make_float3 f32_zero f32_zero f32_zero
  else X.

(** [const char c = (int)v]: truncation to [int], then the low byte. *)
Definition char_of_float (v : f32) : byte := byte_of_Z (int_of_float (f32_val v)).

(** What one iteration writes inside its critical section; the second
    exporter writes the normal as well. *)
Definition ply_vertex (with_normal : bool) (p : PointList) : list byte :=
  let X := ply_coord (coord p) in
  let b_color := char_of_float (f3x (color p)) in
  let g_color := char_of_float (f3y (color p)) in
  let r_color := char_of_float (f3z (color p)) in
  f32_bytes (f3x X) ++ f32_bytes (f3y X) ++ f32_bytes (f3z X)
  ++ (if with_normal
      then f32_bytes (f3x (normal p)) ++ f32_bytes (f3y (normal p))
           ++ f32_bytes (f3z (normal p))
      else [])
  ++ [r_color; g_color; b_color].

Definition newline : string := String "010"%char EmptyString.

(** The text header.  The count goes through [%d]: the low 32 bits of
    [pc.size()], read as an [int]. *)
Definition ply_header (with_normal : bool) (count : nat) : string :=
  ("ply" ++ newline
   ++ "format binary_little_endian 1.0" ++ newline
   ++ "element vertex " ++ pretty (wrap32 (Z.of_nat count)) ++ newline
   ++ "property float x" ++ newline
   ++ "property float y" ++ newline
   ++ "property float z" ++ newline
   ++ (if with_normal
       then "property float nx" ++ newline
            ++ "property float ny" ++ newline
            ++ "property float nz" ++ newline
       else "")
   ++ "property uchar red" ++ newline
   ++ "property uchar green" ++ newline
   ++ "property uchar blue" ++ newline
   ++ "end_header" ++ newline)%string.

(** The body shared by [ExportPointCloud] and
    [StoreColorPlyFileBinaryPointCloud]; the stream is not tested after
    [fopen].  The loop is an OpenMP [parallel for] whose iterations write
    inside a critical section: [order] is the sequence in which the
    iterations reach it ([seq 0 (length pc)] when the loop runs
    sequentially). *)
Definition write_ply (with_normal : bool) (order : list nat) (fs : FileSystem)
    (plyFilePath : string) (pc : list PointList) : outcome FileSystem :=
  match fopen_wb fs plyFilePath with
  | None => Undefined
  | Some outputPly =>
      let outputPly :=
        outputPly ++ list_byte_of_string (ply_header with_normal (length pc)) in
      outputPly ←
        foldM (fun i outputPly =>
                 p ← vector_at pc (Z.of_nat i);
                 Returned (outputPly ++ ply_vertex with_normal p))
              order outputPly;
      Returned (fclose_w fs plyFilePath outputPly)
  end.

Definition ExportPointCloud : list nat -> FileSystem -> string -> list PointList
                              -> outcome FileSystem := write_ply false.
Definition StoreColorPlyFileBinaryPointCloud
  : list nat -> FileSystem -> string -> list PointList -> outcome FileSystem :=
  write_ply true.

(* ===================================================================== *)
(** ** Vocabulary of the properties, and the inputs they are tried on *)

(** What [readDmb] does once the four header fields are in hand. *)
Definition readDmb_payload (ch : Z) (content : list byte) (h w nb : Z) : outcome (Z * Mat) :=
  let got := fread_f32 (Z.to_nat (size_t_of_int32 (wrap32 (h * w * nb)))) (drop 16 content) in
  if (length got <=? length (data (Mat_zeros h w ch)))%nat then
    Returned (0, mkMat h w ch (got ++ drop (length got) (data (Mat_zeros h w ch))))
  else Undefined.

(** What the caller of a read function can observe, for a reader [read]
    into a matrix of [ch] channels. *)
Definition cannot_open_or_wrong_tag (fs : FileSystem) (path : string) : Prop :=
  fs_files fs !! path = None
  \/ exists c, fs_files fs !! path = Some c /\ dmb_type_tag c <> 1.

Definition signals_failure (ch : Z) (read : FileSystem -> string -> Mat -> outcome (Z * Mat))
    (fs : FileSystem) (path : string) (m : Mat) : Prop :=
  (read fs path m = Returned (-1, m) <-> cannot_open_or_wrong_tag fs path) /\
  read fs path m <> Exited /\
  (forall r m', read fs path m = Returned (r, m') ->
     (r = -1 /\ m' = m /\ cannot_open_or_wrong_tag fs path) \/
     (r = 0 /\ exists c h w nb,
        fs_files fs !! path = Some c /\ dmb_header c = Some (1, h, w, nb) /\
        rows m' = h /\ cols m' = w /\ channels m' = ch)).

Definition fs_sample : FileSystem :=
  mkFS {[ "d/depths.dmb"%string :=
            int32_bytes 1 ++ int32_bytes 1 ++ int32_bytes 2 ++ int32_bytes 1
            ++ f32_bytes (f32_of_bits 1065353216) ++ f32_bytes (f32_of_bits 2143289344) ]}
       (fun _ => true).

(** The camera [camera'] is [camera] rescaled by [(sx, sy)] for the
    resized image [resized]: the focal and principal-point entries of
    [K] are multiplied (in single precision), the recorded size is that
    of [resized], and everything else is as before. *)
Definition jointly_rescaled {A : Type} (sx sy : float) (camera camera' : Camera)
    (resized : Mat_ A) : Prop :=
  K camera' !!! 0%fin = fmul (K camera !!! 0%fin) sx /\
  K camera' !!! 2%fin = fmul (K camera !!! 2%fin) sx /\
  K camera' !!! 4%fin = fmul (K camera !!! 4%fin) sy /\
  K camera' !!! 5%fin = fmul (K camera !!! 5%fin) sy /\
  K camera' !!! 1%fin = K camera !!! 1%fin /\
  K camera' !!! 3%fin = K camera !!! 3%fin /\
  K camera' !!! 6%fin = K camera !!! 6%fin /\
  K camera' !!! 7%fin = K camera !!! 7%fin /\
  K camera' !!! 8%fin = K camera !!! 8%fin /\
  R camera' = R camera /\ t camera' = t camera /\
  depth_min camera' = depth_min camera /\ depth_max camera' = depth_max camera /\
  width camera' = cols resized /\ height camera' = rows resized.

(** The calibration file [InuputInitialization] reads for view [id]. *)
Definition cam_path_of (dense_folder : string) (id : Z) : string :=
  ((dense_folder ++ "/cams") ++ "/" ++ setw8 id ++ "_cam.txt")%string.

(** A concrete run: one reference view of 4 by 2 pixels whose working
    size is 2, so that the image is halved. *)
Definition resize_8u_blank (m : Mat_ byte) (c r : Z) : Mat_ byte :=
  mkMat r c (channels m) (replicate (Z.to_nat (r * c * channels m)) x00).

Definition resize_32f_blank (m : Mat) (c r : Z) : Mat := Mat_zeros r c (channels m).

Definition imread_gray_4x2 (fs : FileSystem) (path : string) : Mat_ byte :=
  mkMat 2 4 1 (replicate 8 x80).

Definition ReadCamera_fixed (fs : FileSystem) (path : string) : Camera :=
  mkCamera
    [# float_of_int 100; float_of_int 0; float_of_int 2;
       float_of_int 0; float_of_int 100; float_of_int 1;
       float_of_int 0; float_of_int 0; float_of_int 1]
    [# float_of_int 1; float_of_int 0; float_of_int 0;
       float_of_int 0; float_of_int 1; float_of_int 0;
       float_of_int 0; float_of_int 0; float_of_int 1]
    [# float_of_int 0; float_of_int 0; float_of_int 0]
    0 0 (float_of_int 2) (float_of_int 10).

Definition params_plain : PatchMatchParams :=
  mkParams 3 (float_of_int 0) (float_of_int 0) 0 (float_of_int 1)
           (float_of_int 0) (float_of_int 0) false false false false false false 0 0.

Definition HPM_after_input : HPM :=
  Eval vm_compute in
    match InuputInitialization resize_32f_blank imread_gray_4x2 ReadCamera_fixed
            fs_sample "d" [mkProblem 0 [] 2] 0 (HPM_new params_plain) with
    | Returned o' => o'
    | _ => HPM_new params_plain
    end.

(** A container file as [writeDmb] lays it out. *)
Definition dmb_file (h w nb : Z) (samples : list f32) : list byte :=
  int32_bytes 1 ++ int32_bytes h ++ int32_bytes w ++ int32_bytes nb
  ++ concat (f32_bytes <$> samples).

Definition f32_of_int (n : Z) : f32 := f32_of_float (float_of_int n).

Definition camera_of_size (h w : Z) : Camera :=
  Camera_set_size h w (ReadCamera_fixed fs_sample "").

(** The stored coarse result of view 0: depths 1 and 2, costs 7 and 8,
    normals (0, 0, 1), on a grid of [h] rows by [w] columns with
    [h * w = 2]. *)
Definition fs_coarse (h w : Z) : FileSystem :=
  mkFS {[ "d/HPM_MVS_plusplus/2333_00000000/depths.dmb"%string :=
            dmb_file h w 1 [f32_of_int 1; f32_of_int 2];
          "d/HPM_MVS_plusplus/2333_00000000/normals.dmb"%string :=
            dmb_file h w 3 [f32_of_int 0; f32_of_int 0; f32_of_int 1;
                            f32_of_int 0; f32_of_int 0; f32_of_int 1];
          "d/HPM_MVS_plusplus/2333_00000000/costs.dmb"%string :=
            dmb_file h w 1 [f32_of_int 7; f32_of_int 8] ]}
       (fun _ => true).

(** An object holding one reference image of [h] rows by [w] columns,
    with hierarchy switched on. *)
Definition HPM_hierarchical (h w : Z) : HPM :=
  set_cameras [camera_of_size h w]
    (set_images [Mat_zeros h w 1] (HPM_new (SetHierarchyParams params_plain))).

Definition run_CudaSpaceInitialization (stored_h stored_w image_h image_w : Z)
  : outcome (HPM * Device) :=
  CudaSpaceInitialization (fs_coarse stored_h stored_w) "d" (mkProblem 0 [] 2)
    (HPM_hierarchical image_h image_w, Device_fresh).

(** The device log of an object's life: [CudaSpaceInitialization] on a
    fresh device, then teardown. *)
Definition lifetime_log (o : HPM) (teardown : HPM * Device -> HPM * Device)
  : option (list dev_event) :=
  match CudaSpaceInitialization (fs_coarse 1 2) "d" (mkProblem 0 [] 2) (o, Device_fresh) with
  | Returned s => Some (dev_log (snd (teardown s)))
  | _ => None
  end.

(** Every allocation the log acquires is released exactly once. *)
Definition released_exactly_once (log : list dev_event) : Prop :=
  forall h, acquired h log = 1%nat -> released h log = 1%nat.

(** One running minimum of the tile scan: pixel [p] takes over when it is
    a candidate and its score is below the minimum so far. *)
Definition track (valid : Z * Z -> bool) (score : Z * Z -> float)
    (acc : float * Point) (p : Z * Z) : float * Point :=
  if valid p && flt (score p) (fst acc) then (score p, mkPoint (fst p) (snd p)) else acc.

Definition pixel_value (m : Mat) (p : Z * Z) : float := f32_val (Mat_at m (snd p) (fst p) 0).

(** A pixel takes part when its photometric cost is below 2. *)
Definition is_candidate (costs : Mat) (p : Z * Z) : bool := flt (pixel_value costs p) f2_0.

Definition score_no_texture (costs confidences : Mat) (p : Z * Z) : float :=
  final_cost_no_texture (pixel_value costs p) (pixel_value confidences p).

Definition score_texture (costs confidences : Mat) (p : Z * Z) : float :=
  final_cost_texture (pixel_value costs p) (pixel_value confidences p).

Definition point_of (p : Z * Z) : Point := mkPoint (fst p) (snd p).

(** Pixel [p] holds the lowest [score] among the candidates of [pixels]
    and that score is below the acceptance threshold 0.1. *)
Definition accepted_minimum (costs : Mat) (score : Z * Z -> float)
    (pixels : list (Z * Z)) (p : Z * Z) : Prop :=
  p ∈ pixels /\ is_candidate costs p = true /\ below_threshold (score p) = true /\
  forall q, q ∈ pixels -> is_candidate costs q = true -> flt (score q) (score p) = false.



(** Width and height as [GetSupportPoints_Classify_Check] computes them. *)
Definition support_width (o : HPM) (hpm_factor : float) : Z :=
  int_of_float (fmul (float_of_int (GetReferenceImageWidth o)) hpm_factor).
Definition support_height (o : HPM) (hpm_factor : float) : Z :=
  int_of_float (fmul (float_of_int (GetReferenceImageHeight o)) hpm_factor).



(** An image of two pixels side by side.  The left one is textured, with
    cost [2^-27] and confidence 0.15, so that [cost + 0.2 - confidence]
    is 0.05; the right one is not, with cost 0.5 and confidence 0. *)
Definition HPM_two_pixels : HPM := set_cameras [camera_of_size 1 2] (HPM_new params_plain).
Definition texture_two_pixels : Mat :=
  mkMat 1 2 1 [f32_of_int 1; f32_zero].

Definition zeros_two_pixels : Mat := Mat_zeros 1 2 1.

(** A coarse result of one pixel: depth 1, normal (0, 0, 1). *)
Definition coarse_depth_1x1 : Mat := mkMat 1 1 1 [f32_of_int 1].
Definition coarse_normal_1x1 : Mat := mkMat 1 1 3 [f32_of_int 0; f32_of_int 0; f32_of_int 1].

(** The claim's reading of the prior variant: at equal resolution the
    maps it hands back are the coarse maps. *)
Definition spec_noop_output_is_input : Prop :=
  forall (JBU_NUM : nat) (CudaRun_prior : Mat -> Mat -> Mat -> Z -> list f32 * list float4)
         (scaled_image_float src_depthmap upsample_depthmap src_normal upsample_normal : Mat)
         (d : Device) (out_depth out_normal : Mat) (d' : Device),
    0 < rows src_depthmap -> 0 < cols src_depthmap ->
    rows scaled_image_float = rows src_depthmap ->
    cols scaled_image_float = cols src_depthmap ->
    JointBilateralUpsampling_prior JBU_NUM CudaRun_prior scaled_image_float src_depthmap
      upsample_depthmap src_normal upsample_normal d = Returned (out_depth, out_normal, d') ->
    out_depth = src_depthmap /\ out_normal = src_normal.

(** A device pass for a 2 by 2 target, with not-a-number in the left
    column. *)
Definition f32_nan : f32 := f32_of_bits 2143289344.
Definition depth_h_with_nan : list f32 := [f32_nan; f32_of_int 3; f32_nan; f32_of_int 4].
Definition normal_h_up : list float4 :=
  replicate 4 (make_float4 (f32_of_int 0) (f32_of_int 1) (f32_of_int 0) f32_zero).

Definition fs_writable_empty : FileSystem := mkFS ∅ (fun _ => true).


Definition in_grid (cols_ rows_ : Z) (p : Z * Z) : Prop :=
  0 <= fst p < cols_ /\ 0 <= snd p < rows_.

(** The file [RunJBU] writes for the reference view of [problem]. *)
Definition upsampled_depth_path (dense_folder : string) (problem : Problem) : string :=
  (result_folder_of dense_folder (ref_image_id problem) ++ "/depths.dmb")%string.



(* ===================================================================== *)
(** ** Vocabulary of the further properties *)

(** What a caller can observe of a writer [write] that announces [nb]
    channels.  It has no failure code: it runs into undefined behaviour
    exactly when the file cannot be opened (the null stream is written
    to all the same) or the matrix holds fewer samples than are to be
    written; otherwise it returns 0, the file at [path] is in the layout
    of the container, and every other file and every permission is as
    before. *)
Definition write_effect (nb : Z)
    (write : FileSystem -> string -> Mat -> outcome (Z * FileSystem))
    (fs : FileSystem) (path : string) (m : Mat) : Prop :=
  let count := Z.to_nat (size_t_of_int32 (wrap32 (cols m * rows m * nb))) in
  (write fs path m = Undefined
   <-> fs_writable fs path = false \/ (length (data m) < count)%nat) /\
  write fs path m <> Exited /\
  forall r fs', write fs path m = Returned (r, fs') ->
    r = 0 /\
    fs_files fs' !! path = Some (dmb_file (rows m) (cols m) nb (take count (data m))) /\
    length (dmb_file (rows m) (cols m) nb (take count (data m))) = (16 + 4 * count)%nat /\
    (forall q, q <> path -> fs_files fs' !! q = fs_files fs !! q) /\
    fs_writable fs' = fs_writable fs.

(** [n] samples of zero. *)
Definition zero_samples (n : Z) : list f32 := replicate (Z.to_nat n) f32_zero.
(** The file [InuputInitialization] reads the depth map of view [id]
    from. *)
Definition depth_path_of (dense_folder : string) (p : PatchMatchParams) (id : Z) : string :=
  (result_folder_of dense_folder id ++ depth_suffix p)%string.

(** The camera records the size of its image. *)
Definition size_recorded (image : Mat) (camera : Camera) : Prop :=
  height camera = rows image /\ width camera = cols image.

(** One reference view whose stored depth map is to be reloaded. *)
Definition params_geom : PatchMatchParams := SetGeomConsistencyParams false params_plain.
(** What holds of a support point: it is a pixel of the image whose
    photometric cost is below 2 and one of whose two adjusted costs is
    below 0.1. *)
Definition support_point_ok (width height : Z) (costs confidences : Mat) (P : Point) : Prop :=
  let p := (pt_x P, pt_y P) in
  in_grid width height p /\ is_candidate costs p = true /\
  (below_threshold (score_texture costs confidences p) = true \/
   below_threshold (score_no_texture costs confidences p) = true).

(** Two pixels whose photometric cost sits at the ceiling 2. *)
Definition costs_at_ceiling : Mat := mkMat 1 2 1 [f32_of_float f2_0; f32_of_float f2_0].
(** The array and texture handles the runtime hands out to [n] images
    when its next allocation is [n0]: image [i] gets array [n0 + 2 i] and
    texture object [n0 + 2 i + 1]. *)
Definition texture_handles (n0 n : nat) : list (nat * nat) :=
  (fun i => (n0 + 2 * i, n0 + 2 * i + 1)%nat) <$> seq 0 n.

Definition texture_acquires (handles : list (nat * nat)) : list dev_event :=
  handles ≫= fun '(a, x) => [Acquire Array a; Acquire Texture x].

Definition texture_releases (handles : list (nat * nat)) : list dev_event :=
  handles ≫= fun '(a, x) => [Release Texture x; Release Array a].

(** Within [log], allocation [h] is acquired [a] times and released [r]
    times. *)
Definition lifetime (h : nat) (log : list dev_event) : nat * nat :=
  (acquired h log, released h log).


(** The host arrays have one element per pixel of a [cols_] by [rows_]
    image. *)
Definition host_arrays_sized (cols_ rows_ : Z) (o : HPM) : Prop :=
  length (plane_hypotheses_host o) = Z.to_nat (rows_ * cols_) /\
  length (costs_host o) = Z.to_nat (rows_ * cols_).



(** What [CudaSpaceInitialization] settles about the host side of an
    object: its images and cameras, the image count, and the sizes of the
    two hypothesis arrays. *)
Definition host_shape (o : HPM) : list Mat * list Camera * Z * nat * nat :=
  (images o, cameras o, num_images o,
   length (plane_hypotheses_host o), length (costs_host o)).
(** The releases a sequence of freeing calls on the members [fields] of
    object [o] comes to: one per member that holds an allocation. *)
Definition release_events (o : HPM) (fields : list (dev_kind * dev_field)) : list dev_event :=
  fields ≫= fun '(k, f) =>
    match dev_ptrs o f with
    | Some h => [Release k h]
    | None => []
    end.

(** The members [CudaSpaceRelease] and the destructor both free. *)
Definition freed_by_both : list dev_field :=
  [texture_objects_cuda; cameras_cuda; plane_hypotheses_cuda; costs_cuda;
   rand_states_cuda; selected_views_cuda; depths_cuda].
(** A stored sample that denotes a number: a zero, or a finite value. *)
Definition f32_finite (v : f32) : bool :=
  match f32_val v with
  | S754_zero _ | S754_finite _ _ _ => true
  | _ => false
  end.

(** The points in the order in which their iterations wrote. *)
Definition points_in_order (pc : list PointList) (order : list nat) : list PointList :=
  omap (fun i => pc !! i) order.

(** What an exporter [export] that writes [size] bytes per vertex leaves
    behind when the file can be created and every iteration of the loop
    has run once, in whatever order. *)
Definition ply_written (with_normal : bool) (size : nat)
    (export : list nat -> FileSystem -> string -> list PointList -> outcome FileSystem)
    (order : list nat) (fs : FileSystem) (path : string) (pc : list PointList) : Prop :=
  exists fs',
    export order fs path pc = Returned fs' /\
    points_in_order pc order ≡ₚ pc /\
    (order = seq 0 (length pc) -> points_in_order pc order = pc) /\
    fs_files fs' !! path
      = Some (list_byte_of_string (ply_header with_normal (length pc))
              ++ concat (ply_vertex with_normal <$> points_in_order pc order)) /\
    length (concat (ply_vertex with_normal <$> points_in_order pc order))
      = (size * length pc)%nat /\
    (forall q, q <> path -> fs_files fs' !! q = fs_files fs !! q).

(** A cloud of two points: one at (1, 2, 3), one whose first coordinate
    is not a number. *)
Definition point_plain : PointList :=
  mkPointList (make_float3 (f32_of_int 1) (f32_of_int 2) (f32_of_int 3))
              (make_float3 (f32_of_int 0) (f32_of_int 0) (f32_of_int 1))
              (make_float3 (f32_of_int 10) (f32_of_int 20) (f32_of_int 30)).
Definition point_nan : PointList :=
  mkPointList (make_float3 f32_nan (f32_of_int 2) (f32_of_int 3))
              (make_float3 (f32_of_int 0) (f32_of_int 0) (f32_of_int 1))
              (make_float3 (f32_of_int 10) (f32_of_int 20) (f32_of_int 30)).
(** The device side of a state: what every pointer member holds, and the
    runtime. *)
Definition device_view (s : HPM * Device) : (dev_field -> ptr) * Device :=
  (dev_ptrs (fst s), snd s).

(** An allocating call of kind [k] into member [f], on the device side
    alone; and a sequence of such calls. *)
Definition view_acquire (k : dev_kind) (f : dev_field) (v : (dev_field -> ptr) * Device)
  : (dev_field -> ptr) * Device :=
  (fun g => if decide (g = f) then Some (next_handle (snd v)) else fst v g,
   snd (Device_acquire k (snd v))).

Definition view_acquire_all (fields : list (dev_kind * dev_field))
    (v : (dev_field -> ptr) * Device) : (dev_field -> ptr) * Device :=
  foldl (fun v '(k, f) => view_acquire k f v) v fields.

(** The allocating calls of [CudaSpaceInitialization] for [n] images, in
    order: per image an array and a texture object, eight buffers, with
    [geom_consistency] the same per depth map and one more buffer, with
    [hierarchy] two more buffers, the second of them into
    [pre_costs_cuda] again. *)
Definition setup_before_pre_costs (n : nat) : list (dev_kind * dev_field) :=
  (seq 0 n ≫= fun i => [(Array, cuArray i); (Texture, texture_objects_host_images i)])
  ++ [(Buffer, texture_objects_cuda); (Buffer, cameras_cuda);
      (Buffer, plane_hypotheses_cuda); (Buffer, costs_cuda)].

Definition setup_after_pre_costs (n : nat) (geom : bool) : list (dev_kind * dev_field) :=
  [(Buffer, rand_states_cuda); (Buffer, selected_views_cuda); (Buffer, depths_cuda)]
  ++ (if geom
      then (seq 0 n ≫= fun i => [(Array, cuDepthArray i);
                                  (Texture, texture_depths_host_images i)])
           ++ [(Buffer, texture_depths_cuda)]
      else []).

Definition setup_fields (n : nat) (geom hier : bool) : list (dev_kind * dev_field) :=
  setup_before_pre_costs n ++ [(Buffer, pre_costs_cuda)] ++ setup_after_pre_costs n geom
  ++ (if hier
      then [(Buffer, scaled_plane_hypotheses_cuda); (Buffer, pre_costs_cuda)]
      else []).

(** Every pointer member holds nothing or an allocation the runtime has
    handed out. *)
Definition pointers_known (v : (dev_field -> ptr) * Device) : Prop :=
  forall g h, fst v g = Some h -> (h < next_handle (snd v))%nat.

(** No member holds allocation [h]. *)
Definition unheld (h : nat) (ptrs : dev_field -> ptr) : Prop :=
  forall g, ptrs g <> Some h.

(** The log entries of a sequence of allocating calls that starts with
    allocation [n0]. *)
Fixpoint acquire_events (n0 : nat) (fields : list (dev_kind * dev_field)) : list dev_event :=
  match fields with
  | [] => []
  | (k, _) :: fields => Acquire k n0 :: acquire_events (S n0) fields
  end.

(** The number of allocating calls of [CudaSpaceInitialization] for [n]
    images. *)
Definition setup_count (n : nat) (geom hier : bool) : nat :=
  (2 * n + 8 + (if geom then 2 * n + 1 else 0) + (if hier then 2 else 0))%nat.
(** A string without its leading zeros. *)
Fixpoint strip_zeros (s : string) : string :=
  match s with
  | String "0" s' => strip_zeros s'
  | _ => s
  end.

(* ===================================================================== *)
(** * Properties *)

(** ** Bytes and header fields *)

Lemma byte_to_Z_range (b : byte) : 0 <= byte_to_Z b < 256.
Proof.
  unfold byte_to_Z. pose proof (Byte.to_N_bounded b). lia.
Qed.

Lemma byte_to_of_Z (z : Z) : byte_to_Z (byte_of_Z z) = z mod 256.
Proof.
  unfold byte_to_Z, byte_of_Z.
  assert (Hr : 0 <= z mod 256 < 256) by (apply Z.mod_pos_bound; lia).
  destruct (Byte.of_N (Z.to_N (z mod 256))) as [b|] eqn:E.
  - apply Byte.to_of_N in E. rewrite E. lia.
  - apply Byte.of_N_None_iff in E. lia.
Qed.

Lemma wrap32_range (x : Z) : in_int32 (wrap32 x).
Proof.
  unfold in_int32, wrap32.
  pose proof (Z.mod_pos_bound (x + 2 ^ 31) (2 ^ 32) ltac:(lia)). lia.
Qed.

Lemma wrap32_id (x : Z) : in_int32 x -> wrap32 x = x.
Proof.
  unfold in_int32, wrap32. intros H.
  rewrite Z.mod_small by lia. lia.
Qed.

Lemma int32_of_bytes_range b0 b1 b2 b3 : in_int32 (int32_of_bytes b0 b1 b2 b3).
Proof. apply wrap32_range. Qed.

Lemma int32_bytes_roundtrip (v : Z) :
  in_int32 v ->
  match int32_bytes v with
  | [b0; b1; b2; b3] => int32_of_bytes b0 b1 b2 b3 = v
  | _ => False
  end.
Proof.
  intros Hv. unfold int32_bytes, int32_of_bytes.
  rewrite !byte_to_of_Z.
  replace (v / 2 ^ 16) with (v / 2 ^ 8 / 2 ^ 8)
    by (rewrite Z.div_div by lia; reflexivity).
  replace (v / 2 ^ 24) with (v / 2 ^ 8 / 2 ^ 8 / 2 ^ 8)
    by (rewrite !Z.div_div by lia; reflexivity).
  change (2 ^ 8) with 256.
  pose proof (Z.div_mod v 256 ltac:(lia)) as E0.
  pose proof (Z.div_mod (v / 256) 256 ltac:(lia)) as E1.
  pose proof (Z.div_mod (v / 256 / 256) 256 ltac:(lia)) as E2.
  pose proof (Z.div_mod (v / 256 / 256 / 256) 256 ltac:(lia)) as E3.
  set (q4 := v / 256 / 256 / 256 / 256) in *.
  replace (v mod 256 + 256 * (v / 256 mod 256) + 2 ^ 16 * (v / 256 / 256 mod 256)
           + 2 ^ 24 * (v / 256 / 256 / 256 mod 256))
    with (v + (- q4) * 2 ^ 32) by lia.
  unfold wrap32.
  replace (v + - q4 * 2 ^ 32 + 2 ^ 31) with (v + 2 ^ 31 + - q4 * 2 ^ 32) by lia.
  rewrite Z.mod_add by lia.
  apply wrap32_id, Hv.
Qed.

Lemma fread_int32_written (v : Z) (rest : list byte) :
  in_int32 v -> fread_int32 (int32_bytes v ++ rest) = (Some v, rest).
Proof.
  intros Hv. pose proof (int32_bytes_roundtrip v Hv) as H.
  unfold int32_bytes in *. cbn [app fread_int32]. rewrite H. reflexivity.
Qed.

Lemma fread_f32_written (l : list f32) (n : nat) :
  (length l <= n)%nat -> fread_f32 n (concat (f32_bytes <$> l)) = l.
Proof.
  revert n. induction l as [|[[[b0 b1] b2] b3] l IH]; intros n Hn.
  - destruct n; reflexivity.
  - destruct n as [|n]; [simpl in Hn; lia|].
    cbn. f_equal. apply IH. simpl in Hn. lia.
Qed.


(** ** The binary container: reading *)

Lemma readDmb_opened (ch : Z) (fs : FileSystem) (path : string) (m : Mat) (content : list byte) :
  fs_files fs !! path = Some content ->
  readDmb ch fs path m =
    if negb (dmb_type_tag content =? 1) then Returned (-1, m)
    else match dmb_header content with
         | Some (_, h, w, nb) => readDmb_payload ch content h w nb
         | None => Undefined
         end.
Proof.
  intros Hopen. unfold readDmb, fopen_rb. rewrite Hopen.
  unfold dmb_type_tag, dmb_header, readDmb_payload.
  destruct content as [|b0 [|b1 [|b2 [|b3 f1]]]]; try reflexivity.
  destruct f1 as [|c0 [|c1 [|c2 [|c3 f2]]]];
    [| | | |destruct f2 as [|d0 [|d1 [|d2 [|d3 f3]]]];
              [| | | |destruct f3 as [|e0 [|e1 [|e2 [|e3 f4]]]]]];
    cbn [fread_int32 fst default from_option id];
    destruct (negb (int32_of_bytes b0 b1 b2 b3 =? 1)); reflexivity.
Qed.

Lemma readDmb_payload_not_failure ch content h w nb r m :
  readDmb_payload ch content h w nb = Returned (r, m) -> r = 0.
Proof.
  unfold readDmb_payload.
  destruct (_ <=? _)%nat; intros H; [|discriminate].
  injection H as <- _. reflexivity.
Qed.


Lemma dmb_header_type_tag (content : list byte) (t h w nb : Z) :
  dmb_header content = Some (t, h, w, nb) -> dmb_type_tag content = t.
Proof.
  unfold dmb_header, dmb_type_tag.
  destruct (fread_int32 content) as [[t'|] f1]; cbn;
    destruct (fread_int32 f1) as [[?|] f2]; cbn;
    destruct (fread_int32 f2) as [[?|] f3]; cbn;
    destruct (fread_int32 f3) as [[?|] f4]; cbn; congruence.
Qed.

Lemma readDmb_signals (ch : Z) (fs : FileSystem) (path : string) (m : Mat) :
  signals_failure ch (readDmb ch) fs path m.
Proof.
  unfold signals_failure, cannot_open_or_wrong_tag.
  destruct (fs_files fs !! path) as [c|] eqn:Hopen.
  - rewrite (readDmb_opened ch fs path m c Hopen).
    destruct (Z.eqb_spec (dmb_type_tag c) 1) as [Ht|Ht]; cbn [negb].
    + destruct (dmb_header c) as [[[[t h] w] nb]|] eqn:Hhdr.
      * pose proof (dmb_header_type_tag c t h w nb Hhdr) as Htag.
        assert (t = 1) as -> by congruence.
        unfold readDmb_payload. destruct (_ <=? _)%nat.
        -- split; [|split].
           ++ split; [discriminate|]. intros [H|(c' & Hc & Hne)]; congruence.
           ++ discriminate.
           ++ intros r m' H. injection H as <- <-. right. split; [reflexivity|].
              exists c, h, w, nb. repeat split; try reflexivity. exact Hhdr.
        -- split; [|split].
           ++ split; [discriminate|]. intros [H|(c' & Hc & Hne)]; congruence.
           ++ discriminate.
           ++ discriminate.
      * split; [|split].
        -- split; [discriminate|]. intros [H|(c' & Hc & Hne)]; congruence.
        -- discriminate.
        -- discriminate.
    + assert (Hbad : Some c = None \/ exists c', Some c = Some c' /\ dmb_type_tag c' <> 1)
        by (right; exists c; split; [reflexivity|exact Ht]).
      split; [|split].
      * split; [intros _; exact Hbad|reflexivity].
      * discriminate.
      * intros r m' H. injection H as <- <-. left. repeat split; try reflexivity. exact Hbad.
  - unfold readDmb, fopen_rb. rewrite Hopen.
    split; [|split].
    + split; [intros _; left; reflexivity|reflexivity].
    + discriminate.
    + intros r m' H. injection H as <- <-. left. repeat split; try reflexivity.
      left. reflexivity.
Qed.



(** ** The binary container: writing, then reading *)

Lemma size_t_of_count (n : Z) :
  0 <= n < 2 ^ 31 -> Z.to_nat (size_t_of_int32 (wrap32 n)) = Z.to_nat n.
Proof.
  intros Hn. rewrite wrap32_id by (unfold in_int32; lia).
  unfold size_t_of_int32. rewrite Z.mod_small by lia. reflexivity.
Qed.

Lemma writeDmb_readDmb (ch : Z) (fs : FileSystem) (path : string) (m out : Mat) :
  0 < ch -> 0 < rows m -> 0 < cols m -> channels m = ch ->
  Z.of_nat (length (data m)) = rows m * cols m * ch ->
  rows m * cols m * ch < 2 ^ 31 ->
  fs_writable fs path = true ->
  exists fs', writeDmb ch fs path m = Returned (0, fs')
              /\ readDmb ch fs' path out = Returned (0, m).
Proof.
  intros Hch Hr Hc Hchan Hlen Hrange Hw.
  assert (Hrc : 0 < rows m * cols m) by lia.
  assert (Hrows : in_int32 (rows m)) by (unfold in_int32; nia).
  assert (Hcols : in_int32 (cols m)) by (unfold in_int32; nia).
  assert (Hnb : in_int32 ch) by (unfold in_int32; nia).
  assert (Hcount : Z.to_nat (rows m * cols m * ch) = length (data m)) by lia.
  unfold writeDmb, fopen_wb. rewrite Hw.
  replace (cols m * rows m * ch) with (rows m * cols m * ch) by lia.
  rewrite size_t_of_count by lia. rewrite Hcount, Nat.leb_refl, firstn_all.
  eexists; split; [reflexivity|].
  unfold readDmb, fopen_rb, fclose_w; cbn [fs_files].
  rewrite lookup_insert_eq.
  unfold fwrite_f32, fwrite_int32. cbn [app]. rewrite <- !app_assoc.
  rewrite (fread_int32_written 1) by (unfold in_int32; lia).
  rewrite (fread_int32_written (rows m)) by assumption.
  rewrite (fread_int32_written (cols m)) by assumption.
  rewrite (fread_int32_written ch) by assumption.
  cbn [default from_option id Z.eqb Pos.eqb negb].
  rewrite size_t_of_count by lia. rewrite Hcount.
  rewrite fread_f32_written by lia.
  cbn [Mat_zeros data]. rewrite length_replicate, Hcount, Nat.leb_refl.
  rewrite drop_ge by (rewrite length_replicate; lia).
  rewrite app_nil_r.
  destruct m as [r c k d]; cbn in *. subst k. reflexivity.
Qed.

(** C4.  A depth map (one channel) written by [writeDepthDmb] and read
    back by [readDepthDmb], and a normal map (three channels) written by
    [writeNormalDmb] and read back by [readNormalDmb], come back with
    return code 0 and as the very same matrix: same height, same width,
    the same four bytes for every sample.  The dimensions are positive
    and the sample count fits an [int32_t]; the file can be created. *)
Theorem dmb_write_read_roundtrip (fs : FileSystem) (path : string) (m out : Mat)
    (Hrows : 0 < rows m) (Hcols : 0 < cols m)
    (Hlen : Z.of_nat (length (data m)) = rows m * cols m * channels m)
    (Hrange : rows m * cols m * channels m < 2 ^ 31)
    (Hcreate : fs_writable fs path = true) :
  (channels m = 1 ->
     exists fs', writeDepthDmb fs path m = Returned (0, fs')
                 /\ readDepthDmb fs' path out = Returned (0, m)) /\
  (channels m = 3 ->
     exists fs', writeNormalDmb fs path m = Returned (0, fs')
                 /\ readNormalDmb fs' path out = Returned (0, m)).
Proof.
  split; intros Hch; rewrite Hch in *;
    apply writeDmb_readDmb; try assumption; lia.
Qed.

Lemma dmb_write_read_roundtrip_witness :
  let m := mkMat 1 2 1 [f32_of_bits 1065353216; f32_of_bits 2143289344] in
  (0 < rows m /\ 0 < cols m /\ fs_writable fs_sample "d/out.dmb" = true) /\
  exists fs', writeDepthDmb fs_sample "d/out.dmb" m = Returned (0, fs')
              /\ readDepthDmb fs' "d/out.dmb" (Mat_empty 1 : Mat) = Returned (0, m).
Proof.
  intros m. split; [repeat split; reflexivity|].
  apply (dmb_write_read_roundtrip fs_sample "d/out.dmb" m (Mat_empty 1 : Mat));
    try reflexivity.
Defined.

(** ** Outcomes *)

Lemma bind_Returned {A B : Type} (m : outcome A) (f : A -> outcome B) (b : B) :
  m ≫= f = Returned b -> exists a, m = Returned a /\ f a = Returned b.
Proof.
  destruct m as [a| |]; cbn; intros H; try discriminate.
  exists a. split; [reflexivity|exact H].
Qed.

Lemma vector_at_Returned {A : Type} (v : list A) (i : nat) (x : A) :
  vector_at v (Z.of_nat i) = Returned x <-> v !! i = Some x.
Proof.
  unfold vector_at. destruct (Z.ltb_spec (Z.of_nat i) 0) as [Hneg|_]; [lia|].
  rewrite Nat2Z.id. destruct (v !! i) as [y|]; split; intros H;
    try discriminate; congruence.
Qed.

Lemma vector_at_in_range {A : Type} (v : list A) (i : Z) :
  0 <= i < Z.of_nat (length v) -> exists x, vector_at v i = Returned x.
Proof.
  intros Hi. unfold vector_at.
  destruct (Z.ltb_spec i 0) as [Hneg|_]; [lia|].
  destruct (lookup_lt_is_Some_2 v (Z.to_nat i) ltac:(lia)) as [x Hx].
  exists x. rewrite Hx. reflexivity.
Qed.

(** ** Rescaling an image together with its camera *)

Lemma rescale_K_jointly {A : Type} (sx sy : float) (camera : Camera) (resized : Mat_ A) :
  let c1 := Camera_set_K 0%fin (fmul (K camera !!! 0%fin) sx) camera in
  let c2 := Camera_set_K 2%fin (fmul (K c1 !!! 2%fin) sx) c1 in
  let c3 := Camera_set_K 4%fin (fmul (K c2 !!! 4%fin) sy) c2 in
  let c4 := Camera_set_K 5%fin (fmul (K c3 !!! 5%fin) sy) c3 in
  jointly_rescaled sx sy camera
    (Camera_set_size (rows resized) (cols resized) c4) resized.
Proof.
  destruct camera as [k r tr h w dmin dmax].
  inv_vec k; intros k0 k1 k2 k3 k4 k5 k6 k7 k8.
  repeat split.
Qed.

Section HostProperties.

Variable cv_resize_8u : Mat_ byte -> Z -> Z -> Mat_ byte.
Variable cv_resize_32f : Mat -> Z -> Z -> Mat.
Variable imread_grayscale : FileSystem -> string -> Mat_ byte.
Variable ReadCamera : FileSystem -> string -> Camera.

Lemma RescaleImageAndCamera_resampled (src dst : Mat_ byte) (depth : Mat) (camera : Camera) :
  (forall m c r, 0 < c -> 0 < r ->
     cols (cv_resize_8u m c r) = c /\ rows (cv_resize_8u m c r) = r) ->
  0 < cols depth -> 0 < rows depth ->
  (cols depth =? cols src) && (rows depth =? rows src) = false ->
  let '(dst', camera') := RescaleImageAndCamera cv_resize_8u src dst depth camera in
  dst' = cv_resize_8u src (cols depth) (rows depth) /\
  jointly_rescaled (scale_factor (cols depth) (cols src))
                   (scale_factor (rows depth) (rows src)) camera camera' dst'.
Proof.
  intros Hsize Hpc Hpr Hne. unfold RescaleImageAndCamera. rewrite Hne.
  split; [reflexivity|].
  destruct (Hsize src (cols depth) (rows depth) Hpc Hpr) as [Hc Hr].
  pose proof (rescale_K_jointly (scale_factor (cols depth) (cols src))
                (scale_factor (rows depth) (rows src)) camera
                (cv_resize_8u src (cols depth) (rows depth))) as H.
  cbv zeta in H. unfold jointly_rescaled in *.
  destruct H as (H0 & H2 & H4 & H5 & H1 & H3 & H6 & H7 & H8 & HR & Ht & Hmin & Hmax & _ & _).
  repeat split; try assumption.
  - cbn. symmetry. exact Hc.
  - cbn. symmetry. exact Hr.
Qed.

Lemma scale_view_kept (max_image_size : Z) (image : Mat) (camera : Camera) :
  (cols image <=? max_image_size) && (rows image <=? max_image_size) = true ->
  scale_view cv_resize_32f max_image_size image camera = (image, camera).
Proof. intros H. unfold scale_view. rewrite H. reflexivity. Qed.

Lemma scale_view_resampled (max_image_size : Z) (image : Mat) (camera : Camera) :
  (cols image <=? max_image_size) && (rows image <=? max_image_size) = false ->
  let '(new_cols, new_rows) := scaled_size max_image_size (cols image) (rows image) in
  let '(image', camera') := scale_view cv_resize_32f max_image_size image camera in
  image' = cv_resize_32f image new_cols new_rows /\
  jointly_rescaled (scale_factor new_cols (cols image))
                   (scale_factor new_rows (rows image)) camera camera' image'.
Proof.
  intros H. unfold scale_view. rewrite H.
  destruct (scaled_size max_image_size (cols image) (rows image)) as [nc nr].
  split; [reflexivity|].
  apply (rescale_K_jointly (scale_factor nc (cols image))
                           (scale_factor nr (rows image)) camera).
Qed.

Lemma scale_view_depth_range (max_image_size : Z) (image : Mat) (camera : Camera) :
  let camera' := snd (scale_view cv_resize_32f max_image_size image camera) in
  depth_min camera' = depth_min camera /\ depth_max camera' = depth_max camera.
Proof.
  unfold scale_view.
  destruct ((cols image <=? max_image_size) && (rows image <=? max_image_size));
    [split; reflexivity|].
  destruct (scaled_size max_image_size (cols image) (rows image)) as [nc nr].
  split; reflexivity.
Qed.

Lemma max_image_size_for_source problems problem (i : nat) (m m' : Z) :
  (0 < i)%nat ->
  max_image_size_for problems problem i m = max_image_size_for problems problem i m'.
Proof.
  intros Hi. unfold max_image_size_for.
  destruct (Nat.ltb_spec 0 i) as [_|]; [reflexivity|lia].
Qed.

(** The scaling loop touches view [i] in iteration [i] and nowhere
    else. *)
Lemma scale_loop_pointwise problems problem (n : nat) :
  forall (k : nat) (max0 : Z) (imgs : list Mat) (cams : list Camera) s',
  foldM (scale_step cv_resize_32f problems problem) (seq k n) (max0, imgs, cams)
    = Returned s' ->
  length (snd (fst s')) = length imgs /\ length (snd s') = length cams /\
  forall i : nat,
    ((i < k \/ k + n <= i)%nat ->
       snd (fst s') !! i = imgs !! i /\ snd s' !! i = cams !! i) /\
    ((k <= i < k + n)%nat ->
       exists image camera max_i,
         imgs !! i = Some image /\ cams !! i = Some camera /\
         max_image_size_for problems problem i max0 = Returned max_i /\
         snd (fst s') !! i = Some (fst (scale_view cv_resize_32f max_i image camera)) /\
         snd s' !! i = Some (snd (scale_view cv_resize_32f max_i image camera))).
Proof.
  induction n as [|n IH]; intros k max0 imgs cams s' Hrun.
  - cbn in Hrun. injection Hrun as <-. cbn.
    repeat split; intros; lia.
  - cbn [seq foldM] in Hrun.
    apply bind_Returned in Hrun as (s1 & Hstep & Hrest).
    unfold scale_step in Hstep.
    apply bind_Returned in Hstep as (max_k & Hmax & Hstep).
    apply bind_Returned in Hstep as (image & Himg & Hstep).
    apply bind_Returned in Hstep as (camera & Hcam & Hstep).
    apply vector_at_Returned in Himg, Hcam.
    destruct (scale_view cv_resize_32f max_k image camera) as [image' camera'] eqn:Hview.
    injection Hstep as <-.
    destruct (IH _ _ _ _ _ Hrest) as (Hli & Hlc & Hpt).
    rewrite length_insert in Hli. rewrite length_insert in Hlc.
    split; [exact Hli|]. split; [exact Hlc|].
    intros i. split.
    + intros Hout. destruct (Hpt i) as [Hsame _].
      destruct (Hsame ltac:(lia)) as [Hi Hc].
      rewrite Hi, Hc.
      rewrite !list_lookup_insert_ne by lia. split; reflexivity.
    + intros Hin. destruct (Nat.eq_dec i k) as [->|Hne].
      * destruct (Hpt k) as [Hsame _].
        destruct (Hsame ltac:(lia)) as [Hi Hc].
        exists image, camera, max_k. rewrite Hi, Hc.
        rewrite !list_lookup_insert_eq by (eapply lookup_lt_Some; eassumption).
        rewrite Hview. repeat split; try assumption; reflexivity.
      * destruct (Hpt i) as [_ Hlater].
        destruct (Hlater ltac:(lia)) as (im & ca & mi & Him & Hca & Hmi & Hi & Hc).
        rewrite list_lookup_insert_ne in Him by lia.
        rewrite list_lookup_insert_ne in Hca by lia.
        exists im, ca, mi. repeat split; try assumption.
        rewrite <- Hmi. apply max_image_size_for_source. lia.
Qed.

Lemma scale_loop_returns problems problem (n : nat) :
  forall (k : nat) (max0 : Z) (imgs : list Mat) (cams : list Camera),
  (k + n <= length imgs)%nat -> (k + n <= length cams)%nat ->
  (k + n <= S (length (src_image_ids problem)))%nat ->
  Forall (fun id => 0 <= id < Z.of_nat (length problems)) (src_image_ids problem) ->
  exists s', foldM (scale_step cv_resize_32f problems problem) (seq k n) (max0, imgs, cams)
             = Returned s'.
Proof.
  induction n as [|n IH]; intros k max0 imgs cams Hi Hc Hs Hsrc.
  - eexists. reflexivity.
  - cbn [seq foldM].
    assert (Hstep : exists mx imgs1 cams1,
              scale_step cv_resize_32f problems problem k (max0, imgs, cams)
                = Returned (mx, imgs1, cams1)
              /\ length imgs1 = length imgs /\ length cams1 = length cams).
    { unfold scale_step.
      assert (Hmax : exists m, max_image_size_for problems problem k max0 = Returned m).
      { unfold max_image_size_for. destruct (Nat.ltb_spec 0 k) as [Hk|_]; [|eauto].
        destruct (vector_at_in_range (src_image_ids problem) (Z.of_nat k - 1) ltac:(lia))
          as [src Hsrcat].
        rewrite Hsrcat. cbn.
        assert (Hin : 0 <= src < Z.of_nat (length problems)).
        { rewrite Forall_forall in Hsrc. apply Hsrc.
          replace (Z.of_nat k - 1) with (Z.of_nat (k - 1)) in Hsrcat by lia.
          apply vector_at_Returned in Hsrcat.
          eapply list_elem_of_lookup_2, Hsrcat. }
        destruct (vector_at_in_range problems src Hin) as [p Hp].
        rewrite Hp. cbn. eauto. }
      destruct Hmax as [m ->]. cbn [mbind outcome_bind].
      destruct (vector_at_in_range imgs (Z.of_nat k) ltac:(lia)) as [image ->].
      destruct (vector_at_in_range cams (Z.of_nat k) ltac:(lia)) as [camera ->].
      cbn [mbind outcome_bind].
      destruct (scale_view cv_resize_32f m image camera) as [image' camera'].
      do 3 eexists. split; [reflexivity|].
      rewrite !length_insert. split; reflexivity. }
    destruct Hstep as (mx & imgs1 & cams1 & -> & Hl1 & Hl2).
    cbn [mbind outcome_bind]. apply IH; try lia. exact Hsrc.
Qed.

(** What a returning [InuputInitialization] has done. *)
Lemma InuputInitialization_Returned fs dense_folder problems idx o o' :
  InuputInitialization cv_resize_32f imread_grayscale ReadCamera
    fs dense_folder problems idx o = Returned o' ->
  exists problem s' camera0,
    vector_at problems idx = Returned problem /\
    (let views := load_view imread_grayscale ReadCamera fs
                    (dense_folder ++ "/images") (dense_folder ++ "/cams")
                    <$> (ref_image_id problem :: src_image_ids problem) in
     foldM (scale_step cv_resize_32f problems problem) (seq 0 (length (fst <$> views)))
           (cur_image_size problem, fst <$> views, snd <$> views) = Returned s') /\
    images o' = snd (fst s') /\ cameras o' = snd s' /\
    snd s' !! 0%nat = Some camera0 /\
    p_depth_min (params o') = fmul (depth_min camera0) f0_6 /\
    p_depth_max (params o') = fmul (depth_max camera0) f1_2.
Proof.
  intros Hrun. unfold InuputInitialization in Hrun.
  apply bind_Returned in Hrun as (problem & Hproblem & Hrun).
  apply bind_Returned in Hrun as ([[mx imgs] cams] & Hloop & Hrun).
  apply bind_Returned in Hrun as (camera0 & Hcam0 & Hrun).
  apply (vector_at_Returned cams 0%nat) in Hcam0.
  exists problem, (mx, imgs, cams), camera0.
  split; [exact Hproblem|]. split; [exact Hloop|].
  cbn [fst snd].
  destruct (geom_consistency _) in Hrun.
  - apply bind_Returned in Hrun as (ds & _ & Hrun).
    injection Hrun as <-. repeat split; try reflexivity; exact Hcam0.
  - injection Hrun as <-. repeat split; try reflexivity; exact Hcam0.
Qed.

(** C5.  Wherever this file resamples an image, its camera follows.
    In [RescaleImageAndCamera], when the depth map's (positive) size
    differs from the image's and [cv::resize] delivers the size it is
    asked for, and
    in the scaling loop of [InuputInitialization], for every view whose
    image exceeds its working size: [K[0]] and [K[2]] are multiplied by
    the horizontal factor, [K[4]] and [K[5]] by the vertical one, width
    and height are those of the resized image, and the other entries of
    [K], and [R], [t] and the depth range, are as they were.  A view
    within its working size keeps image and camera. *)
Theorem camera_rescaled_with_image
    (src dst : Mat_ byte) (depth : Mat) (camera : Camera)
    fs dense_folder problems idx o o'
    (Hsize : forall m c r, 0 < c -> 0 < r ->
               cols (cv_resize_8u m c r) = c /\ rows (cv_resize_8u m c r) = r)
    (Hrun : InuputInitialization cv_resize_32f imread_grayscale ReadCamera
              fs dense_folder problems idx o = Returned o') :
  (0 < cols depth -> 0 < rows depth ->
   (cols depth =? cols src) && (rows depth =? rows src) = false ->
   let '(dst', camera') := RescaleImageAndCamera cv_resize_8u src dst depth camera in
   dst' = cv_resize_8u src (cols depth) (rows depth) /\
   jointly_rescaled (scale_factor (cols depth) (cols src))
                    (scale_factor (rows depth) (rows src)) camera camera' dst') /\
  exists problem, vector_at problems idx = Returned problem /\
    forall (i : nat) (id : Z),
      (ref_image_id problem :: src_image_ids problem) !! i = Some id ->
      exists max_i,
        max_image_size_for problems problem i (cur_image_size problem) = Returned max_i /\
        let '(image, camera) := load_view imread_grayscale ReadCamera fs
                                  (dense_folder ++ "/images") (dense_folder ++ "/cams") id in
        if (cols image <=? max_i) && (rows image <=? max_i)
        then images o' !! i = Some image /\ cameras o' !! i = Some camera
        else
          let '(new_cols, new_rows) := scaled_size max_i (cols image) (rows image) in
          exists camera',
            images o' !! i = Some (cv_resize_32f image new_cols new_rows) /\
            cameras o' !! i = Some camera' /\
            jointly_rescaled (scale_factor new_cols (cols image))
                             (scale_factor new_rows (rows image))
                             camera camera' (cv_resize_32f image new_cols new_rows).
Proof.
  split.
  - intros Hpc Hpr Hne. apply RescaleImageAndCamera_resampled; assumption.
  - apply InuputInitialization_Returned in Hrun
      as (problem & s' & camera0 & Hproblem & Hloop & Himgs & Hcams & _).
    exists problem. split; [exact Hproblem|].
    intros i id Hid. cbv zeta in Hloop.
    set (lv := load_view imread_grayscale ReadCamera fs
                 (dense_folder ++ "/images") (dense_folder ++ "/cams")) in *.
    clearbody lv.
    destruct (scale_loop_pointwise _ _ _ _ _ _ _ _ Hloop) as (_ & _ & Hpt).
    destruct (Hpt i) as [_ Hin].
    assert (Hi : (0 <= i < 0 + length (fst <$> (lv
                    <$> (ref_image_id problem :: src_image_ids problem))))%nat).
    { rewrite !length_fmap. apply lookup_lt_Some in Hid. lia. }
    destruct (Hin Hi) as (image & cam & max_i & Him & Hca & Hmax & Hi' & Hc').
    exists max_i. split; [exact Hmax|].
    rewrite !list_lookup_fmap, Hid in Him. rewrite !list_lookup_fmap, Hid in Hca.
    cbn in Him, Hca. injection Him as <-. injection Hca as <-.
    destruct (lv id) as [image0 camera0']. cbn [fst snd] in Hi', Hc'.
    rewrite <- Himgs in Hi'. rewrite <- Hcams in Hc'.
    destruct ((cols image0 <=? max_i) && (rows image0 <=? max_i)) eqn:Hkeep.
    + rewrite scale_view_kept in Hi', Hc' by exact Hkeep. split; assumption.
    + pose proof (scale_view_resampled max_i image0 camera0' Hkeep) as Hres.
      destruct (scaled_size max_i (cols image0) (rows image0)) as [nc nr].
      destruct (scale_view cv_resize_32f max_i image0 camera0') as [image' camera''].
      destruct Hres as [-> Hj]. exists camera''. cbn [fst snd] in Hi', Hc'.
      split; [exact Hi'|]. split; [exact Hc'|]. exact Hj.
Qed.

(** C10.  A returning [InuputInitialization] leaves the depth search
    range at the reference camera's stated range, widened: [GetMinDepth]
    is the single-precision product of the [depth_min] that
    [ReadCamera] delivered for the reference view and the literal
    [0.6f], [GetMaxDepth] that of its [depth_max] and [1.2f]; the
    reference camera still states the range it was read with.  The
    call does return when [idx] and the source ids index [problems]
    and no depth maps are to be reloaded. *)
Theorem depth_range_widened fs dense_folder problems idx o :
  (forall o',
     InuputInitialization cv_resize_32f imread_grayscale ReadCamera
       fs dense_folder problems idx o = Returned o' ->
     exists problem camera0,
       vector_at problems idx = Returned problem /\
       cameras o' !! 0%nat = Some camera0 /\
       let ref := ReadCamera fs (cam_path_of dense_folder (ref_image_id problem)) in
       depth_min camera0 = depth_min ref /\ depth_max camera0 = depth_max ref /\
       GetMinDepth o' = fmul (depth_min ref) f0_6 /\
       GetMaxDepth o' = fmul (depth_max ref) f1_2) /\
  (forall problem,
     vector_at problems idx = Returned problem ->
     Forall (fun id => 0 <= id < Z.of_nat (length problems)) (src_image_ids problem) ->
     geom_consistency (params o) = false ->
     exists o', InuputInitialization cv_resize_32f imread_grayscale ReadCamera
                  fs dense_folder problems idx o = Returned o').
Proof.
  split.
  - intros o' Hrun.
    apply InuputInitialization_Returned in Hrun
      as (problem & s' & camera0 & Hproblem & Hloop & Himgs & Hcams & Hc0 & Hmin & Hmax).
    exists problem, camera0. split; [exact Hproblem|].
    rewrite Hcams. split; [exact Hc0|].
    cbv zeta in Hloop.
    set (lv := load_view imread_grayscale ReadCamera fs
                 (dense_folder ++ "/images") (dense_folder ++ "/cams")) in *.
    assert (Hlv : depth_min (snd (lv (ref_image_id problem)))
                  = depth_min (ReadCamera fs (cam_path_of dense_folder (ref_image_id problem)))
                  /\ depth_max (snd (lv (ref_image_id problem)))
                  = depth_max (ReadCamera fs (cam_path_of dense_folder (ref_image_id problem))))
      by (split; reflexivity).
    clearbody lv. destruct Hlv as [Hlmin Hlmax].
    destruct (scale_loop_pointwise _ _ _ _ _ _ _ _ Hloop) as (_ & _ & Hpt).
    destruct (Hpt 0%nat) as [_ Hin].
    destruct (Hin ltac:(rewrite !length_fmap; cbn; lia))
      as (image & cam & max_i & Him & Hca & _ & _ & Hc').
    rewrite Hc0 in Hc'. injection Hc' as ->.
    cbn in Hca. injection Hca as <-.
    destruct (scale_view_depth_range max_i image (snd (lv (ref_image_id problem))))
      as [Hdmin Hdmax].
    cbv zeta in Hdmin, Hdmax. unfold GetMinDepth, GetMaxDepth.
    rewrite Hmin, Hmax, Hdmin, Hdmax, Hlmin, Hlmax. repeat split; reflexivity.
  - intros problem Hproblem Hsrc Hgeom.
    unfold InuputInitialization. rewrite Hproblem. cbn [mbind outcome_bind].
    set (views := load_view imread_grayscale ReadCamera fs
                    (dense_folder ++ "/images") (dense_folder ++ "/cams")
                    <$> (ref_image_id problem :: src_image_ids problem)).
    assert (Hlen : length views = S (length (src_image_ids problem)))
      by (subst views; rewrite length_fmap; reflexivity).
    clearbody views.
    destruct (scale_loop_returns problems problem (length (fst <$> views)) 0
                (cur_image_size problem) (fst <$> views) (snd <$> views))
      as [[[mx imgs] cams] Hloop];
      rewrite ?length_fmap; try lia; [exact Hsrc|].
    rewrite length_fmap in Hloop. rewrite Hloop. cbn [mbind outcome_bind].
    destruct (scale_loop_pointwise _ _ _ _ _ _ _ _ Hloop) as (_ & Hlc & _).
    cbn [fst snd] in Hlc. rewrite length_fmap in Hlc.
    destruct (vector_at_in_range cams 0 ltac:(lia)) as [camera0 Hc0].
    rewrite Hc0. cbn [mbind outcome_bind]. cbn [params set_params set_cameras set_images
      geom_consistency with_disparity with_num_images with_depth_range].
    rewrite Hgeom. eexists. reflexivity.
Qed.

End HostProperties.

Lemma camera_rescaled_with_image_witness :
  (forall m c r, 0 < c -> 0 < r ->
     cols (resize_8u_blank m c r) = c /\ rows (resize_8u_blank m c r) = r) /\
  InuputInitialization resize_32f_blank imread_gray_4x2 ReadCamera_fixed
    fs_sample "d" [mkProblem 0 [] 2] 0 (HPM_new params_plain) = Returned HPM_after_input /\
  exists camera',
    cameras HPM_after_input !! 0%nat = Some camera' /\
    width camera' = 2 /\ height camera' = 1 /\
    K camera' !!! 0%fin = fmul (float_of_int 100) (scale_factor 2 4).
Proof.
  assert (Hsize : forall m c r, 0 < c -> 0 < r ->
            cols (resize_8u_blank m c r) = c /\ rows (resize_8u_blank m c r) = r)
    by (intros; split; reflexivity).
  assert (Hrun : InuputInitialization resize_32f_blank imread_gray_4x2 ReadCamera_fixed
                   fs_sample "d" [mkProblem 0 [] 2] 0 (HPM_new params_plain)
                 = Returned HPM_after_input) by (vm_compute; reflexivity).
  split; [exact Hsize|]. split; [exact Hrun|].
  destruct (camera_rescaled_with_image resize_8u_blank resize_32f_blank
              imread_gray_4x2 ReadCamera_fixed
              (Mat_empty 3) (Mat_empty 3) (Mat_empty 1) (ReadCamera_fixed fs_sample "")
              fs_sample "d" [mkProblem 0 [] 2] 0 (HPM_new params_plain) HPM_after_input
              Hsize Hrun) as [_ (problem & Hproblem & Hviews)].
  injection Hproblem as <-.
  destruct (Hviews 0%nat 0 eq_refl) as (max_i & Hmax & Hview).
  injection Hmax as <-.
  cbn in Hview. destruct Hview as (camera' & _ & Hcam & Hj).
  exists camera'. split; [exact Hcam|].
  destruct Hj as (H0 & _ & _ & _ & _ & _ & _ & _ & _ & _ & _ & _ & _ & Hw & Hh).
  split; [exact Hw|]. split; [exact Hh|]. exact H0.
Defined.

Lemma depth_range_widened_witness :
  InuputInitialization resize_32f_blank imread_gray_4x2 ReadCamera_fixed
    fs_sample "d" [mkProblem 0 [] 2] 0 (HPM_new params_plain) = Returned HPM_after_input /\
  GetMinDepth HPM_after_input = fmul (float_of_int 2) f0_6 /\
  GetMaxDepth HPM_after_input = fmul (float_of_int 10) f1_2.
Proof.
  assert (Hrun : InuputInitialization resize_32f_blank imread_gray_4x2 ReadCamera_fixed
                   fs_sample "d" [mkProblem 0 [] 2] 0 (HPM_new params_plain)
                 = Returned HPM_after_input) by (vm_compute; reflexivity).
  split; [exact Hrun|].
  destruct (depth_range_widened resize_32f_blank imread_gray_4x2 ReadCamera_fixed
              fs_sample "d" [mkProblem 0 [] 2] 0 (HPM_new params_plain)) as [Hrange _].
  destruct (Hrange HPM_after_input Hrun) as (problem & camera0 & _ & _ & _ & _ & Hmin & Hmax).
  split; [exact Hmin|exact Hmax].
Defined.

(** ** Hierarchical initialization *)

Lemma foldl_params_preserved {A : Type} (f : HPM -> A -> HPM) (l : list A) (o : HPM) :
  (forall o a, params (f o a) = params o) -> params (foldl f o l) = params o.
Proof.
  intros Hf. revert o. induction l as [|a l IH]; intros o; [reflexivity|].
  cbn. rewrite IH. apply Hf.
Qed.

(** X10.  The test for upsample mode, for every setup that returns with
    hierarchy on (and without depth reloading): it compares the stored
    normal map's columns with the reference image's rows, and its rows
    with the image's columns. *)
Lemma upsample_decision fs dense_folder problem o d o' d' :
  hierarchy (params o) = true -> geom_consistency (params o) = false ->
  CudaSpaceInitialization fs dense_folder problem (o, d) = Returned (o', d') ->
  exists r ref_normal image0,
    readNormalDmb fs (result_folder_of dense_folder (ref_image_id problem) ++ "/normals.dmb")
                  (Mat_empty 3) = Returned (r, ref_normal) /\
    images o !! 0%nat = Some image0 /\
    upsample (params o')
    = negb (cols ref_normal =? rows image0) || negb (rows ref_normal =? cols image0).
Proof.
  intros Hh Hg Hrun. unfold CudaSpaceInitialization in Hrun.
  cbn [params set_num_images images cameras] in Hrun.
  rewrite Hh, Hg in Hrun.
  apply bind_Returned in Hrun as (camera0 & Hc0 & Hrun).
  cbn [mbind outcome_bind mret outcome_ret] in Hrun.
  apply bind_Returned in Hrun as ([r1 ref_depth] & Hd & Hrun).
  apply bind_Returned in Hrun as ([r2 ref_normal] & Hn & Hrun).
  apply bind_Returned in Hrun as ([r3 ref_cost] & Hc & Hrun).
  apply bind_Returned in Hrun as (image0 & Hi & Hrun).
  exists r2, ref_normal, image0. split; [exact Hn|].
  split; [apply (vector_at_Returned (images o) 0%nat), Hi|].
  apply (f_equal (fun r => match r with
                           | Returned (x, _) => upsample (params x)
                           | _ => false
                           end)) in Hrun.
  cbv beta iota in Hrun. rewrite <- Hrun.
  rewrite foldl_params_preserved by (intros ? [? ?]; reflexivity).
  rewrite foldl_params_preserved by (intros ? [? ?]; reflexivity).
  destruct (negb (cols ref_normal =? rows image0) || negb (rows ref_normal =? cols image0));
    reflexivity.
Qed.

(** C6, at a stored result of 1 row by 2 columns.  Against a reference
    image of the same 1 by 2 pixels the call switches upsample mode on
    (and loads the stored costs 7 and 8 into the fourth components);
    against a reference image of 2 rows by 1 column, a different
    resolution, it leaves upsample mode off (and loads the stored depths
    1 and 2).  The test compares the stored width with the image's rows
    and the stored height with the image's columns. *)
Theorem upsample_test_swaps_rows_and_cols :
  (exists o' d',
     run_CudaSpaceInitialization 1 2 1 2 = Returned (o', d') /\
     upsample (params o') = true /\
     f4w <$> scaled_plane_hypotheses_host o' = [f32_of_int 7; f32_of_int 8]) /\
  (exists o' d',
     run_CudaSpaceInitialization 1 2 2 1 = Returned (o', d') /\
     upsample (params o') = false /\
     f4w <$> scaled_plane_hypotheses_host o' = [f32_of_int 1; f32_of_int 2]).
Proof.
  split.
  - destruct (run_CudaSpaceInitialization 1 2 1 2) as [[o' d']| |] eqn:E;
      [|vm_compute in E; discriminate..].
    exists o', d'. split; [reflexivity|].
    assert (Hu : match run_CudaSpaceInitialization 1 2 1 2 with
                 | Returned (o, _) =>
                     (upsample (params o), f4w <$> scaled_plane_hypotheses_host o)
                 | _ => (false, [])
                 end = (true, [f32_of_int 7; f32_of_int 8]))
      by (vm_compute; reflexivity).
    rewrite E in Hu. injection Hu as -> ->. split; reflexivity.
  - destruct (run_CudaSpaceInitialization 1 2 2 1) as [[o' d']| |] eqn:E;
      [|vm_compute in E; discriminate..].
    exists o', d'. split; [reflexivity|].
    assert (Hu : match run_CudaSpaceInitialization 1 2 2 1 with
                 | Returned (o, _) =>
                     (upsample (params o), f4w <$> scaled_plane_hypotheses_host o)
                 | _ => (false, [])
                 end = (false, [f32_of_int 1; f32_of_int 2]))
      by (vm_compute; reflexivity).
    rewrite E in Hu. injection Hu as -> ->. split; reflexivity.
Qed.

(** ** Device buffers over the life of an object *)

(** C9, at one image with hierarchy switched on.  Setup calls
    [cudaMalloc(&pre_costs_cuda)] twice, as allocations 6 and 11.  The
    destructor releases what [pre_costs_cuda] holds twice, so allocation
    11 is released two times and allocation 6 never; running
    [CudaSpaceRelease] before the destructor releases allocation 2
    ([texture_objects_cuda]) twice as well. *)
Theorem pre_costs_released_twice :
  exists log log',
    lifetime_log (HPM_hierarchical 1 2) HPM_destructor = Some log /\
    acquired 6 log = 1%nat /\ released 6 log = 0%nat /\
    acquired 11 log = 1%nat /\ released 11 log = 2%nat /\
    ~ released_exactly_once log /\
    lifetime_log (HPM_hierarchical 1 2)
      (fun s => HPM_destructor (CudaSpaceRelease false s)) = Some log' /\
    acquired 2 log' = 1%nat /\ released 2 log' = 2%nat.
Proof.
  destruct (lifetime_log (HPM_hierarchical 1 2) HPM_destructor) as [log|] eqn:E;
    [|vm_compute in E; discriminate].
  destruct (lifetime_log (HPM_hierarchical 1 2)
              (fun s => HPM_destructor (CudaSpaceRelease false s))) as [log'|] eqn:E';
    [|vm_compute in E'; discriminate].
  exists log, log'. split; [reflexivity|].
  vm_compute in E. injection E as <-.
  vm_compute in E'. injection E' as <-.
  split; [reflexivity|]. split; [reflexivity|].
  split; [reflexivity|]. split; [reflexivity|].
  split; [|split; [reflexivity|split; reflexivity]].
  intros H. specialize (H 11%nat eq_refl). discriminate.
Qed.

(** ** Support points *)

(** [<] on floats is irreflexive and transitive (not-a-number compares
    with nothing). *)
Lemma flt_irrefl (a : spec_float) : flt a a = false.
Proof.
  unfold flt, SFltb. destruct a as [s|s| |s m e]; cbn; try reflexivity.
  - destruct s; reflexivity.
  - destruct s; rewrite Z.compare_refl;
      change (Pos.compare_cont Eq m m) with (m ?= m)%positive;
      rewrite Pos.compare_refl; reflexivity.
Qed.

Lemma finite_order_trans (e1 e2 e3 : Z) (m1 m2 m3 : positive) :
  match e1 ?= e2 with Lt => Lt | Gt => Gt | Eq => (m1 ?= m2)%positive end = Lt ->
  match e2 ?= e3 with Lt => Lt | Gt => Gt | Eq => (m2 ?= m3)%positive end = Lt ->
  match e1 ?= e3 with Lt => Lt | Gt => Gt | Eq => (m1 ?= m3)%positive end = Lt.
Proof.
  destruct (Z.compare_spec e1 e2), (Z.compare_spec e2 e3), (Z.compare_spec e1 e3);
    intros H12 H23; try discriminate; try reflexivity; try lia.
  pose proof (proj1 (Pos.compare_lt_iff m1 m2) H12) as L12.
  pose proof (proj1 (Pos.compare_lt_iff m2 m3) H23) as L23.
  apply (proj2 (Pos.compare_lt_iff m1 m3)). lia.
Qed.

Lemma finite_order_trans_opp (e1 e2 e3 : Z) (m1 m2 m3 : positive) :
  match e1 ?= e2 with Lt => Gt | Gt => Lt | Eq => CompOpp (m1 ?= m2)%positive end = Lt ->
  match e2 ?= e3 with Lt => Gt | Gt => Lt | Eq => CompOpp (m2 ?= m3)%positive end = Lt ->
  match e1 ?= e3 with Lt => Gt | Gt => Lt | Eq => CompOpp (m1 ?= m3)%positive end = Lt.
Proof.
  destruct (Z.compare_spec e1 e2), (Z.compare_spec e2 e3), (Z.compare_spec e1 e3);
    intros H12 H23; try discriminate; try reflexivity; try lia.
  revert H12 H23.
  destruct (Pos.compare_spec m1 m2), (Pos.compare_spec m2 m3), (Pos.compare_spec m1 m3);
    cbn; intros H12 H23; try discriminate; try reflexivity; lia.
Qed.

Lemma flt_trans (a b c : spec_float) :
  flt a b = true -> flt b c = true -> flt a c = true.
Proof.
  unfold flt, SFltb.
  destruct (SFcompare a b) as [[| |]|] eqn:Hab; try discriminate.
  destruct (SFcompare b c) as [[| |]|] eqn:Hbc; try discriminate.
  intros _ _.
  assert (H : SFcompare a c = Some Lt); [|rewrite H; reflexivity].
  destruct a as [sa|sa| |sa ma ea], b as [sb|sb| |sb mb eb], c as [sc|sc| |sc mc ec];
    cbn in *; try discriminate;
    try (destruct sa, sb, sc; cbn in *; congruence).
  change (Pos.compare_cont Eq ma mb) with (ma ?= mb)%positive in Hab.
  change (Pos.compare_cont Eq mb mc) with (mb ?= mc)%positive in Hbc.
  change (Pos.compare_cont Eq ma mc) with (ma ?= mc)%positive.
  destruct sa, sb, sc; cbn in *; try congruence.
  - injection Hab as Hab. injection Hbc as Hbc. f_equal.
    eapply finite_order_trans_opp; eassumption.
  - injection Hab as Hab. injection Hbc as Hbc. f_equal.
    eapply finite_order_trans; eassumption.
Qed.

Lemma scan_pixel_tracks costs confidences texture st p :
  let st' := scan_pixel costs confidences texture st p in
  (min_cost_no_texture st', temp_point_no_texture st')
    = track (is_candidate costs) (score_no_texture costs confidences)
            (min_cost_no_texture st, temp_point_no_texture st) p /\
  (min_cost_texture st', temp_point_texture st')
    = track (is_candidate costs) (score_texture costs confidences)
            (min_cost_texture st, temp_point_texture st) p.
Proof.
  destruct p as [c r]. unfold scan_pixel, track, is_candidate, score_no_texture,
    score_texture, pixel_value. cbn [fst snd].
  destruct (flt (f32_val (Mat_at costs r c 0)) f2_0); cbn [andb]; [|split; reflexivity].
  destruct (flt (final_cost_no_texture _ _) _), (flt (final_cost_texture _ _) _);
    split; reflexivity.
Qed.

Lemma scan_tracks costs confidences texture (pixels : list (Z * Z)) :
  forall st,
  let st' := foldl (scan_pixel costs confidences texture) st pixels in
  (min_cost_no_texture st', temp_point_no_texture st')
    = foldl (track (is_candidate costs) (score_no_texture costs confidences))
            (min_cost_no_texture st, temp_point_no_texture st) pixels /\
  (min_cost_texture st', temp_point_texture st')
    = foldl (track (is_candidate costs) (score_texture costs confidences))
            (min_cost_texture st, temp_point_texture st) pixels.
Proof.
  induction pixels as [|p pixels IH]; intros st; [split; reflexivity|].
  cbn [foldl]. destruct (scan_pixel_tracks costs confidences texture st p) as [Hn Ht].
  cbv zeta in Hn, Ht. rewrite <- Hn, <- Ht. apply IH.
Qed.

(** What a running minimum has found after the pixels [pixels]: it is
    either untouched or the score and place of a candidate among them
    that was below the start value; no candidate among them scores
    below it; and it is no higher than the start value. *)
Lemma track_minimum valid score (pixels : list (Z * Z)) :
  forall acc,
  let acc' := foldl (track valid score) acc pixels in
  (acc' = acc \/
   exists p, p ∈ pixels /\ valid p = true /\ acc' = (score p, mkPoint (fst p) (snd p))
             /\ flt (score p) (fst acc) = true) /\
  (forall x, flt x (fst acc) = false -> flt x (fst acc') = false) /\
  (forall p, p ∈ pixels -> valid p = true -> flt (score p) (fst acc') = false).
Proof.
  induction pixels as [|p pixels IH]; intros acc.
  - cbn. split; [left; reflexivity|]. split; [auto|].
    intros p Hp. apply elem_of_nil in Hp. destruct Hp.
  - cbn [foldl]. specialize (IH (track valid score acc p)).
    cbv zeta in IH. destruct IH as (Hfound & Hmono & Hmin).
    set (acc' := foldl (track valid score) (track valid score acc p) pixels) in *.
    assert (Hstep : (track valid score acc p = acc /\
                     (valid p = true -> flt (score p) (fst acc) = false)) \/
                    (track valid score acc p = (score p, mkPoint (fst p) (snd p)) /\
                     valid p = true /\ flt (score p) (fst acc) = true)).
    { unfold track. destruct (valid p); cbn [andb]; [|left; split; [reflexivity|discriminate]].
      destruct (flt (score p) (fst acc)) eqn:E; [right|left]; repeat split; auto. }
    assert (Hmono1 : forall x, flt x (fst acc) = false ->
                               flt x (fst (track valid score acc p)) = false).
    { intros x Hx. destruct Hstep as [[-> _]|(-> & _ & Hlt)]; [exact Hx|].
      cbn [fst]. destruct (flt x (score p)) eqn:E; [|reflexivity].
      rewrite (flt_trans _ _ _ E Hlt) in Hx. discriminate. }
    split; [|split].
    + destruct Hfound as [Hsame|(q & Hq & Hvq & Hacc & Hlt)].
      * destruct Hstep as [[Hs _]|(Hs & Hvp & Hlt)].
        -- left. rewrite Hsame, Hs. reflexivity.
        -- right. exists p. split; [apply elem_of_cons; left; reflexivity|].
           split; [exact Hvp|]. split; [rewrite Hsame; exact Hs|exact Hlt].
      * right. exists q. split; [apply elem_of_cons; right; exact Hq|].
        split; [exact Hvq|]. split; [exact Hacc|].
        destruct Hstep as [[Hs _]|(Hs & _ & Hlt')]; rewrite Hs in Hlt; [exact Hlt|].
        cbn [fst] in Hlt. exact (flt_trans _ _ _ Hlt Hlt').
    + intros x Hx. apply Hmono, Hmono1, Hx.
    + intros q Hq Hvq. apply elem_of_cons in Hq as [->|Hq]; [|apply Hmin; assumption].
      apply Hmono. destruct Hstep as [[-> Hnlt]|(-> & _ & _)]; [apply Hnlt, Hvq|].
      cbn [fst]. apply flt_irrefl.
Qed.





Lemma tracked_accepted costs score (pixels : list (Z * Z)) :
  let acc' := foldl (track (is_candidate costs) score) (f2_0, Point_default) pixels in
  below_threshold (fst acc') = true ->
  exists p, snd acc' = point_of p /\ accepted_minimum costs score pixels p.
Proof.
  intros acc' Hlt.
  destruct (track_minimum (is_candidate costs) score pixels (f2_0, Point_default))
    as (Hfound & _ & Hmin).
  fold acc' in Hfound, Hmin.
  destruct Hfound as [Hsame|(p & Hp & Hvp & Hacc & _)].
  - rewrite Hsame in Hlt. vm_compute in Hlt. discriminate.
  - exists p. rewrite Hacc in Hlt, Hmin |- *. cbn [fst snd] in *.
    split; [reflexivity|]. repeat split; assumption.
Qed.

Lemma tile_support_points_accepted width height costs confidences texture tile P :
  P ∈ tile_support_points width height costs confidences texture tile ->
  exists p, P = point_of p /\
    (accepted_minimum costs (score_texture costs confidences)
       (tile_pixels width height tile) p \/
     accepted_minimum costs (score_no_texture costs confidences)
       (tile_pixels width height tile) p).
Proof.
  unfold tile_support_points, scan_tile.
  destruct (scan_tracks costs confidences texture (tile_pixels width height tile)
              TileScan_init) as [Hn Ht].
  cbv zeta in Hn, Ht. cbn [TileScan_init min_cost_no_texture min_cost_texture
    temp_point_no_texture temp_point_texture] in Hn, Ht.
  set (st := foldl (scan_pixel costs confidences texture) TileScan_init _) in *.
  intros HP. apply elem_of_app in HP as [HP|HP].
  - destruct (below_threshold (min_cost_texture st)) eqn:Hlt; [|apply elem_of_nil in HP; destruct HP].
    apply list_elem_of_singleton in HP as ->.
    pose proof (tracked_accepted costs (score_texture costs confidences)
                  (tile_pixels width height tile)) as Hacc.
    cbv zeta in Hacc. rewrite <- Ht in Hacc. cbn [fst snd] in Hacc.
    destruct (Hacc Hlt) as (p & Hp & Hmin). exists p. split; [exact Hp|left; exact Hmin].
  - destruct (below_threshold (min_cost_no_texture st)) eqn:Hlt;
      [|apply elem_of_nil in HP; destruct HP].
    apply list_elem_of_singleton in HP as ->.
    pose proof (tracked_accepted costs (score_no_texture costs confidences)
                  (tile_pixels width height tile)) as Hacc.
    cbv zeta in Hacc. rewrite <- Hn in Hacc. cbn [fst snd] in Hacc.
    destruct (Hacc Hlt) as (p & Hp & Hmin). exists p. split; [exact Hp|right; exact Hmin].
Qed.





(** ** Joint bilateral upsampling *)

Lemma Imagescale_equal_resolution (image src : Mat) :
  0 < rows src -> 0 < cols src -> rows image = rows src -> cols image = cols src ->
  Imagescale_of image src = Returned 1.
Proof.
  intros Hr Hc Her Hec. unfold Imagescale_of. rewrite Her, Hec.
  destruct (Z.eqb_spec (rows src) 0) as [?|_]; [lia|].
  destruct (Z.eqb_spec (cols src) 0) as [?|_]; [lia|].
  cbn [orb]. rewrite !Z.quot_same by lia. reflexivity.
Qed.

(** C7, as the code has it.  For a guidance image and a coarse depth map
    of the same (positive) number of rows and columns both routines
    return at once: [RunJBU] leaves the file store, and with it the
    stored depth map, and the device as they were; the prior variant
    hands back the caller's output maps as they were and leaves the
    device alone.  Neither copies the coarse map anywhere. *)
Theorem noop_upsampling_skipped
    (JBU_NUM : nat) (CudaRun : Mat -> Mat -> Z -> list f32)
    (CudaRun_prior : Mat -> Mat -> Mat -> Z -> list f32 * list float4)
    (scaled_image_float src_depthmap upsample_depthmap src_normal upsample_normal : Mat)
    (dense_folder : string) (problem : Problem) (fs : FileSystem) (d : Device)
    (Hrows : 0 < rows src_depthmap) (Hcols : 0 < cols src_depthmap)
    (Heqr : rows scaled_image_float = rows src_depthmap)
    (Heqc : cols scaled_image_float = cols src_depthmap) :
  RunJBU JBU_NUM CudaRun scaled_image_float src_depthmap dense_folder problem (fs, d)
    = Returned (fs, d) /\
  JointBilateralUpsampling_prior JBU_NUM CudaRun_prior scaled_image_float src_depthmap
    upsample_depthmap src_normal upsample_normal d
    = Returned (upsample_depthmap, upsample_normal, d).
Proof.
  unfold RunJBU, JointBilateralUpsampling_prior.
  rewrite (Imagescale_equal_resolution _ _ Hrows Hcols Heqr Heqc).
  split; reflexivity.
Qed.

Lemma noop_upsampling_skipped_witness :
  (0 < rows coarse_depth_1x1 /\ 0 < cols coarse_depth_1x1) /\
  RunJBU 2 (fun _ _ _ => []) (Mat_zeros 1 1 1) coarse_depth_1x1 "d" (mkProblem 0 [] 2)
    (fs_sample, Device_fresh) = Returned (fs_sample, Device_fresh).
Proof.
  split; [split; reflexivity|].
  apply (noop_upsampling_skipped 2 (fun _ _ _ => []) (fun _ _ _ _ => ([], []))
           (Mat_zeros 1 1 1) coarse_depth_1x1 (Mat_zeros 1 1 1) coarse_normal_1x1
           (Mat_zeros 1 1 3) "d" (mkProblem 0 [] 2) fs_sample Device_fresh);
    reflexivity.
Defined.

(** C7, as stated, fails for the prior variant: called with zeroed output
    maps at equal resolution it hands back the zeroed maps, not the
    coarse depth 1. *)
Lemma noop_prior_output_not_coarse_map :
  JointBilateralUpsampling_prior 2 (fun _ _ _ _ => ([], [])) (Mat_zeros 1 1 1)
    coarse_depth_1x1 (Mat_zeros 1 1 1) coarse_normal_1x1 (Mat_zeros 1 1 3) Device_fresh
    = Returned (Mat_zeros 1 1 1, Mat_zeros 1 1 3, Device_fresh)
  /\ Mat_zeros 1 1 1 <> coarse_depth_1x1
  /\ ~ spec_noop_output_is_input.
Proof.
  assert (Hrun : JointBilateralUpsampling_prior 2 (fun _ _ _ _ => ([], [])) (Mat_zeros 1 1 1)
                   coarse_depth_1x1 (Mat_zeros 1 1 1) coarse_normal_1x1 (Mat_zeros 1 1 3)
                   Device_fresh
                 = Returned (Mat_zeros 1 1 1, Mat_zeros 1 1 3, Device_fresh))
    by reflexivity.
  assert (Hne : Mat_zeros 1 1 1 <> coarse_depth_1x1) by (vm_compute; discriminate).
  split; [exact Hrun|]. split; [exact Hne|].
  intros Hclaim.
  destruct (Hclaim 2%nat (fun _ _ _ _ => ([], [])) (Mat_zeros 1 1 1) coarse_depth_1x1
              (Mat_zeros 1 1 1) coarse_normal_1x1 (Mat_zeros 1 1 3) Device_fresh
              (Mat_zeros 1 1 1) (Mat_zeros 1 1 3) Device_fresh
              eq_refl eq_refl eq_refl eq_refl Hrun) as [Hd _].
  exact (Hne Hd).
Qed.

(** ** The post-pass of [RunJBU] *)








(** ** The post-pass of [JointBilateralUpsampling_prior] *)





(** ** Not-a-number after the post-pass *)

(** C1, at a 2 by 2 target over the one-pixel coarse result, with
    not-a-number in the left column of the device pass.  In
    [JointBilateralUpsampling_prior] the fallback value is written and
    then overwritten with the sample from the device pass: the depth at
    row 0, column 0 comes out as not-a-number.  [RunJBU] on the same pass
    stores the coarse depth 1 there. *)
Theorem prior_fallback_overwritten :
  f32_isnan f32_nan = true /\
  (exists up_depth up_normal d',
     JointBilateralUpsampling_prior 2 (fun _ _ _ _ => (depth_h_with_nan, normal_h_up))
       (Mat_zeros 2 2 1) coarse_depth_1x1 (Mat_zeros 2 2 1)
       coarse_normal_1x1 (Mat_zeros 2 2 3) Device_fresh
     = Returned (up_depth, up_normal, d') /\
     data up_depth = depth_h_with_nan /\
     f32_isnan (Mat_at up_depth 0 0 0) = true) /\
  (exists fs' d' depthmap,
     RunJBU 2 (fun _ _ _ => depth_h_with_nan) (Mat_zeros 2 2 1) coarse_depth_1x1
       "d" (mkProblem 0 [] 2) (fs_writable_empty, Device_fresh) = Returned (fs', d') /\
     readDepthDmb fs' "d/HPM_MVS_plusplus/2333_00000000/depths.dmb" (Mat_empty 1)
     = Returned (0, depthmap) /\
     data depthmap = [f32_of_int 1; f32_of_int 3; f32_of_int 1; f32_of_int 4]).
Proof.
  split; [vm_compute; reflexivity|]. split.
  - destruct (JointBilateralUpsampling_prior 2
                (fun _ _ _ _ => (depth_h_with_nan, normal_h_up))
                (Mat_zeros 2 2 1) coarse_depth_1x1 (Mat_zeros 2 2 1)
                coarse_normal_1x1 (Mat_zeros 2 2 3) Device_fresh)
      as [[[up_depth up_normal] d']| |] eqn:E; [|vm_compute in E; discriminate..].
    exists up_depth, up_normal, d'. split; [reflexivity|].
    vm_compute in E. injection E as <- _ _. split; vm_compute; reflexivity.
  - destruct (RunJBU 2 (fun _ _ _ => depth_h_with_nan) (Mat_zeros 2 2 1) coarse_depth_1x1
                "d" (mkProblem 0 [] 2) (fs_writable_empty, Device_fresh))
      as [[fs' d']| |] eqn:E; [|vm_compute in E; discriminate..].
    destruct (readDepthDmb fs' "d/HPM_MVS_plusplus/2333_00000000/depths.dmb" (Mat_empty 1))
      as [[r depthmap]| |] eqn:R.
    + exists fs', d', depthmap. split; [reflexivity|].
      assert (H : match RunJBU 2 (fun _ _ _ => depth_h_with_nan) (Mat_zeros 2 2 1)
                          coarse_depth_1x1 "d" (mkProblem 0 [] 2)
                          (fs_writable_empty, Device_fresh) with
                  | Returned (fs', _) =>
                      match readDepthDmb fs' "d/HPM_MVS_plusplus/2333_00000000/depths.dmb"
                              (Mat_empty 1) with
                      | Returned (r, m) => Some (r, data m)
                      | _ => None
                      end
                  | _ => None
                  end = Some (0, [f32_of_int 1; f32_of_int 3; f32_of_int 1; f32_of_int 4]))
        by (vm_compute; reflexivity).
      rewrite E, R in H. injection H as -> Hd. split; [exact R|exact Hd].
    + exfalso.
      assert (H : match RunJBU 2 (fun _ _ _ => depth_h_with_nan) (Mat_zeros 2 2 1)
                          coarse_depth_1x1 "d" (mkProblem 0 [] 2)
                          (fs_writable_empty, Device_fresh) with
                  | Returned (fs', _) =>
                      match readDepthDmb fs' "d/HPM_MVS_plusplus/2333_00000000/depths.dmb"
                              (Mat_empty 1) with
                      | Exited => false
                      | _ => true
                      end
                  | _ => true
                  end = true) by (vm_compute; reflexivity).
      rewrite E, R in H. discriminate.
    + exfalso.
      assert (H : match RunJBU 2 (fun _ _ _ => depth_h_with_nan) (Mat_zeros 2 2 1)
                          coarse_depth_1x1 "d" (mkProblem 0 [] 2)
                          (fs_writable_empty, Device_fresh) with
                  | Returned (fs', _) =>
                      match readDepthDmb fs' "d/HPM_MVS_plusplus/2333_00000000/depths.dmb"
                              (Mat_empty 1) with
                      | Undefined => false
                      | _ => true
                      end
                  | _ => true
                  end = true) by (vm_compute; reflexivity).
      rewrite E, R in H. discriminate.
Qed.

(* ===================================================================== *)
(** * Further properties of the code *)

(** ** The binary container: short, long and mismatched payloads *)

Lemma length_int32_bytes (v : Z) : length (int32_bytes v) = 4%nat.
Proof. reflexivity. Qed.

Lemma length_f32_bytes (l : list f32) : length (concat (f32_bytes <$> l)) = (4 * length l)%nat.
Proof.
  induction l as [|[[[b0 b1] b2] b3] l IH]; [reflexivity|].
  cbn [fmap list_fmap concat f32_bytes length app]. cbn [fmap] in IH. lia.
Qed.

Lemma length_dmb_file (h w nb : Z) (samples : list f32) :
  length (dmb_file h w nb samples) = (16 + 4 * length samples)%nat.
Proof.
  unfold dmb_file. rewrite !length_app, !length_int32_bytes, length_f32_bytes. lia.
Qed.

Lemma dmb_file_header (h w nb : Z) (samples : list f32) :
  in_int32 h -> in_int32 w -> in_int32 nb ->
  dmb_header (dmb_file h w nb samples) = Some (1, h, w, nb) /\
  drop 16 (dmb_file h w nb samples) = concat (f32_bytes <$> samples).
Proof.
  intros Hh Hw Hnb. unfold dmb_header, dmb_file. split.
  - rewrite (fread_int32_written 1) by (unfold in_int32; lia).
    rewrite (fread_int32_written h) by assumption.
    rewrite (fread_int32_written w) by assumption.
    rewrite (fread_int32_written nb) by assumption. reflexivity.
  - reflexivity.
Qed.

(** A stored container read into a matrix of [ch] channels. *)
Lemma readDmb_dmb_file (ch : Z) (fs : FileSystem) (path : string) (m : Mat)
    (h w nb : Z) (samples : list f32) :
  in_int32 h -> in_int32 w -> in_int32 nb ->
  fs_files fs !! path = Some (dmb_file h w nb samples) ->
  readDmb ch fs path m = readDmb_payload ch (dmb_file h w nb samples) h w nb.
Proof.
  intros Hh Hw Hnb Hopen.
  destruct (dmb_file_header h w nb samples Hh Hw Hnb) as [Hhdr _].
  rewrite (readDmb_opened ch fs path m _ Hopen), Hhdr.
  rewrite (dmb_header_type_tag _ 1 h w nb Hhdr). reflexivity.
Qed.

Lemma readDmb_payload_short (ch h w nb : Z) (samples : list f32) :
  0 <= h < 2 ^ 31 -> 0 <= w < 2 ^ 31 -> 0 <= nb <= ch -> ch < 2 ^ 31 ->
  h * w * nb < 2 ^ 31 ->
  Z.of_nat (length samples) <= h * w * nb ->
  readDmb_payload ch (dmb_file h w nb samples) h w nb
  = Returned (0, mkMat h w ch
                   (samples ++ zero_samples (h * w * ch - Z.of_nat (length samples)))).
Proof.
  intros Hh Hw Hnb Hch Hr Hlen.
  assert (Hhw : 0 <= h * w) by lia.
  assert (Hn0 : 0 <= h * w * nb) by lia.
  assert (Hn1 : h * w * nb <= h * w * ch) by (apply Z.mul_le_mono_nonneg_l; lia).
  unfold readDmb_payload.
  destruct (dmb_file_header h w nb samples) as [_ ->]; try (unfold in_int32; lia).
  rewrite size_t_of_count by lia.
  rewrite fread_f32_written by lia.
  cbn [Mat_zeros data]. rewrite length_replicate.
  destruct (Nat.leb_spec (length samples) (Z.to_nat (h * w * ch))) as [_|]; [|lia].
  rewrite drop_replicate. unfold zero_samples.
  replace (Z.to_nat (h * w * ch) - length samples)%nat
    with (Z.to_nat (h * w * ch - Z.of_nat (length samples))) by lia.
  reflexivity.
Qed.

Lemma readDmb_payload_overrun (ch h w nb : Z) (samples : list f32) :
  0 <= h < 2 ^ 31 -> 0 <= w < 2 ^ 31 -> 0 <= nb < 2 ^ 31 -> h * w * nb < 2 ^ 31 ->
  0 <= ch ->
  h * w * ch < Z.of_nat (length samples) <= h * w * nb ->
  readDmb_payload ch (dmb_file h w nb samples) h w nb = Undefined.
Proof.
  intros Hh Hw Hnb Hr Hch Hlen.
  assert (Hhw : 0 <= h * w) by lia.
  assert (Hn0 : 0 <= h * w * nb) by lia.
  assert (Hn1 : 0 <= h * w * ch) by lia.
  unfold readDmb_payload.
  destruct (dmb_file_header h w nb samples) as [_ ->]; try (unfold in_int32; lia).
  rewrite size_t_of_count by lia.
  rewrite fread_f32_written by lia.
  cbn [Mat_zeros data]. rewrite length_replicate.
  destruct (Nat.leb_spec (length samples) (Z.to_nat (h * w * ch))) as [|_]; [lia|].
  reflexivity.
Qed.

(** X1.  A container whose header is complete but whose payload stops
    early, on a sample boundary, is not reported: [readDepthDmb] and
    [readNormalDmb] return 0 with a matrix of the header's size that
    holds the samples present, in order, followed by zeros. *)
Theorem readDmb_short_payload
    (fs : FileSystem) (path : string) (m : Mat) (h w nb : Z) (samples : list f32)
    (Hh : 0 <= h < 2 ^ 31) (Hw : 0 <= w < 2 ^ 31) (Hnb : 0 <= nb)
    (Hrange : h * w * nb < 2 ^ 31)
    (Hshort : Z.of_nat (length samples) <= h * w * nb)
    (Hopen : fs_files fs !! path = Some (dmb_file h w nb samples)) :
  (nb <= 1 ->
     readDepthDmb fs path m
     = Returned (0, mkMat h w 1
                      (samples ++ zero_samples (h * w * 1 - Z.of_nat (length samples))))) /\
  (nb <= 3 ->
     readNormalDmb fs path m
     = Returned (0, mkMat h w 3
                      (samples ++ zero_samples (h * w * 3 - Z.of_nat (length samples))))).
Proof.
  split; intros Hle; unfold readDepthDmb, readNormalDmb;
    rewrite (readDmb_dmb_file _ fs path m h w nb samples)
      by (try exact Hopen; unfold in_int32; lia);
    apply readDmb_payload_short; lia.
Qed.

Lemma readDmb_short_payload_witness :
  let fs := mkFS {[ "d/short.dmb"%string := dmb_file 2 2 1 [f32_of_int 5] ]} (fun _ => true) in
  readDepthDmb fs "d/short.dmb" (Mat_empty 1)
  = Returned (0, mkMat 2 2 1 [f32_of_int 5; f32_zero; f32_zero; f32_zero]).
Proof.
  intros fs.
  exact (proj1 (readDmb_short_payload fs "d/short.dmb" (Mat_empty 1) 2 2 1 [f32_of_int 5]
                  ltac:(lia) ltac:(lia) ltac:(lia) ltac:(lia) ltac:(simpl; lia) eq_refl)
           ltac:(lia)).
Defined.

Lemma writeDmb_writes (nb : Z) (fs : FileSystem) (path : string) (m : Mat) :
  fs_writable fs path = true ->
  0 <= rows m * cols m * nb < 2 ^ 31 ->
  Z.of_nat (length (data m)) = rows m * cols m * nb ->
  writeDmb nb fs path m
  = Returned (0, fclose_w fs path (dmb_file (rows m) (cols m) nb (data m))).
Proof.
  intros Hw Hrange Hlen.
  unfold writeDmb, fopen_wb. rewrite Hw.
  replace (cols m * rows m * nb) with (rows m * cols m * nb) by lia.
  rewrite size_t_of_count by lia.
  replace (Z.to_nat (rows m * cols m * nb)) with (length (data m)) by lia.
  rewrite Nat.leb_refl, firstn_all.
  unfold fwrite_f32, fwrite_int32, dmb_file. cbn [app]. rewrite <- !app_assoc. reflexivity.
Qed.

(** X2.  The two readers take the channel count from the file but size
    the matrix by their own type.  A normal map stored by
    [writeNormalDmb] and read by [readDepthDmb] has three times the
    samples the one-channel matrix holds: the read runs past the buffer.
    A depth map stored by [writeDepthDmb] and read by [readNormalDmb]
    comes back with return code 0 as a three-channel matrix whose first
    [rows * cols] samples are the depths and whose remaining samples are
    zero. *)
Theorem dmb_cross_read (fs : FileSystem) (path : string) (m out : Mat)
    (Hrows : 0 < rows m) (Hcols : 0 < cols m)
    (Hlen : Z.of_nat (length (data m)) = rows m * cols m * channels m)
    (Hrange : rows m * cols m * 3 < 2 ^ 31)
    (Hcreate : fs_writable fs path = true) :
  (channels m = 3 ->
     exists fs', writeNormalDmb fs path m = Returned (0, fs')
                 /\ readDepthDmb fs' path out = Undefined) /\
  (channels m = 1 ->
     exists fs', writeDepthDmb fs path m = Returned (0, fs')
                 /\ readNormalDmb fs' path out
                    = Returned (0, mkMat (rows m) (cols m) 3
                                     (data m ++ zero_samples (rows m * cols m * 2)))).
Proof.
  assert (Hrc : 0 < rows m * cols m) by lia.
  assert (Hr : in_int32 (rows m)) by (unfold in_int32; nia).
  assert (Hc : in_int32 (cols m)) by (unfold in_int32; nia).
  split; intros Hch; rewrite Hch in Hlen.
  - exists (fclose_w fs path (dmb_file (rows m) (cols m) 3 (data m))). split.
    + apply writeDmb_writes; [exact Hcreate|lia|exact Hlen].
    + unfold readDepthDmb.
      rewrite (readDmb_dmb_file 1 _ path out (rows m) (cols m) 3 (data m));
        try assumption; try (unfold in_int32; lia).
      * apply readDmb_payload_overrun; lia.
      * unfold fclose_w; cbn [fs_files]. apply lookup_insert_eq.
  - exists (fclose_w fs path (dmb_file (rows m) (cols m) 1 (data m))). split.
    + apply writeDmb_writes; [exact Hcreate|lia|exact Hlen].
    + unfold readNormalDmb.
      rewrite (readDmb_dmb_file 3 _ path out (rows m) (cols m) 1 (data m));
        try assumption; try (unfold in_int32; lia).
      * rewrite readDmb_payload_short by lia.
        replace (rows m * cols m * 3 - Z.of_nat (length (data m)))
          with (rows m * cols m * 2) by lia.
        reflexivity.
      * unfold fclose_w; cbn [fs_files]. apply lookup_insert_eq.
Qed.

Lemma dmb_cross_read_witness :
  let m := mkMat 1 1 3 [f32_of_int 0; f32_of_int 0; f32_of_int 1] in
  (0 < rows m /\ 0 < cols m /\ fs_writable fs_sample "d/normals.dmb" = true) /\
  exists fs', writeNormalDmb fs_sample "d/normals.dmb" m = Returned (0, fs')
              /\ readDepthDmb fs' "d/normals.dmb" (Mat_empty 1) = Undefined.
Proof.
  intros m. split; [repeat split; reflexivity|].
  apply (dmb_cross_read fs_sample "d/normals.dmb" m (Mat_empty 1));
    try reflexivity.
Defined.

Lemma writeDmb_effect (nb : Z) (fs : FileSystem) (path : string) (m : Mat) :
  write_effect nb (writeDmb nb) fs path m.
Proof.
  unfold write_effect, writeDmb, fopen_wb.
  set (count := Z.to_nat _).
  destruct (fs_writable fs path) eqn:Hw.
  - destruct (Nat.leb_spec count (length (data m))) as [Hle|Hgt].
    + split; [split; [discriminate|intros [H|H]; [discriminate|lia]]|].
      split; [discriminate|].
      intros r fs' H. injection H as <- <-.
      split; [reflexivity|]. split; [|split; [|split]].
      * unfold fclose_w; cbn [fs_files]. rewrite lookup_insert_eq.
        unfold fwrite_f32, fwrite_int32, dmb_file. cbn [app].
        rewrite <- !app_assoc. reflexivity.
      * rewrite length_dmb_file, length_take. lia.
      * intros q Hq. unfold fclose_w; cbn [fs_files]. apply lookup_insert_ne. congruence.
      * reflexivity.
    + split; [split; [intros _; right; exact Hgt|reflexivity]|].
      split; discriminate.
  - split; [split; [intros _; left; reflexivity|reflexivity]|].
    split; discriminate.
Qed.

(** X3.  [writeDepthDmb] and [writeNormalDmb] have no failure code.
    They run into undefined behaviour exactly when the file cannot be
    opened (the failure is printed and the null stream written to all
    the same) or the matrix holds fewer samples than rows times columns
    times channels; they never end the process; and whenever they
    return, the code is 0, the file at the path is the 16-byte header
    (tag 1, rows, columns, channel count) followed by the samples, four
    bytes each, and no other file and no permission has changed. *)
Theorem writeDmb_leaves_one_file (fs : FileSystem) (path : string) (m : Mat) :
  write_effect 1 writeDepthDmb fs path m /\ write_effect 3 writeNormalDmb fs path m.
Proof.
  split; [apply (writeDmb_effect 1)|apply (writeDmb_effect 3)].
Qed.
(** ** Loading the views of a problem *)

Section HostInvariants.

Variable cv_resize_32f : Mat -> Z -> Z -> Mat.
Variable imread_grayscale : FileSystem -> string -> Mat_ byte.
Variable ReadCamera : FileSystem -> string -> Camera.

Lemma load_view_size_recorded fs image_folder cam_folder id :
  let v := load_view imread_grayscale ReadCamera fs image_folder cam_folder id in
  size_recorded (fst v) (snd v).
Proof. split; reflexivity. Qed.

Lemma scale_view_size_recorded (max_image_size : Z) (image : Mat) (camera : Camera) :
  size_recorded image camera ->
  let v := scale_view cv_resize_32f max_image_size image camera in
  size_recorded (fst v) (snd v).
Proof.
  intros Hrec. unfold scale_view.
  destruct ((cols image <=? max_image_size) && (rows image <=? max_image_size));
    [exact Hrec|].
  destruct (scaled_size max_image_size (cols image) (rows image)) as [nc nr].
  split; reflexivity.
Qed.

(** The loop that reloads the depth maps appends one matrix per view. *)
Lemma read_depths_pointwise fs (path : Z -> string) (ids : list Z) :
  forall ds0 ds,
  foldM (fun id ds =>
           '(_, depth) ← readDepthDmb fs (path id) (Mat_empty 1);
           Returned (ds ++ [depth])) ids ds0 = Returned ds ->
  exists ms, ds = ds0 ++ ms /\ length ms = length ids /\
    forall (i : nat) (id : Z), ids !! i = Some id ->
      exists r m, readDepthDmb fs (path id) (Mat_empty 1) = Returned (r, m)
                  /\ ms !! i = Some m.
Proof.
  induction ids as [|id ids IH]; intros ds0 ds Hrun.
  - cbn in Hrun. injection Hrun as <-. exists []. rewrite app_nil_r.
    repeat split. intros i id Hi. discriminate.
  - cbn [foldM] in Hrun.
    apply bind_Returned in Hrun as (ds1 & Hstep & Hrest).
    apply bind_Returned in Hstep as ([r m] & Hread & Hstep).
    injection Hstep as <-.
    destruct (IH _ _ Hrest) as (ms & -> & Hlen & Hpt).
    exists (m :: ms). rewrite <- app_assoc. split; [reflexivity|].
    split; [cbn; lia|].
    intros [|i] id' Hi; cbn in Hi.
    + injection Hi as <-. exists r, m. split; [exact Hread|reflexivity].
    + apply Hpt. exact Hi.
Qed.

Lemma scale_loop_not_Exited problems problem (l : list nat) :
  forall s, foldM (scale_step cv_resize_32f problems problem) l s <> Exited.
Proof.
  assert (Hat : forall (A : Type) (v : list A) (i : Z), vector_at v i <> Exited).
  { intros A v i. unfold vector_at. destruct (i <? 0); [discriminate|].
    destruct (v !! Z.to_nat i); discriminate. }
  induction l as [|i l IH]; intros [[mx imgs] cams]; [discriminate|].
  cbn [foldM].
  destruct (scale_step cv_resize_32f problems problem i (mx, imgs, cams)) as [s1| |] eqn:Hstep;
    cbn [mbind outcome_bind]; [apply IH| |discriminate].
  exfalso. unfold scale_step, max_image_size_for in Hstep.
  destruct (0 <? i)%nat.
  - destruct (vector_at (src_image_ids problem) (Z.of_nat i - 1)) as [src| |] eqn:H1;
      cbn [mbind outcome_bind] in Hstep; [|exact (Hat _ _ _ H1)|discriminate].
    destruct (vector_at problems src) as [p| |] eqn:H2;
      cbn [mbind outcome_bind] in Hstep; [|exact (Hat _ _ _ H2)|discriminate].
    destruct (vector_at imgs (Z.of_nat i)) as [im| |] eqn:H3;
      cbn [mbind outcome_bind] in Hstep; [|exact (Hat _ _ _ H3)|discriminate].
    destruct (vector_at cams (Z.of_nat i)) as [ca| |] eqn:H4;
      cbn [mbind outcome_bind] in Hstep; [|exact (Hat _ _ _ H4)|discriminate].
    destruct (scale_view cv_resize_32f (cur_image_size p) im ca). discriminate.
  - cbn [mbind outcome_bind] in Hstep.
    destruct (vector_at imgs (Z.of_nat i)) as [im| |] eqn:H3;
      cbn [mbind outcome_bind] in Hstep; [|exact (Hat _ _ _ H3)|discriminate].
    destruct (vector_at cams (Z.of_nat i)) as [ca| |] eqn:H4;
      cbn [mbind outcome_bind] in Hstep; [|exact (Hat _ _ _ H4)|discriminate].
    destruct (scale_view cv_resize_32f mx im ca). discriminate.
Qed.

(** The source ids of a returning scaling loop index [problems]. *)
Lemma scale_loop_ids_in_range problems problem max0 imgs cams s' :
  length imgs = S (length (src_image_ids problem)) ->
  foldM (scale_step cv_resize_32f problems problem) (seq 0 (length imgs)) (max0, imgs, cams)
    = Returned s' ->
  Forall (fun id => 0 <= id < Z.of_nat (length problems)) (src_image_ids problem).
Proof.
  intros Hlen Hloop.
  destruct (scale_loop_pointwise cv_resize_32f _ _ _ _ _ _ _ _ Hloop) as (_ & _ & Hpt).
  apply Forall_lookup_2. intros j id Hj.
  destruct (Hpt (S j)) as [_ Hin].
  assert (Hjlt : (j < length (src_image_ids problem))%nat)
    by (eapply lookup_lt_Some; exact Hj).
  destruct (Hin ltac:(lia)) as (_ & _ & max_i & _ & _ & Hmax & _).
  unfold max_image_size_for in Hmax. cbn [Nat.ltb Nat.leb] in Hmax.
  apply bind_Returned in Hmax as (src & Hsrc & Hmax).
  apply bind_Returned in Hmax as (p & Hp & _).
  replace (Z.of_nat (S j) - 1) with (Z.of_nat j) in Hsrc by lia.
  apply vector_at_Returned in Hsrc. rewrite Hj in Hsrc. injection Hsrc as <-.
  unfold vector_at in Hp. destruct (Z.ltb_spec id 0) as [|Hge]; [discriminate|].
  destruct (problems !! Z.to_nat id) eqn:Hlook; [|discriminate].
  apply lookup_lt_Some in Hlook. lia.
Qed.

(** X4.  A returning [InuputInitialization] holds one image and one
    camera per view of the problem, the reference view first;
    [params.num_images] is that number; and every camera records as its
    height and width the rows and columns of its image, rescaled or
    not. *)
Theorem InuputInitialization_views fs dense_folder problems idx o o'
    (Hrun : InuputInitialization cv_resize_32f imread_grayscale ReadCamera
              fs dense_folder problems idx o = Returned o') :
  exists problem, vector_at problems idx = Returned problem /\
    length (images o') = S (length (src_image_ids problem)) /\
    length (cameras o') = S (length (src_image_ids problem)) /\
    num_images_p (params o') = Z.of_nat (S (length (src_image_ids problem))) /\
    forall (i : nat) (image : Mat) (camera : Camera),
      images o' !! i = Some image -> cameras o' !! i = Some camera ->
      size_recorded image camera.
Proof.
  unfold InuputInitialization in Hrun.
  apply bind_Returned in Hrun as (problem & Hproblem & Hrun).
  apply bind_Returned in Hrun as ([[mx imgs] cams] & Hloop & Hrun).
  apply bind_Returned in Hrun as (camera0 & Hcam0 & Hrun).
  exists problem. split; [exact Hproblem|].
  set (lv := load_view imread_grayscale ReadCamera fs
               (dense_folder ++ "/images") (dense_folder ++ "/cams")) in *.
  assert (Hlv : forall id, size_recorded (fst (lv id)) (snd (lv id)))
    by (intros id; apply load_view_size_recorded).
  clearbody lv.
  set (ids := ref_image_id problem :: src_image_ids problem) in *.
  assert (Hids : length ids = S (length (src_image_ids problem))) by reflexivity.
  clearbody ids.
  destruct (scale_loop_pointwise cv_resize_32f _ _ _ _ _ _ _ _ Hloop) as (Hli & Hlc & Hpt).
  cbn [fst snd] in Hli, Hlc, Hpt.
  rewrite !length_fmap in Hli. rewrite !length_fmap in Hlc.
  assert (Hfields : images o' = imgs /\ cameras o' = cams
                    /\ num_images_p (params o') = Z.of_nat (length imgs)).
  { destruct (geom_consistency _) in Hrun.
    - apply bind_Returned in Hrun as (ds & _ & Hrun).
      injection Hrun as <-. repeat split.
    - injection Hrun as <-. repeat split. }
  destruct Hfields as (-> & -> & ->).
  split; [lia|]. split; [lia|]. split; [f_equal; lia|].
  intros i image camera Hi Hc.
  destruct (Hpt i) as [_ Hin].
  assert (Hlt : (i < length imgs)%nat) by (eapply lookup_lt_Some; exact Hi).
  rewrite !length_fmap in Hin.
  destruct (Hin ltac:(lia)) as (image0 & camera1 & max_i & Him & Hca & _ & Hi' & Hc').
  rewrite Hi in Hi'. rewrite Hc in Hc'. injection Hi' as ->. injection Hc' as ->.
  apply scale_view_size_recorded.
  rewrite !list_lookup_fmap in Him. rewrite !list_lookup_fmap in Hca.
  destruct (ids !! i) as [id|]; [|discriminate].
  cbn in Him, Hca. injection Him as <-. injection Hca as <-. apply Hlv.
Qed.

(** X5.  [InuputInitialization] looks up the working size of a source
    view by using the view's id as an index into [problems].  So when it
    returns, [idx] and every source id of the problem index [problems];
    and when some source id does not, the call indexes past the vector. *)
Theorem InuputInitialization_indexes_by_id fs dense_folder problems idx o :
  (forall o',
     InuputInitialization cv_resize_32f imread_grayscale ReadCamera
       fs dense_folder problems idx o = Returned o' ->
     exists problem, vector_at problems idx = Returned problem /\
       Forall (fun id => 0 <= id < Z.of_nat (length problems)) (src_image_ids problem)) /\
  (forall problem id,
     vector_at problems idx = Returned problem ->
     id ∈ src_image_ids problem -> ~ 0 <= id < Z.of_nat (length problems) ->
     InuputInitialization cv_resize_32f imread_grayscale ReadCamera
       fs dense_folder problems idx o = Undefined).
Proof.
  split.
  - intros o' Hrun. unfold InuputInitialization in Hrun.
    apply bind_Returned in Hrun as (problem & Hproblem & Hrun).
    apply bind_Returned in Hrun as (s' & Hloop & _).
    exists problem. split; [exact Hproblem|].
    eapply scale_loop_ids_in_range; [|exact Hloop].
    rewrite !length_fmap. reflexivity.
  - intros problem id Hproblem Hid Hbad.
    unfold InuputInitialization. rewrite Hproblem. cbn [mbind outcome_bind].
    match goal with
    | |- mbind _ ?loop = _ => destruct loop as [s'| |] eqn:Hloop
    end; cbn [mbind outcome_bind]; [| |reflexivity].
    + exfalso. apply scale_loop_ids_in_range in Hloop;
        [|rewrite !length_fmap; reflexivity].
      rewrite Forall_forall in Hloop. exact (Hbad (Hloop id Hid)).
    + exfalso. exact (scale_loop_not_Exited _ _ _ _ Hloop).
Qed.

(** X6.  With [geom_consistency] on, a returning [InuputInitialization]
    holds in [depths] one matrix per view, in the order of the views:
    what [readDepthDmb] made of the view's stored depth map, starting
    from an empty matrix.  The return code of the read is not looked at,
    so a view whose file is missing or carries another tag has an empty
    matrix in its place.  With [geom_consistency] off, [depths] is left
    as it was. *)
Theorem InuputInitialization_depths fs dense_folder problems idx o o'
    (Hrun : InuputInitialization cv_resize_32f imread_grayscale ReadCamera
              fs dense_folder problems idx o = Returned o') :
  exists problem, vector_at problems idx = Returned problem /\
    if geom_consistency (params o) then
      length (depths o') = S (length (src_image_ids problem)) /\
      forall (i : nat) (id : Z),
        (ref_image_id problem :: src_image_ids problem) !! i = Some id ->
        exists r m,
          readDepthDmb fs (depth_path_of dense_folder (params o) id) (Mat_empty 1)
            = Returned (r, m) /\
          depths o' !! i = Some m /\
          (r = -1 -> m = Mat_empty 1)
    else depths o' = depths o.
Proof.
  unfold InuputInitialization in Hrun.
  apply bind_Returned in Hrun as (problem & Hproblem & Hrun).
  apply bind_Returned in Hrun as ([[mx imgs] cams] & _ & Hrun).
  apply bind_Returned in Hrun as (camera0 & _ & Hrun).
  exists problem. split; [exact Hproblem|].
  cbn [params set_params set_cameras set_images geom_consistency multi_geometry
       with_disparity with_num_images with_depth_range depth_suffix] in Hrun.
  destruct (geom_consistency (params o)).
  - apply bind_Returned in Hrun as (ds & Hreads & Hrun).
    injection Hrun as <-. cbn [depths set_depths].
    apply (read_depths_pointwise fs
             (fun id => (result_folder_of dense_folder id
                         ++ (if multi_geometry (params o)
                             then "/depths_geom.dmb" else "/depths.dmb"))%string))
      in Hreads as (ms & -> & Hlen & Hpt).
    cbn [app]. split; [exact Hlen|].
    intros i id Hid. destruct (Hpt i id Hid) as (r & m & Hread & Hm).
    exists r, m. split; [exact Hread|]. split; [exact Hm|].
    intros ->. destruct (readDmb_signals 1 fs
      (depth_path_of dense_folder (params o) id) (Mat_empty 1)) as (_ & _ & Hret).
    destruct (Hret _ _ Hread) as [(_ & -> & _)|(Hr & _)]; [reflexivity|discriminate].
  - injection Hrun as <-. reflexivity.
Qed.

End HostInvariants.

Lemma InuputInitialization_views_witness :
  InuputInitialization resize_32f_blank imread_gray_4x2 ReadCamera_fixed
    fs_sample "d" [mkProblem 0 [] 2] 0 (HPM_new params_plain) = Returned HPM_after_input /\
  exists image camera,
    images HPM_after_input !! 0%nat = Some image /\
    cameras HPM_after_input !! 0%nat = Some camera /\
    size_recorded image camera /\ rows image = 1 /\ cols image = 2.
Proof.
  assert (Hrun : InuputInitialization resize_32f_blank imread_gray_4x2 ReadCamera_fixed
                   fs_sample "d" [mkProblem 0 [] 2] 0 (HPM_new params_plain)
                 = Returned HPM_after_input) by (vm_compute; reflexivity).
  split; [exact Hrun|].
  destruct (InuputInitialization_views resize_32f_blank imread_gray_4x2 ReadCamera_fixed
              fs_sample "d" [mkProblem 0 [] 2] 0 (HPM_new params_plain) HPM_after_input Hrun)
    as (problem & _ & _ & _ & _ & Hsize).
  eexists _, _. split; [reflexivity|]. split; [reflexivity|].
  split; [apply (Hsize 0%nat); reflexivity|]. split; reflexivity.
Defined.

Lemma InuputInitialization_depths_witness :
  exists o',
    InuputInitialization resize_32f_blank imread_gray_4x2 ReadCamera_fixed
      (fs_coarse 1 2) "d" [mkProblem 0 [] 2] 0 (HPM_new params_geom) = Returned o' /\
    depths o' = [mkMat 1 2 1 [f32_of_int 1; f32_of_int 2]] /\
    exists r m,
      readDepthDmb (fs_coarse 1 2) (depth_path_of "d" params_geom 0) (Mat_empty 1)
        = Returned (r, m) /\
      depths o' !! 0%nat = Some m.
Proof.
  eexists. split; [vm_compute; reflexivity|]. split; [reflexivity|].
  match goal with
  | |- context [depths ?o'] =>
      destruct (InuputInitialization_depths resize_32f_blank imread_gray_4x2 ReadCamera_fixed
                  (fs_coarse 1 2) "d" [mkProblem 0 [] 2] 0 (HPM_new params_geom) o'
                  ltac:(vm_compute; reflexivity))
        as (problem & Hproblem & Hdepths)
  end.
  injection Hproblem as <-.
  destruct Hdepths as [_ Hpt].
  destruct (Hpt 0%nat 0 eq_refl) as (r & m & Hread & Hm & _).
  exists r, m. split; [exact Hread|exact Hm].
Defined.
(** ** Support points: where they lie *)

Lemma elem_of_tile_pixels (width height : Z) (tile p : Z * Z) :
  p ∈ tile_pixels width height tile ->
  fst tile <= fst p < width /\ snd tile <= snd p < height.
Proof.
  destruct tile as [col row], p as [c r]. unfold tile_pixels. cbn [fst snd].
  intros Hp.
  apply list_elem_of_bind in Hp as (c' & Hp & Hc).
  apply list_elem_of_bind in Hp as (r' & Hp & Hr).
  apply list_elem_of_singleton in Hp. injection Hp as -> ->.
  apply elem_of_seqZ in Hc. apply elem_of_seqZ in Hr. lia.
Qed.

Lemma elem_of_tiles (width height : Z) (tile : Z * Z) :
  tile ∈ tiles width height -> 0 <= fst tile /\ 0 <= snd tile.
Proof.
  destruct tile as [col row]. unfold tiles, tile_starts. cbn [fst snd].
  intros Ht.
  apply list_elem_of_bind in Ht as (c' & Ht & Hc).
  apply list_elem_of_bind in Ht as (r' & Ht & Hr).
  apply list_elem_of_singleton in Ht. injection Ht as -> ->.
  apply list_elem_of_fmap in Hc as (kc & -> & Hkc).
  apply list_elem_of_fmap in Hr as (kr & -> & Hkr).
  apply elem_of_seqZ in Hkc. apply elem_of_seqZ in Hkr. lia.
Qed.

Lemma support_points_ok (o : HPM) (costs confidences texture : Mat) (hpm_factor : float)
    (P : Point) :
  P ∈ GetSupportPoints_Classify_Check o costs confidences texture hpm_factor ->
  support_point_ok (support_width o hpm_factor) (support_height o hpm_factor)
    costs confidences P.
Proof.
  unfold GetSupportPoints_Classify_Check.
  fold (support_width o hpm_factor). fold (support_height o hpm_factor).
  intros HP. apply list_elem_of_bind in HP as (tile & HP & Htile).
  apply tile_support_points_accepted in HP as (p & -> & Hacc).
  assert (Hin : p ∈ tile_pixels (support_width o hpm_factor) (support_height o hpm_factor) tile
                /\ is_candidate costs p = true
                /\ (below_threshold (score_texture costs confidences p) = true \/
                    below_threshold (score_no_texture costs confidences p) = true)).
  { destruct Hacc as [(Hp & Hc & Hlt & _)|(Hp & Hc & Hlt & _)]; auto. }
  destruct Hin as (Hp & Hc & Hlt).
  apply elem_of_tile_pixels in Hp. apply elem_of_tiles in Htile.
  unfold support_point_ok, in_grid, point_of. cbn [pt_x pt_y fst snd].
  destruct p as [c r]. cbn [fst snd] in *.
  split; [lia|]. split; assumption.
Qed.

(** X7.  Every support point [GetSupportPoints_Classify_Check] returns
    is a pixel inside the (scaled) reference image, with column in
    [0, width) and row in [0, height); its photometric cost is below 2,
    and its cost less confidence, with or without the 0.2 penalty, is
    below 0.1.  The default point of a tile that found no candidate is
    never handed out. *)
Theorem support_points_inside_image
    (o : HPM) (costs confidences texture : Mat) (hpm_factor : float) :
  Forall (support_point_ok (support_width o hpm_factor) (support_height o hpm_factor)
            costs confidences)
         (GetSupportPoints_Classify_Check o costs confidences texture hpm_factor).
Proof.
  apply Forall_forall. intros P HP. eapply support_points_ok, HP.
Qed.

(** X8.  When no pixel of the (scaled) reference image has a photometric
    cost below 2, there is no support point at all, whatever the
    confidences and the texture. *)
Theorem support_points_none_without_candidates
    (o : HPM) (costs confidences texture : Mat) (hpm_factor : float)
    (Hnone : forall p, in_grid (support_width o hpm_factor) (support_height o hpm_factor) p ->
               is_candidate costs p = false) :
  GetSupportPoints_Classify_Check o costs confidences texture hpm_factor = [].
Proof.
  destruct (GetSupportPoints_Classify_Check o costs confidences texture hpm_factor)
    as [|P l] eqn:Hres; [reflexivity|].
  assert (HP : P ∈ GetSupportPoints_Classify_Check o costs confidences texture hpm_factor)
    by (rewrite Hres; apply elem_of_cons; left; reflexivity).
  apply support_points_ok in HP as (Hin & Hc & _).
  rewrite (Hnone _ Hin) in Hc. discriminate.
Qed.

Lemma support_points_none_without_candidates_witness :
  (forall p, in_grid (support_width HPM_two_pixels (float_of_int 1))
                     (support_height HPM_two_pixels (float_of_int 1)) p ->
     is_candidate costs_at_ceiling p = false) /\
  GetSupportPoints_Classify_Check HPM_two_pixels costs_at_ceiling zeros_two_pixels
    texture_two_pixels (float_of_int 1) = [].
Proof.
  assert (Hnone : forall p,
            in_grid (support_width HPM_two_pixels (float_of_int 1))
                    (support_height HPM_two_pixels (float_of_int 1)) p ->
            is_candidate costs_at_ceiling p = false).
  { replace (support_width HPM_two_pixels (float_of_int 1)) with 2
      by (vm_compute; reflexivity).
    replace (support_height HPM_two_pixels (float_of_int 1)) with 1
      by (vm_compute; reflexivity).
    intros [c r] [Hc Hr]. cbn [fst snd] in Hc, Hr.
    assert (r = 0) as -> by lia.
    assert (c = 0 \/ c = 1) as [-> | ->] by lia; vm_compute; reflexivity. }
  split; [exact Hnone|].
  apply (support_points_none_without_candidates HPM_two_pixels costs_at_ceiling
           zeros_two_pixels texture_two_pixels (float_of_int 1) Hnone).
Defined.
(** ** Joint bilateral upsampling: when it runs, and what it asks of the device *)

Lemma Imagescale_below_double (image src : Mat) :
  0 <= rows image < 2 * rows src -> 0 <= cols image < 2 * cols src ->
  rows src <= rows image \/ cols src <= cols image ->
  Imagescale_of image src = Returned 1.
Proof.
  intros Hr Hc Hone. unfold Imagescale_of.
  destruct (Z.eqb_spec (rows src) 0) as [?|_]; [lia|].
  destruct (Z.eqb_spec (cols src) 0) as [?|_]; [lia|].
  cbn [orb]. rewrite !Z.quot_div_nonneg by lia.
  assert (Hqr : 0 <= rows image / rows src <= 1).
  { split; [apply Z.div_pos; lia|].
    assert (rows image / rows src < 2) by (apply Z.div_lt_upper_bound; lia). lia. }
  assert (Hqc : 0 <= cols image / cols src <= 1).
  { split; [apply Z.div_pos; lia|].
    assert (cols image / cols src < 2) by (apply Z.div_lt_upper_bound; lia). lia. }
  assert (Hq1 : 1 <= rows image / rows src \/ 1 <= cols image / cols src).
  { destruct Hone as [H|H]; [left|right];
      apply Z.div_le_lower_bound; lia. }
  f_equal. lia.
Qed.

(** X9.  The scale is the larger of the two integer quotients of the
    sizes, and scale 1 means "nothing to do".  So a target with fewer
    than twice the rows and fewer than twice the columns of the coarse
    map (and at least as many rows, or at least as many columns) is not
    upsampled at all, even when it is larger than the coarse map:
    [RunJBU] writes no file and leaves the device alone, the prior
    variant hands back the caller's output maps untouched. *)
Theorem upsampling_skipped_below_double
    (JBU_NUM : nat) (CudaRun : Mat -> Mat -> Z -> list f32)
    (CudaRun_prior : Mat -> Mat -> Mat -> Z -> list f32 * list float4)
    (scaled_image_float src_depthmap upsample_depthmap src_normal upsample_normal : Mat)
    (dense_folder : string) (problem : Problem) (fs : FileSystem) (d : Device)
    (Hrows : 0 <= rows scaled_image_float < 2 * rows src_depthmap)
    (Hcols : 0 <= cols scaled_image_float < 2 * cols src_depthmap)
    (Hone : rows src_depthmap <= rows scaled_image_float
            \/ cols src_depthmap <= cols scaled_image_float) :
  RunJBU JBU_NUM CudaRun scaled_image_float src_depthmap dense_folder problem (fs, d)
    = Returned (fs, d) /\
  JointBilateralUpsampling_prior JBU_NUM CudaRun_prior scaled_image_float src_depthmap
    upsample_depthmap src_normal upsample_normal d
    = Returned (upsample_depthmap, upsample_normal, d).
Proof.
  unfold RunJBU, JointBilateralUpsampling_prior.
  rewrite (Imagescale_below_double _ _ Hrows Hcols Hone).
  split; reflexivity.
Qed.

Lemma upsampling_skipped_below_double_witness :
  let image := Mat_zeros 3 3 1 in
  let coarse := Mat_zeros 2 2 1 in
  (0 <= rows image < 2 * rows coarse /\ 0 <= cols image < 2 * cols coarse) /\
  RunJBU 2 (fun _ _ _ => []) image coarse "d" (mkProblem 0 [] 2) (fs_sample, Device_fresh)
    = Returned (fs_sample, Device_fresh).
Proof.
  intros image coarse. split; [cbn; lia|].
  apply (upsampling_skipped_below_double 2 (fun _ _ _ => []) (fun _ _ _ _ => ([], []))
           image coarse (Mat_zeros 3 3 1) (Mat_zeros 2 2 3) (Mat_zeros 3 3 3)
           "d" (mkProblem 0 [] 2) fs_sample Device_fresh);
    cbn; lia.
Defined.

(** *** Counting acquisitions and releases *)

Lemma acquired_app (h : nat) (l1 l2 : list dev_event) :
  acquired h (l1 ++ l2) = (acquired h l1 + acquired h l2)%nat.
Proof. unfold acquired. rewrite List.filter_app, length_app. reflexivity. Qed.

Lemma released_app (h : nat) (l1 l2 : list dev_event) :
  released h (l1 ++ l2) = (released h l1 + released h l2)%nat.
Proof. unfold released. rewrite List.filter_app, length_app. reflexivity. Qed.

Lemma texture_handles_S (n0 n : nat) :
  texture_handles n0 (S n) = texture_handles n0 n ++ [(n0 + 2 * n, n0 + 2 * n + 1)%nat].
Proof. unfold texture_handles. rewrite seq_S, fmap_app. reflexivity. Qed.

Lemma texture_acquires_app (l1 l2 : list (nat * nat)) :
  texture_acquires (l1 ++ l2) = texture_acquires l1 ++ texture_acquires l2.
Proof. unfold texture_acquires. apply bind_app. Qed.

Lemma texture_releases_app (l1 l2 : list (nat * nat)) :
  texture_releases (l1 ++ l2) = texture_releases l1 ++ texture_releases l2.
Proof. unfold texture_releases. apply bind_app. Qed.

(** Each handle of the [n] images is acquired once, and nothing else is. *)
Lemma texture_handles_lifetime (h n0 n : nat) :
  let c := if (n0 <=? h)%nat && (h <? n0 + 2 * n)%nat then 1%nat else 0%nat in
  acquired h (texture_acquires (texture_handles n0 n)) = c /\
  released h (texture_acquires (texture_handles n0 n)) = 0%nat /\
  acquired h (texture_releases (texture_handles n0 n)) = 0%nat /\
  released h (texture_releases (texture_handles n0 n)) = c.
Proof.
  induction n as [|n IH]; cbv zeta.
  - replace (n0 + 2 * 0)%nat with n0 by lia.
    destruct (Nat.leb_spec n0 h), (Nat.ltb_spec h n0); cbn; try lia; repeat split.
  - cbv zeta in IH. destruct IH as (Ha & Hr & Ha' & Hr').
    rewrite texture_handles_S, texture_acquires_app, texture_releases_app.
    rewrite !acquired_app, !released_app, Ha, Hr, Ha', Hr'.
    unfold acquired, released. cbn [texture_acquires texture_releases mbind list_bind
      List.filter is_acquire is_release app length].
    destruct (Nat.eqb_spec h (n0 + 2 * n)), (Nat.eqb_spec h (n0 + 2 * n + 1));
      destruct (Nat.leb_spec n0 h), (Nat.ltb_spec h (n0 + 2 * n)),
               (Nat.ltb_spec h (n0 + 2 * S n));
      cbn; try lia; repeat split.
Qed.

Lemma JBUAddImageToTextureFloatGray_fold (l : list nat) :
  forall (arrays texs : list nat) (d : Device),
  foldl (fun '(arrays, texs, d) _ =>
           let '(a, d) := Device_acquire Array d in
           let '(x, d) := Device_acquire Texture d in
           (arrays ++ [a], texs ++ [x], d))
        (arrays, texs, d) l
  = (arrays ++ (fst <$> texture_handles (next_handle d) (length l)),
     texs ++ (snd <$> texture_handles (next_handle d) (length l)),
     mkDevice (next_handle d + 2 * length l)
              (dev_log d ++ texture_acquires (texture_handles (next_handle d) (length l)))).
Proof.
  induction l as [|i l IH] using rev_ind; intros arrays texs d.
  - cbn. rewrite !app_nil_r, Nat.add_0_r. destruct d; reflexivity.
  - rewrite foldl_app, IH. rewrite length_app. cbn [length foldl Device_acquire
      next_handle dev_log].
    replace (length l + 1)%nat with (S (length l)) by lia.
    rewrite texture_handles_S, texture_acquires_app, !fmap_app, !app_assoc.
    cbn [fmap list_fmap fst snd texture_acquires mbind list_bind app].
    rewrite <- !app_assoc. cbn [app].
    replace (S (next_handle d + 2 * length l)) with (next_handle d + 2 * length l + 1)%nat
      by lia.
    replace (S (next_handle d + 2 * length l + 1)) with (next_handle d + 2 * S (length l))%nat
      by lia.
    reflexivity.
Qed.

Lemma JBUAddImageToTextureFloatGray_handles (n : nat) (d : Device) :
  JBUAddImageToTextureFloatGray n d
  = (fst <$> texture_handles (next_handle d) n,
     snd <$> texture_handles (next_handle d) n,
     mkDevice (next_handle d + 2 * n)
              (dev_log d ++ texture_acquires (texture_handles (next_handle d) n))).
Proof.
  unfold JBUAddImageToTextureFloatGray.
  rewrite JBUAddImageToTextureFloatGray_fold, length_seq. reflexivity.
Qed.

Lemma JBU_release_textures_fold (handles : list (nat * nat)) :
  forall d,
  foldl (fun d '(a, x) => Device_release Array a (Device_release Texture x d)) d handles
  = mkDevice (next_handle d) (dev_log d ++ texture_releases handles).
Proof.
  induction handles as [|[a x] handles IH]; intros d.
  - cbn. rewrite app_nil_r. destruct d; reflexivity.
  - cbn [foldl]. rewrite IH. cbn [Device_release next_handle dev_log].
    rewrite <- !app_assoc. reflexivity.
Qed.

Lemma JBU_release_textures_handles (handles : list (nat * nat)) (d : Device) :
  JBU_release_textures (fst <$> handles) (snd <$> handles) d
  = mkDevice (next_handle d) (dev_log d ++ texture_releases handles).
Proof.
  unfold JBU_release_textures. rewrite zip_fst_snd. apply JBU_release_textures_fold.
Qed.

(** Case analysis on the comparisons of handles in the goal, closing the
    cases the context rules out as they arise. *)
Ltac decide_handles :=
  repeat match goal with
         | |- context [Nat.eqb ?x ?y] =>
             destruct (Nat.eqb_spec x y); try (exfalso; lia)
         | |- context [Nat.leb ?x ?y] =>
             destruct (Nat.leb_spec x y); try (exfalso; lia)
         | |- context [Nat.ltb ?x ?y] =>
             destruct (Nat.ltb_spec x y); try (exfalso; lia)
         end.

(** X12.  Whatever [RunJBU] allocates on the device it releases exactly
    once before it returns: the array and the texture object of each
    bound image through the loop of [CUDA_SAFE_CALL]s, the three buffers
    of the [JBU] object through its destructor.  It touches no
    allocation made before the call. *)
Theorem RunJBU_releases_what_it_acquires
    (JBU_NUM : nat) (CudaRun : Mat -> Mat -> Z -> list f32)
    (scaled_image_float src_depthmap : Mat) (dense_folder : string) (problem : Problem)
    (fs fs' : FileSystem) (d d' : Device)
    (Hrun : RunJBU JBU_NUM CudaRun scaled_image_float src_depthmap dense_folder problem (fs, d)
            = Returned (fs', d')) :
  exists new, dev_log d' = dev_log d ++ new /\
    forall h, lifetime h new
              = if (next_handle d <=? h)%nat && (h <? next_handle d')%nat
                then (1%nat, 1%nat) else (0%nat, 0%nat).
Proof.
  unfold RunJBU in Hrun.
  destruct (Imagescale_of scaled_image_float src_depthmap) as [s| |];
    cbn [mbind outcome_bind] in Hrun; try discriminate.
  destruct (s =? 1).
  { injection Hrun as <- <-. exists []. rewrite app_nil_r. split; [reflexivity|].
    intros h. destruct (Nat.leb_spec (next_handle d) h), (Nat.ltb_spec h (next_handle d));
      try reflexivity; lia. }
  destruct (JBU_NUM <? 2)%nat; [discriminate|].
  rewrite JBUAddImageToTextureFloatGray_handles in Hrun.
  pose proof (fun h => texture_handles_lifetime h (next_handle d) JBU_NUM) as Hcount.
  cbv zeta in Hcount.
  remember (next_handle d) as n0 eqn:Hn0.
  remember (texture_handles n0 JBU_NUM) as H eqn:HH.
  remember (n0 + 2 * JBU_NUM)%nat as b eqn:Hb.
  cbn [Device_acquire next_handle dev_log] in Hrun.
  destruct (foldl _ _ _) as [depth_h depthmap] in Hrun.
  destruct (writeDepthDmb fs _ depthmap) as [[r fs1]| |];
    cbn [mbind outcome_bind] in Hrun; try discriminate.
  rewrite JBU_release_textures_handles in Hrun.
  unfold Device_release in Hrun. cbn [next_handle dev_log] in Hrun.
  injection Hrun as <- <-. cbn [next_handle dev_log].
  exists (texture_acquires H
          ++ [Acquire Buffer b; Acquire Buffer (S b); Acquire Buffer (S (S b))]
          ++ texture_releases H
          ++ [Release Buffer b; Release Buffer (S b); Release Buffer (S (S b))]).
  split; [rewrite <- !app_assoc; reflexivity|].
  intros h. unfold lifetime.
  destruct (Hcount h) as (Ha & Hr & Ha' & Hr').
  rewrite !acquired_app, !released_app, Ha, Hr, Ha', Hr'.
  unfold acquired, released. cbn [List.filter is_acquire is_release].
  destruct (Nat.eqb_spec h b), (Nat.eqb_spec h (S b)), (Nat.eqb_spec h (S (S b)));
    destruct (Nat.leb_spec n0 h), (Nat.ltb_spec h b), (Nat.ltb_spec h (S (S (S b))));
    cbn; try lia; reflexivity.
Qed.

Lemma RunJBU_releases_what_it_acquires_witness :
  exists fs' d',
    RunJBU 2 (fun _ _ _ => depth_h_with_nan) (Mat_zeros 2 2 1) coarse_depth_1x1
      "d" (mkProblem 0 [] 2) (fs_writable_empty, Device_fresh) = Returned (fs', d') /\
    next_handle d' = 7%nat /\
    lifetime 0 (dev_log d') = (1%nat, 1%nat) /\ lifetime 6 (dev_log d') = (1%nat, 1%nat).
Proof.
  eexists _, _. split; [vm_compute; reflexivity|]. split; [reflexivity|].
  match goal with
  | |- context [lifetime 0 (dev_log ?d')] =>
      destruct (RunJBU_releases_what_it_acquires 2 (fun _ _ _ => depth_h_with_nan)
                  (Mat_zeros 2 2 1) coarse_depth_1x1 "d" (mkProblem 0 [] 2)
                  fs_writable_empty _ Device_fresh d' ltac:(vm_compute; reflexivity))
        as (new & Hlog & Hlife)
  end.
  cbn [dev_log Device_fresh app] in Hlog. rewrite Hlog.
  split; [apply (Hlife 0%nat)|apply (Hlife 6%nat)].
Defined.


(** ** Reloading hypotheses into the host arrays *)





(** ** The host arrays after setup *)

Lemma host_shape_dev_acquire (k : dev_kind) (f : dev_field) (s : HPM * Device) :
  host_shape (fst (dev_acquire k f s)) = host_shape (fst s).
Proof. destruct s as [o d]. reflexivity. Qed.

Lemma host_shape_set_depths (v : list Mat) (o : HPM) :
  host_shape (set_depths v o) = host_shape o.
Proof. reflexivity. Qed.

Lemma host_shape_set_params (f : PatchMatchParams -> PatchMatchParams) (o : HPM) :
  host_shape (set_params f o) = host_shape o.
Proof. reflexivity. Qed.

Lemma host_shape_set_scaled (v : list float4) (o : HPM) :
  host_shape (set_scaled_plane_hypotheses_host v o) = host_shape o.
Proof. reflexivity. Qed.

Lemma host_shape_set_pre_costs (v : list f32) (o : HPM) :
  host_shape (set_pre_costs_host v o) = host_shape o.
Proof. reflexivity. Qed.

Lemma host_shape_set_costs (v : list f32) (o : HPM) :
  host_shape (set_costs_host v o) = (fst (host_shape o), length v).
Proof. reflexivity. Qed.

Lemma host_shape_set_hypotheses (v : list float4) (o : HPM) :
  host_shape (set_plane_hypotheses_host v o)
  = (fst (fst (host_shape o)), length v, snd (host_shape o)).
Proof. reflexivity. Qed.

Lemma host_shape_foldl {A : Type} (f : HPM * Device -> A -> HPM * Device) (l : list A) :
  (forall s a, host_shape (fst (f s a)) = host_shape (fst s)) ->
  forall s, host_shape (fst (foldl f s l)) = host_shape (fst s).
Proof.
  intros Hf. induction l as [|a l IH]; intros s; [reflexivity|].
  cbn [foldl]. rewrite IH. apply Hf.
Qed.

Lemma host_shape_foldl_object {A : Type} (f : HPM -> A -> HPM) (l : list A) :
  (forall o a, host_shape (f o a) = host_shape o) ->
  forall o, host_shape (foldl f o l) = host_shape o.
Proof.
  intros Hf. induction l as [|a l IH]; intros o; [reflexivity|].
  cbn [foldl]. rewrite IH. apply Hf.
Qed.

Lemma host_shape_foldM {A : Type} (f : A -> HPM * Device -> outcome (HPM * Device))
    (l : list A) :
  (forall a s s', f a s = Returned s' -> host_shape (fst s') = host_shape (fst s)) ->
  forall s s', foldM f l s = Returned s' -> host_shape (fst s') = host_shape (fst s).
Proof.
  intros Hf. induction l as [|a l IH]; intros s s' Hrun.
  - injection Hrun as <-. reflexivity.
  - cbn [foldM] in Hrun. apply bind_Returned in Hrun as (s1 & Hstep & Hrest).
    rewrite (IH _ _ Hrest). exact (Hf _ _ _ Hstep).
Qed.

Lemma length_array_set {A : Type} (a : list A) (center : Z) (v : A) :
  length (array_set a center v) = length a.
Proof. unfold array_set. destruct (0 <=? center); [apply length_insert|reflexivity]. Qed.

Create Rewrite HintDb host_shape.

#[local] Hint Rewrite host_shape_dev_acquire host_shape_set_depths host_shape_set_params
  host_shape_set_scaled host_shape_set_pre_costs host_shape_set_costs
  host_shape_set_hypotheses : host_shape.

Ltac host_shape_simpl :=
  repeat first [ progress cbn [fst snd]
               | progress autorewrite with host_shape
               | rewrite host_shape_foldl_object
                   by (intros ? [? ?]; unfold host_shape; cbn;
                       rewrite ?length_array_set; reflexivity)
               | rewrite host_shape_foldl
                   by (intros ? ?; autorewrite with host_shape; reflexivity) ].

Lemma CudaSpaceInitialization_host_shape fs dense_folder problem o d o' d' :
  CudaSpaceInitialization fs dense_folder problem (o, d) = Returned (o', d') ->
  exists camera0, cameras o !! 0%nat = Some camera0 /\
    host_shape o'
    = (images o, cameras o, Z.of_nat (length (images o)),
       Z.to_nat (height camera0 * width camera0),
       Z.to_nat (height camera0 * width camera0)).
Proof.
  intros Hrun. unfold CudaSpaceInitialization in Hrun.
  cbn [params set_num_images images cameras num_images depths] in Hrun.
  unfold cudaMalloc, cudaMallocArray, cudaCreateTextureObject in Hrun.
  apply bind_Returned in Hrun as (camera0 & Hc0 & Hrun).
  exists camera0. split; [apply (vector_at_Returned (cameras o) 0%nat), Hc0|].
  set (n := Z.to_nat (height camera0 * width camera0)) in *.
  apply bind_Returned in Hrun as (s1 & Hgeom & Hrun).
  assert (H1 : host_shape (fst s1)
               = (images o, cameras o, Z.of_nat (length (images o)), n, n)).
  { destruct (geom_consistency (params o)).
    - apply bind_Returned in Hgeom as (s2 & Hloop & Hgeom).
      apply bind_Returned in Hgeom as ([r1 ref_depth] & _ & Hgeom).
      apply bind_Returned in Hgeom as ([r2 ref_normal] & _ & Hgeom).
      apply bind_Returned in Hgeom as ([r3 ref_cost] & _ & Hgeom).
      apply (f_equal (fun r => match r with
                               | Returned s => host_shape (fst s)
                               | _ => host_shape o
                               end)) in Hgeom.
      cbv beta iota in Hgeom. rewrite <- Hgeom.
      apply host_shape_foldM in Hloop.
      + host_shape_simpl. rewrite Hloop. host_shape_simpl.
        unfold host_shape. cbn. rewrite !length_replicate. reflexivity.
      + intros i s s' Hstep. apply bind_Returned in Hstep as (m & _ & Hstep).
        injection Hstep as <-. host_shape_simpl. reflexivity.
    - apply (f_equal (fun r => match r with
                               | Returned s => host_shape (fst s)
                               | _ => host_shape o
                               end)) in Hgeom.
      cbv beta iota in Hgeom. rewrite <- Hgeom. host_shape_simpl.
      unfold host_shape. cbn. rewrite !length_replicate. reflexivity. }
  destruct (hierarchy (params o)).
  - apply bind_Returned in Hrun as ([r1 ref_depth] & _ & Hrun).
    apply bind_Returned in Hrun as ([r2 ref_normal] & _ & Hrun).
    apply bind_Returned in Hrun as ([r3 ref_cost] & _ & Hrun).
    apply bind_Returned in Hrun as (image0 & _ & Hrun).
    apply (f_equal (fun r => match r with
                             | Returned s => host_shape (fst s)
                             | _ => host_shape o
                             end)) in Hrun.
    cbv beta iota in Hrun. cbn [fst] in Hrun. rewrite <- Hrun.
    host_shape_simpl.
    destruct (negb (cols ref_normal =? rows image0) || negb (rows ref_normal =? cols image0));
      host_shape_simpl; exact H1.
  - apply (f_equal (fun r => match r with
                             | Returned s => host_shape (fst s)
                             | _ => host_shape o
                             end)) in Hrun.
    cbv beta iota in Hrun. cbn [fst] in Hrun. rewrite <- Hrun. exact H1.
Qed.

(** X16.  A returning [CudaSpaceInitialization], whichever of
    [geom_consistency] and [hierarchy] are on, leaves the images and
    cameras as they were, sets [num_images] to the number of images, and
    leaves [plane_hypotheses_host] and [costs_host] with exactly
    [height * width] elements of the reference camera: the loops that
    fill them afterwards do not change their size. *)
Theorem CudaSpaceInitialization_host_arrays fs dense_folder problem o d o' d'
    (Hrun : CudaSpaceInitialization fs dense_folder problem (o, d) = Returned (o', d')) :
  exists camera0, cameras o !! 0%nat = Some camera0 /\
    images o' = images o /\ cameras o' = cameras o /\
    num_images o' = Z.of_nat (length (images o)) /\
    host_arrays_sized (width camera0) (height camera0) o'.
Proof.
  destruct (CudaSpaceInitialization_host_shape _ _ _ _ _ _ _ Hrun) as (camera0 & Hc & Hs).
  exists camera0. split; [exact Hc|].
  unfold host_shape in Hs. injection Hs as -> -> -> Hlh Hlc.
  repeat split; assumption.
Qed.

Lemma CudaSpaceInitialization_host_arrays_witness :
  exists o' d',
    run_CudaSpaceInitialization 1 2 1 2 = Returned (o', d') /\
    num_images o' = 1 /\ host_arrays_sized 2 1 o'.
Proof.
  destruct (run_CudaSpaceInitialization 1 2 1 2) as [[o' d']| |] eqn:E;
    [|vm_compute in E; discriminate..].
  exists o', d'. split; [reflexivity|].
  destruct (CudaSpaceInitialization_host_arrays (fs_coarse 1 2) "d" (mkProblem 0 [] 2)
              (HPM_hierarchical 1 2) Device_fresh o' d' E)
    as (camera0 & Hc & _ & _ & Hn & Hsz).
  injection Hc as <-. split; [exact Hn|exact Hsz].
Defined.
(** ** Tearing an object down *)

Lemma release_events_app (o : HPM) (l1 l2 : list (dev_kind * dev_field)) :
  release_events o (l1 ++ l2) = release_events o l1 ++ release_events o l2.
Proof. unfold release_events. apply bind_app. Qed.

Lemma dev_release_events (k : dev_kind) (f : dev_field) (o : HPM) (d : Device) :
  dev_release k f (o, d)
  = (o, mkDevice (next_handle d) (dev_log d ++ release_events o [(k, f)])).
Proof.
  unfold dev_release, release_events. cbn [mbind list_bind app].
  destruct (dev_ptrs o f) as [h|]; cbn [app].
  - reflexivity.
  - rewrite app_nil_r. destruct d; reflexivity.
Qed.

Lemma dev_release_more (k : dev_kind) (f : dev_field) (o : HPM) (n : nat)
    (log : list dev_event) (fields : list (dev_kind * dev_field)) :
  dev_release k f (o, mkDevice n (log ++ release_events o fields))
  = (o, mkDevice n (log ++ release_events o (fields ++ [(k, f)]))).
Proof.
  rewrite dev_release_events. cbn [next_handle dev_log].
  rewrite release_events_app, app_assoc. reflexivity.
Qed.

Lemma release_loop_events (k1 k2 : dev_kind) (f1 f2 : nat -> dev_field) (o : HPM) (n : nat)
    (log : list dev_event) (l : list nat) :
  forall fields,
  foldl (fun s i => dev_release k2 (f2 i) (dev_release k1 (f1 i) s))
        (o, mkDevice n (log ++ release_events o fields)) l
  = (o, mkDevice n (log ++ release_events o
                     (fields ++ (l ≫= fun i => [(k1, f1 i); (k2, f2 i)])))).
Proof.
  induction l as [|i l IH]; intros fields.
  - cbn. rewrite app_nil_r. reflexivity.
  - cbn [foldl]. rewrite !dev_release_more, IH.
    cbn [mbind list_bind]. rewrite <- !app_assoc. reflexivity.
Qed.

Lemma device_log_nil (o : HPM) (d : Device) :
  d = mkDevice (next_handle d) (dev_log d ++ release_events o []).
Proof. cbn. rewrite app_nil_r. destruct d; reflexivity. Qed.

(** [CudaSpaceRelease] as a list of freeing calls. *)
Lemma CudaSpaceRelease_events (geom : bool) (o : HPM) (d : Device) :
  CudaSpaceRelease geom (o, d)
  = (o, mkDevice (next_handle d)
          (dev_log d ++ release_events o
             ([(Buffer, texture_objects_cuda); (Buffer, cameras_cuda);
               (Buffer, plane_hypotheses_cuda); (Buffer, costs_cuda);
               (Buffer, rand_states_cuda); (Buffer, selected_views_cuda);
               (Buffer, depths_cuda); (Buffer, texture_cuda)]
              ++ if geom then [(Buffer, texture_depths_cuda)] else []))).
Proof.
  unfold CudaSpaceRelease, cudaFree. cbv zeta.
  destruct geom; rewrite (device_log_nil o d) at 1;
    rewrite !dev_release_more; reflexivity.
Qed.

(** [~HPM] as a list of freeing calls. *)
Lemma HPM_destructor_events (o : HPM) (d : Device) :
  HPM_destructor (o, d)
  = (o, mkDevice (next_handle d)
          (dev_log d ++ release_events o
             ((seq 0 (Z.to_nat (num_images o)) ≫=
                 fun i => [(Texture, texture_objects_host_images i); (Array, cuArray i)])
              ++ [(Buffer, texture_objects_cuda); (Buffer, cameras_cuda);
                  (Buffer, plane_hypotheses_cuda); (Buffer, costs_cuda);
                  (Buffer, pre_costs_cuda); (Buffer, rand_states_cuda);
                  (Buffer, selected_views_cuda); (Buffer, depths_cuda)]
              ++ (if geom_consistency (params o)
                  then (seq 0 (Z.to_nat (num_images o)) ≫=
                          fun i => [(Texture, texture_depths_host_images i);
                                    (Array, cuDepthArray i)])
                       ++ [(Buffer, texture_depths_cuda)]
                  else [])
              ++ (if hierarchy (params o)
                  then [(Buffer, scaled_plane_hypotheses_cuda); (Buffer, pre_costs_cuda)]
                  else [])
              ++ (if prior_consistency (params o)
                  then [(Buffer, prior_planes_cuda); (Buffer, plane_masks_cuda)]
                  else [])))).
Proof.
  unfold HPM_destructor, cudaFree, cudaFreeArray, cudaDestroyTextureObject.
  cbv zeta. cbn [fst].
  destruct (geom_consistency (params o)), (hierarchy (params o)),
           (prior_consistency (params o));
    rewrite (device_log_nil o d) at 1;
    rewrite release_loop_events; cbn [app];
    rewrite !dev_release_more;
    rewrite ?release_loop_events, ?dev_release_more, <- ?app_assoc;
    cbn [app]; rewrite ?app_nil_r; reflexivity.
Qed.

Lemma released_release_events (o : HPM) (k : dev_kind) (f : dev_field) (h : nat)
    (fields : list (dev_kind * dev_field)) :
  (k, f) ∈ fields -> dev_ptrs o f = Some h ->
  (1 <= released h (release_events o fields))%nat.
Proof.
  intros Hin Hf. induction fields as [|[k' f'] fields IH].
  - apply elem_of_nil in Hin. destruct Hin.
  - change ((k', f') :: fields) with ([(k', f')] ++ fields).
    rewrite release_events_app, released_app.
    apply elem_of_cons in Hin as [Heq|Hin].
    + injection Heq as <- <-. unfold release_events. cbn [mbind list_bind app].
      rewrite Hf. unfold released. cbn. rewrite Nat.eqb_refl. cbn. lia.
    + specialize (IH Hin). lia.
Qed.

(** X17.  [CudaSpaceRelease] frees seven members that the destructor
    frees too, and it leaves them (like every member) pointing where
    they did.  So when it is followed by [~HPM], each of the seven that
    holds an allocation has that allocation released at least twice. *)
Theorem CudaSpaceRelease_then_destructor
    (geom : bool) (o : HPM) (d : Device) (f : dev_field) (h : nat)
    (Hfield : f ∈ freed_by_both) (Hheld : dev_ptrs o f = Some h) :
  fst (CudaSpaceRelease geom (o, d)) = o /\
  (released h (dev_log d) + 1
   <= released h (dev_log (snd (CudaSpaceRelease geom (o, d)))))%nat /\
  (released h (dev_log d) + 2
   <= released h (dev_log (snd (HPM_destructor (CudaSpaceRelease geom (o, d))))))%nat.
Proof.
  rewrite CudaSpaceRelease_events. cbn [fst snd dev_log].
  rewrite HPM_destructor_events. cbn [snd dev_log next_handle].
  rewrite !released_app.
  assert (H1 : (1 <= released h (release_events o
             ([(Buffer, texture_objects_cuda); (Buffer, cameras_cuda);
               (Buffer, plane_hypotheses_cuda); (Buffer, costs_cuda);
               (Buffer, rand_states_cuda); (Buffer, selected_views_cuda);
               (Buffer, depths_cuda); (Buffer, texture_cuda)]
              ++ if geom then [(Buffer, texture_depths_cuda)] else [])))%nat).
  { apply (released_release_events o Buffer f); [|exact Hheld].
    apply elem_of_app. left. unfold freed_by_both in Hfield.
    repeat (apply elem_of_cons in Hfield as [->|Hfield];
            [repeat (first [apply list_elem_of_here|apply list_elem_of_further])|]).
    apply elem_of_nil in Hfield. destruct Hfield. }
  split; [reflexivity|]. split; [lia|].
  rewrite !release_events_app, !released_app.
  assert (H2 : (1 <= released h (release_events o
             [(Buffer, texture_objects_cuda); (Buffer, cameras_cuda);
              (Buffer, plane_hypotheses_cuda); (Buffer, costs_cuda);
              (Buffer, pre_costs_cuda); (Buffer, rand_states_cuda);
              (Buffer, selected_views_cuda); (Buffer, depths_cuda)]))%nat).
  { apply (released_release_events o Buffer f); [|exact Hheld].
    unfold freed_by_both in Hfield.
    repeat (apply elem_of_cons in Hfield as [->|Hfield];
            [repeat (first [apply list_elem_of_here|apply list_elem_of_further])|]).
    apply elem_of_nil in Hfield. destruct Hfield. }
  rewrite !release_events_app, !released_app in H1. lia.
Qed.

Lemma CudaSpaceRelease_then_destructor_witness :
  exists o' d',
    run_CudaSpaceInitialization 1 2 1 2 = Returned (o', d') /\
    dev_ptrs o' cameras_cuda = Some 3%nat /\
    released 3 (dev_log d') = 0%nat /\
    (2 <= released 3 (dev_log (snd (HPM_destructor (CudaSpaceRelease false (o', d'))))))%nat.
Proof.
  eexists _, _. split; [vm_compute; reflexivity|].
  split; [reflexivity|]. split; [reflexivity|].
  match goal with
  | |- context [CudaSpaceRelease false (?o', ?d')] =>
      destruct (CudaSpaceRelease_then_destructor false o' d' cameras_cuda 3
                  ltac:(unfold freed_by_both; apply list_elem_of_further, list_elem_of_here)
                  eq_refl) as (_ & _ & Htwice)
  end.
  exact Htwice.
Defined.

(** X18.  With [params.hierarchy] on, the destructor frees
    [pre_costs_cuda] in its unconditional part and again in its
    hierarchy part, without resetting the pointer in between: whatever
    allocation the member holds is released at least twice by [~HPM]
    alone, for every object and every state of the device. *)
Theorem destructor_frees_pre_costs_twice (o : HPM) (d : Device) (h : nat)
    (Hhier : hierarchy (params o) = true)
    (Hheld : dev_ptrs o pre_costs_cuda = Some h) :
  fst (HPM_destructor (o, d)) = o /\
  (released h (dev_log d) + 2 <= released h (dev_log (snd (HPM_destructor (o, d)))))%nat.
Proof.
  rewrite HPM_destructor_events. cbn [fst snd dev_log]. rewrite Hhier.
  split; [reflexivity|].
  rewrite released_app, !release_events_app, !released_app.
  assert (H1 : (1 <= released h (release_events o
             [(Buffer, texture_objects_cuda); (Buffer, cameras_cuda);
              (Buffer, plane_hypotheses_cuda); (Buffer, costs_cuda);
              (Buffer, pre_costs_cuda); (Buffer, rand_states_cuda);
              (Buffer, selected_views_cuda); (Buffer, depths_cuda)]))%nat).
  { apply (released_release_events o Buffer pre_costs_cuda); [|exact Hheld].
    repeat (first [apply list_elem_of_here|apply list_elem_of_further]). }
  assert (H2 : (1 <= released h (release_events o
             [(Buffer, scaled_plane_hypotheses_cuda); (Buffer, pre_costs_cuda)]))%nat).
  { apply (released_release_events o Buffer pre_costs_cuda); [|exact Hheld].
    repeat (first [apply list_elem_of_here|apply list_elem_of_further]). }
  lia.
Qed.

Lemma destructor_frees_pre_costs_twice_witness :
  exists o' d',
    run_CudaSpaceInitialization 1 2 1 2 = Returned (o', d') /\
    dev_ptrs o' pre_costs_cuda = Some 11%nat /\
    released 11 (dev_log d') = 0%nat /\
    (2 <= released 11 (dev_log (snd (HPM_destructor (o', d')))))%nat.
Proof.
  eexists _, _. split; [vm_compute; reflexivity|].
  split; [reflexivity|]. split; [reflexivity|].
  match goal with
  | |- context [HPM_destructor (?o', ?d')] =>
      destruct (destructor_frees_pre_costs_twice o' d' 11 eq_refl eq_refl) as (_ & Htwice)
  end.
  exact Htwice.
Defined.
(** ** Point clouds as PLY files *)

Lemma flt_FLT_MAX_finite (x : spec_float) :
  flt x FLT_MAX = true ->
  (flt (SFopp FLT_MAX) x = true \/ fle (SFopp FLT_MAX) x = true) ->
  match x with S754_zero _ | S754_finite _ _ _ => True | _ => False end.
Proof.
  destruct x as [s|s| |s m e]; try exact (fun _ _ => I).
  - destruct s; intros H1 H2; [|discriminate H1].
    destruct H2 as [H2|H2]; discriminate H2.
  - intros H1. discriminate H1.
Qed.

Lemma ply_coord_finite (X : float3) :
  f32_finite (f3x (ply_coord X)) = true /\
  f32_finite (f3y (ply_coord X)) = true /\
  f32_finite (f3z (ply_coord X)) = true /\
  (ply_coord X = X \/ ply_coord X = make_float3 f32_zero f32_zero f32_zero).
Proof.
  unfold ply_coord.
  destruct (flt (f32_val (f3x X)) FLT_MAX) eqn:Hx1; cbn [andb negb orb];
    [|repeat split; try reflexivity; right; reflexivity].
  destruct (flt (SFopp FLT_MAX) (f32_val (f3x X))) eqn:Hx2; cbn [andb negb orb];
    [|repeat split; try reflexivity; right; reflexivity].
  destruct (flt (f32_val (f3y X)) FLT_MAX) eqn:Hy1; cbn [andb negb orb];
    [|repeat split; try reflexivity; right; reflexivity].
  destruct (flt (SFopp FLT_MAX) (f32_val (f3y X))) eqn:Hy2; cbn [andb negb orb];
    [|repeat split; try reflexivity; right; reflexivity].
  destruct (flt (f32_val (f3z X)) FLT_MAX) eqn:Hz1; cbn [andb negb orb];
    [|repeat split; try reflexivity; right; reflexivity].
  destruct (fle (SFopp FLT_MAX) (f32_val (f3z X))) eqn:Hz2; cbn [andb negb orb];
    [|repeat split; try reflexivity; right; reflexivity].
  pose proof (flt_FLT_MAX_finite _ Hx1 (or_introl Hx2)) as Fx.
  pose proof (flt_FLT_MAX_finite _ Hy1 (or_introl Hy2)) as Fy.
  pose proof (flt_FLT_MAX_finite _ Hz1 (or_intror Hz2)) as Fz.
  unfold f32_finite.
  destruct (f32_val (f3x X)), (f32_val (f3y X)), (f32_val (f3z X));
    try contradiction; repeat split; try reflexivity; left; reflexivity.
Qed.

Lemma length_f32_bytes_one (v : f32) : length (f32_bytes v) = 4%nat.
Proof. destruct v as [[[b0 b1] b2] b3]. reflexivity. Qed.

Lemma length_ply_vertex (with_normal : bool) (p : PointList) :
  length (ply_vertex with_normal p) = if with_normal then 27%nat else 15%nat.
Proof.
  unfold ply_vertex. destruct with_normal;
    rewrite !length_app, !length_f32_bytes_one; reflexivity.
Qed.

Lemma length_ply_vertices (with_normal : bool) (l : list PointList) :
  length (concat (ply_vertex with_normal <$> l))
  = ((if with_normal then 27 else 15) * length l)%nat.
Proof.
  induction l as [|p l IH]; [cbn; lia|].
  cbn [fmap list_fmap concat length]. cbn [fmap] in IH.
  rewrite length_app, IH, length_ply_vertex. destruct with_normal; lia.
Qed.

(** X19.  No vertex leaves [ExportPointCloud] or
    [StoreColorPlyFileBinaryPointCloud] with a coordinate that is not a
    number or is infinite: a vertex record starts with the twelve bytes
    of three finite samples, which are the point's own coordinates or,
    when one of them fails the range test, three zeros.  The record is
    15 bytes without the normal and 27 with it. *)
Theorem exported_coordinates_finite (with_normal : bool) (p : PointList) :
  exists x y z rest,
    ply_vertex with_normal p = f32_bytes x ++ f32_bytes y ++ f32_bytes z ++ rest /\
    f32_finite x = true /\ f32_finite y = true /\ f32_finite z = true /\
    (make_float3 x y z = coord p \/ make_float3 x y z = make_float3 f32_zero f32_zero f32_zero) /\
    length (ply_vertex with_normal p) = (if with_normal then 27%nat else 15%nat).
Proof.
  destruct (ply_coord_finite (coord p)) as (Fx & Fy & Fz & Hor).
  eexists (f3x (ply_coord (coord p))), (f3y (ply_coord (coord p))),
          (f3z (ply_coord (coord p))), _.
  split; [unfold ply_vertex; reflexivity|].
  split; [exact Fx|]. split; [exact Fy|]. split; [exact Fz|].
  split; [|apply length_ply_vertex].
  destruct (ply_coord (coord p)) as [x y z]. cbn [f3x f3y f3z]. exact Hor.
Qed.

Lemma points_in_order_seq (l1 l2 : list PointList) :
  omap (fun i => (l1 ++ l2) !! i) (seq (length l1) (length l2)) = l2.
Proof.
  revert l1. induction l2 as [|x l2 IH]; intros l1; [reflexivity|].
  specialize (IH (l1 ++ [x])).
  rewrite <- app_assoc, length_app in IH. cbn [app length] in IH.
  replace (length l1 + 1)%nat with (S (length l1)) in IH by lia.
  set (f := fun i => (l1 ++ x :: l2) !! i) in *.
  assert (Hmid : f (length l1) = Some x)
    by (subst f; apply list_lookup_middle; reflexivity).
  cbn [length seq omap list_omap]. rewrite Hmid. f_equal. exact IH.
Qed.

Lemma write_ply_loop (with_normal : bool) (pc : list PointList) (order : list nat) :
  Forall (fun i => (i < length pc)%nat) order ->
  forall out,
  foldM (fun i outputPly =>
           p ← vector_at pc (Z.of_nat i);
           Returned (outputPly ++ ply_vertex with_normal p)) order out
  = Returned (out ++ concat (ply_vertex with_normal <$> points_in_order pc order)).
Proof.
  unfold points_in_order.
  induction 1 as [|i order Hi _ IH]; intros out.
  - cbn. rewrite app_nil_r. reflexivity.
  - cbn [foldM omap list_omap].
    destruct (lookup_lt_is_Some_2 pc i Hi) as [p Hp].
    rewrite (proj2 (vector_at_Returned pc i p) Hp), Hp.
    cbn [mbind outcome_bind fmap list_fmap concat]. rewrite IH, <- app_assoc. reflexivity.
Qed.

Lemma write_ply_written (with_normal : bool) (order : list nat) (fs : FileSystem)
    (path : string) (pc : list PointList) :
  fs_writable fs path = true -> order ≡ₚ seq 0 (length pc) ->
  ply_written with_normal (if with_normal then 27 else 15)%nat (write_ply with_normal)
    order fs path pc.
Proof.
  intros Hw Hperm.
  assert (Hseq : points_in_order pc (seq 0 (length pc)) = pc)
    by apply (points_in_order_seq [] pc).
  assert (Hpts : points_in_order pc order ≡ₚ pc).
  { rewrite <- Hseq at 2. unfold points_in_order. rewrite Hperm. reflexivity. }
  assert (Hrange : Forall (fun i => (i < length pc)%nat) order).
  { apply Forall_forall. intros i Hi. rewrite Hperm in Hi.
    apply elem_of_seq in Hi. lia. }
  unfold ply_written, write_ply, fopen_wb. rewrite Hw.
  rewrite (write_ply_loop with_normal pc order Hrange). cbn [mbind outcome_bind app].
  eexists. split; [reflexivity|]. split; [exact Hpts|].
  split; [intros ->; exact Hseq|].
  split; [unfold fclose_w; cbn [fs_files]; apply lookup_insert_eq|].
  split.
  - rewrite <- (Permutation_length Hpts). apply length_ply_vertices.
  - intros q Hq. unfold fclose_w; cbn [fs_files]. apply lookup_insert_ne. congruence.
Qed.

(** X20.  The layout of an exported cloud.  When the file can be created
    and every iteration of the loop writes once (in the order of the
    points when the loop runs sequentially, in any order under OpenMP),
    both exporters return; the file is the text header, whose vertex
    count is the number of points, followed by one record per point of
    the cloud, 15 bytes each for [ExportPointCloud] and 27 for
    [StoreColorPlyFileBinaryPointCloud]; no other file changes. *)
Theorem exported_cloud_layout (order : list nat) (fs : FileSystem) (path : string)
    (pc : list PointList)
    (Hcreate : fs_writable fs path = true)
    (Honce : order ≡ₚ seq 0 (length pc)) :
  ply_written false 15 ExportPointCloud order fs path pc /\
  ply_written true 27 StoreColorPlyFileBinaryPointCloud order fs path pc.
Proof.
  split; [apply (write_ply_written false)|apply (write_ply_written true)]; assumption.
Qed.

Lemma exported_cloud_layout_witness :
  fs_writable fs_sample "d/cloud.ply" = true /\
  [1; 0]%nat ≡ₚ seq 0 (length [point_plain; point_nan]) /\
  ply_written false 15 ExportPointCloud [1; 0]%nat fs_sample "d/cloud.ply"
    [point_plain; point_nan].
Proof.
  assert (Hperm : [1; 0]%nat ≡ₚ seq 0 (length [point_plain; point_nan]))
    by (cbn; apply Permutation_swap).
  split; [reflexivity|]. split; [exact Hperm|].
  apply (exported_cloud_layout [1; 0]%nat fs_sample "d/cloud.ply"
           [point_plain; point_nan] eq_refl Hperm).
Defined.
(** ** The general statements of the earlier sections, on concrete runs *)

Lemma upsample_decision_witness :
  exists o' d',
    run_CudaSpaceInitialization 1 2 1 2 = Returned (o', d') /\
    upsample (params o') = true.
Proof.
  destruct (run_CudaSpaceInitialization 1 2 1 2) as [[o' d']| |] eqn:E;
    [|vm_compute in E; discriminate..].
  exists o', d'. split; [reflexivity|].
  destruct (upsample_decision (fs_coarse 1 2) "d" (mkProblem 0 [] 2)
              (HPM_hierarchical 1 2) Device_fresh o' d' eq_refl eq_refl E)
    as (r & ref_normal & image0 & Hread & Himg & ->).
  vm_compute in Hread. injection Hread as <- <-.
  injection Himg as <-. reflexivity.
Defined.


(** ** The device side of setup *)

Lemma device_view_dev_acquire (k : dev_kind) (f : dev_field) (s : HPM * Device) :
  device_view (dev_acquire k f s) = view_acquire k f (device_view s).
Proof. destruct s as [o d]. reflexivity. Qed.

Lemma view_acquire_all_app (l1 l2 : list (dev_kind * dev_field))
    (v : (dev_field -> ptr) * Device) :
  view_acquire_all (l1 ++ l2) v = view_acquire_all l2 (view_acquire_all l1 v).
Proof. unfold view_acquire_all. apply foldl_app. Qed.

Lemma view_acquire_one (k : dev_kind) (f : dev_field)
    (v : (dev_field -> ptr) * Device) :
  view_acquire k f v = view_acquire_all [(k, f)] v.
Proof. reflexivity. Qed.

Lemma device_view_host (o1 o2 : HPM) (d : Device) :
  dev_ptrs o1 = dev_ptrs o2 -> device_view (o1, d) = device_view (o2, d).
Proof. unfold device_view. cbn. intros ->. reflexivity. Qed.

Lemma dev_ptrs_foldl {A : Type} (f : HPM -> A -> HPM) (l : list A) :
  (forall o a, dev_ptrs (f o a) = dev_ptrs o) ->
  forall o, dev_ptrs (foldl f o l) = dev_ptrs o.
Proof.
  intros Hf. induction l as [|a l IH]; intros o; [reflexivity|].
  cbn [foldl]. rewrite IH. apply Hf.
Qed.

Lemma device_view_acquire_loop (k1 k2 : dev_kind) (f1 f2 : nat -> dev_field) (l : list nat) :
  forall s,
  device_view (foldl (fun s i => dev_acquire k2 (f2 i) (dev_acquire k1 (f1 i) s)) s l)
  = view_acquire_all (l ≫= fun i => [(k1, f1 i); (k2, f2 i)]) (device_view s).
Proof.
  induction l as [|i l IH]; intros s; [reflexivity|].
  cbn [foldl]. rewrite IH, !device_view_dev_acquire. reflexivity.
Qed.

Lemma device_view_acquire_loopM {A : Type} (k1 k2 : dev_kind) (f1 f2 : nat -> dev_field)
    (guard : nat -> outcome A) (l : list nat) :
  forall s s',
  foldM (fun i s => _ ← guard i;
                    Returned (dev_acquire k2 (f2 i) (dev_acquire k1 (f1 i) s))) l s
    = Returned s' ->
  device_view s'
  = view_acquire_all (l ≫= fun i => [(k1, f1 i); (k2, f2 i)]) (device_view s).
Proof.
  induction l as [|i l IH]; intros s s' Hrun.
  - injection Hrun as <-. reflexivity.
  - cbn [foldM] in Hrun. apply bind_Returned in Hrun as (s1 & Hstep & Hrest).
    apply bind_Returned in Hstep as (x & _ & Hstep). injection Hstep as <-.
    rewrite (IH _ _ Hrest), !device_view_dev_acquire. reflexivity.
Qed.

Lemma device_view_host_pair (o1 : HPM) (s : HPM * Device) :
  dev_ptrs o1 = dev_ptrs (fst s) -> device_view (o1, snd s) = device_view s.
Proof. destruct s as [o d]. apply device_view_host. Qed.

Lemma device_view_acquire_all (k : dev_kind) (f : dev_field) (s : HPM * Device) :
  device_view (dev_acquire k f s) = view_acquire_all [(k, f)] (device_view s).
Proof. apply device_view_dev_acquire. Qed.

Lemma view_acquire_all_twice (l1 l2 : list (dev_kind * dev_field))
    (v : (dev_field -> ptr) * Device) :
  view_acquire_all l2 (view_acquire_all l1 v) = view_acquire_all (l1 ++ l2) v.
Proof. symmetry. apply view_acquire_all_app. Qed.

Lemma device_view_set_num_images (n : Z) (o : HPM) (d : Device) :
  device_view (set_num_images n o, d) = device_view (o, d).
Proof. reflexivity. Qed.

Lemma device_view_set_hypotheses (v : list float4) (s : HPM * Device) :
  device_view (set_plane_hypotheses_host v (fst s), snd s) = device_view s.
Proof. destruct s. reflexivity. Qed.

Lemma device_view_set_costs (v : list f32) (s : HPM * Device) :
  device_view (set_costs_host v (fst s), snd s) = device_view s.
Proof. destruct s. reflexivity. Qed.

Lemma device_view_set_depths (v : list Mat) (s : HPM * Device) :
  device_view (set_depths v (fst s), snd s) = device_view s.
Proof. destruct s. reflexivity. Qed.

Lemma device_view_set_scaled (v : list float4) (s : HPM * Device) :
  device_view (set_scaled_plane_hypotheses_host v (fst s), snd s) = device_view s.
Proof. destruct s. reflexivity. Qed.

Lemma device_view_set_pre_costs (v : list f32) (s : HPM * Device) :
  device_view (set_pre_costs_host v (fst s), snd s) = device_view s.
Proof. destruct s. reflexivity. Qed.

Lemma device_view_set_params (f : PatchMatchParams -> PatchMatchParams) (s : HPM * Device) :
  device_view (set_params f (fst s), snd s) = device_view s.
Proof. destruct s. reflexivity. Qed.

Create Rewrite HintDb device_view.

#[local] Hint Rewrite device_view_acquire_all device_view_acquire_loop
  view_acquire_all_twice device_view_set_num_images device_view_set_hypotheses
  device_view_set_costs device_view_set_depths device_view_set_scaled
  device_view_set_pre_costs device_view_set_params : device_view.

(** The device side of a returning [CudaSpaceInitialization] is that of
    its allocating calls, in order. *)
Lemma CudaSpaceInitialization_device fs dense_folder problem o d o' d' :
  CudaSpaceInitialization fs dense_folder problem (o, d) = Returned (o', d') ->
  device_view (o', d')
  = view_acquire_all
      (setup_fields (length (images o)) (geom_consistency (params o)) (hierarchy (params o)))
      (device_view (o, d)).
Proof.
  intros Hrun. unfold CudaSpaceInitialization in Hrun.
  cbn [params set_num_images images cameras num_images depths] in Hrun.
  rewrite Nat2Z.id in Hrun.
  unfold cudaMalloc, cudaMallocArray, cudaCreateTextureObject in Hrun.
  apply bind_Returned in Hrun as (camera0 & Hc0 & Hrun).
  set (n := Z.to_nat (height camera0 * width camera0)) in *.
  apply bind_Returned in Hrun as (s1 & Hgeom & Hrun).
  assert (H1 : device_view s1
               = view_acquire_all
                   (setup_before_pre_costs (length (images o)) ++ [(Buffer, pre_costs_cuda)]
                    ++ setup_after_pre_costs (length (images o)) (geom_consistency (params o)))
                   (device_view (o, d))).
  { unfold setup_before_pre_costs, setup_after_pre_costs.
    destruct (geom_consistency (params o)).
    - apply bind_Returned in Hgeom as (s2 & Hloop & Hgeom).
      apply bind_Returned in Hgeom as ([r1 ref_depth] & _ & Hgeom).
      apply bind_Returned in Hgeom as ([r2 ref_normal] & _ & Hgeom).
      apply bind_Returned in Hgeom as ([r3 ref_cost] & _ & Hgeom).
      apply (f_equal (fun r => match r with
                               | Returned s => device_view s
                               | _ => device_view (o, d)
                               end)) in Hgeom.
      cbv beta iota in Hgeom. rewrite <- Hgeom. cbn [fst snd].
      rewrite device_view_host_pair
        by (rewrite dev_ptrs_foldl by (intros ? [? ?]; reflexivity); reflexivity).
      rewrite device_view_acquire_all.
      rewrite (device_view_acquire_loopM _ _ _ _ _ _ _ _ Hloop).
      autorewrite with device_view.
      f_equal. rewrite <- !app_assoc. reflexivity.
    - apply (f_equal (fun r => match r with
                               | Returned s => device_view s
                               | _ => device_view (o, d)
                               end)) in Hgeom.
      cbv beta iota in Hgeom. rewrite <- Hgeom.
      autorewrite with device_view.
      f_equal. rewrite <- !app_assoc, app_nil_r. reflexivity. }
  unfold setup_fields. destruct (hierarchy (params o)).
  - apply bind_Returned in Hrun as ([r1 ref_depth] & _ & Hrun).
    apply bind_Returned in Hrun as ([r2 ref_normal] & _ & Hrun).
    apply bind_Returned in Hrun as ([r3 ref_cost] & _ & Hrun).
    apply bind_Returned in Hrun as (image0 & _ & Hrun).
    apply (f_equal (fun r => match r with
                             | Returned s => device_view s
                             | _ => device_view (o, d)
                             end)) in Hrun.
    cbv beta iota in Hrun. rewrite <- Hrun.
    destruct (negb (cols ref_normal =? rows image0) || negb (rows ref_normal =? cols image0));
      cbn [fst snd];
      (rewrite device_view_host_pair
         by (rewrite !dev_ptrs_foldl by (intros ? [? ?]; reflexivity); reflexivity));
      autorewrite with device_view;
      rewrite (device_view_host_pair _ s1) by reflexivity;
      rewrite H1; autorewrite with device_view;
      f_equal; rewrite <- !app_assoc; reflexivity.
  - apply (f_equal (fun r => match r with
                             | Returned s => device_view s
                             | _ => device_view (o, d)
                             end)) in Hrun.
    cbv beta iota in Hrun. rewrite <- Hrun, H1.
    f_equal. rewrite app_nil_r. reflexivity.
Qed.

Lemma view_acquire_all_log (fields : list (dev_kind * dev_field)) :
  forall v : (dev_field -> ptr) * Device,
  next_handle (snd (view_acquire_all fields v)) = (next_handle (snd v) + length fields)%nat /\
  dev_log (snd (view_acquire_all fields v))
  = dev_log (snd v) ++ acquire_events (next_handle (snd v)) fields.
Proof.
  induction fields as [|[k f] fields IH]; intros v.
  - cbn. rewrite app_nil_r. split; [lia|reflexivity].
  - change (view_acquire_all ((k, f) :: fields) v)
      with (view_acquire_all fields (view_acquire k f v)).
    destruct (IH (view_acquire k f v)) as [-> ->].
    cbn [view_acquire snd Device_acquire next_handle dev_log acquire_events length].
    rewrite <- app_assoc. split; [lia|reflexivity].
Qed.

Lemma acquired_cons (h : nat) (e : dev_event) (l : list dev_event) :
  acquired h (e :: l) = ((if is_acquire h e then 1 else 0) + acquired h l)%nat.
Proof. unfold acquired. cbn [List.filter]. destruct (is_acquire h e); reflexivity. Qed.

Lemma released_cons (h : nat) (e : dev_event) (l : list dev_event) :
  released h (e :: l) = ((if is_release h e then 1 else 0) + released h l)%nat.
Proof. unfold released. cbn [List.filter]. destruct (is_release h e); reflexivity. Qed.

Lemma acquire_events_lifetime (h : nat) (fields : list (dev_kind * dev_field)) :
  forall n0,
  lifetime h (acquire_events n0 fields)
  = (if (n0 <=? h)%nat && (h <? n0 + length fields)%nat then 1%nat else 0%nat, 0%nat).
Proof.
  unfold lifetime.
  induction fields as [|[k f] fields IH]; intros n0.
  - cbn [acquire_events length]. rewrite Nat.add_0_r.
    destruct (Nat.leb_spec n0 h), (Nat.ltb_spec h n0); try reflexivity; lia.
  - cbn [acquire_events length]. rewrite acquired_cons, released_cons.
    specialize (IH (S n0)).
    apply pair_equal_spec in IH as [-> ->]. cbn [is_acquire is_release].
    f_equal. decide_handles; reflexivity.
Qed.

Lemma length_acquire_events (fields : list (dev_kind * dev_field)) :
  forall n0, length (acquire_events n0 fields) = length fields.
Proof.
  induction fields as [|[k f] fields IH]; intros n0; [reflexivity|].
  cbn [acquire_events length]. rewrite IH. reflexivity.
Qed.

Lemma length_bind_pairs {A B : Type} (f g : A -> B) (l : list A) :
  length (l ≫= fun i => [f i; g i]) = (2 * length l)%nat.
Proof.
  induction l as [|a l IH]; [reflexivity|].
  cbn [mbind list_bind app length]. cbn [mbind] in IH. rewrite IH. lia.
Qed.

Lemma length_setup_before_pre_costs (n : nat) :
  length (setup_before_pre_costs n) = (2 * n + 4)%nat.
Proof.
  unfold setup_before_pre_costs.
  rewrite length_app, length_bind_pairs, length_seq. reflexivity.
Qed.

Lemma length_setup_fields (n : nat) (geom hier : bool) :
  length (setup_fields n geom hier) = setup_count n geom hier.
Proof.
  unfold setup_fields, setup_after_pre_costs, setup_count.
  rewrite !length_app, length_setup_before_pre_costs.
  destruct geom, hier; rewrite ?length_app, ?length_bind_pairs, ?length_seq;
    cbn [length]; lia.
Qed.

(** The device log of a returning setup: the allocating calls of its
    members, in order. *)
Lemma CudaSpaceInitialization_log fs dense_folder problem o d o' d'
    (Hrun : CudaSpaceInitialization fs dense_folder problem (o, d) = Returned (o', d')) :
  let fields := setup_fields (length (images o)) (geom_consistency (params o))
                  (hierarchy (params o)) in
  dev_log d' = dev_log d ++ acquire_events (next_handle d) fields /\
  next_handle d' = (next_handle d + length fields)%nat.
Proof.
  intros fields.
  pose proof (CudaSpaceInitialization_device _ _ _ _ _ _ _ Hrun) as Hview.
  destruct (view_acquire_all_log fields (device_view (o, d))) as [Hnext Hlog].
  subst fields. rewrite <- Hview in Hnext, Hlog. cbn [device_view snd] in Hnext, Hlog.
  split; [exact Hlog|exact Hnext].
Qed.

(** X21.  [CudaSpaceInitialization] only allocates.  When it returns,
    the device log has grown by one allocating call per device member it
    sets up: two per image, eight buffers, with [geom_consistency] two
    per depth map and one more buffer, with [hierarchy] two more
    buffers.  Each of these allocations is fresh and acquired once, and
    nothing is released, not even what the members held before the
    call. *)
Theorem setup_only_acquires fs dense_folder problem o d o' d'
    (Hrun : CudaSpaceInitialization fs dense_folder problem (o, d) = Returned (o', d')) :
  let count := setup_count (length (images o)) (geom_consistency (params o))
                 (hierarchy (params o)) in
  exists new,
    dev_log d' = dev_log d ++ new /\ length new = count /\
    next_handle d' = (next_handle d + count)%nat /\
    forall h, lifetime h new
              = (if (next_handle d <=? h)%nat && (h <? next_handle d')%nat
                 then 1%nat else 0%nat, 0%nat).
Proof.
  intros count.
  destruct (CudaSpaceInitialization_log _ _ _ _ _ _ _ Hrun) as [Hlog Hnext].
  set (fields := setup_fields (length (images o)) (geom_consistency (params o))
                   (hierarchy (params o))) in *.
  assert (Hcount : length fields = count) by apply length_setup_fields.
  exists (acquire_events (next_handle d) fields).
  split; [exact Hlog|]. split; [rewrite length_acquire_events; exact Hcount|].
  split; [rewrite Hnext, Hcount; reflexivity|].
  intros h. rewrite acquire_events_lifetime, Hnext. reflexivity.
Qed.

Lemma setup_only_acquires_witness :
  exists o' d',
    run_CudaSpaceInitialization 1 2 1 2 = Returned (o', d') /\
    next_handle d' = 12%nat /\ length (dev_log d') = 12%nat /\
    lifetime 6 (dev_log d') = (1%nat, 0%nat).
Proof.
  destruct (run_CudaSpaceInitialization 1 2 1 2) as [[o' d']| |] eqn:E;
    [|vm_compute in E; discriminate..].
  exists o', d'.
  destruct (setup_only_acquires (fs_coarse 1 2) "d" (mkProblem 0 [] 2)
              (HPM_hierarchical 1 2) Device_fresh o' d' E)
    as (new & Hlog & Hlen & Hnext & Hlife).
  cbn [dev_log Device_fresh app next_handle] in Hlog, Hnext.
  split; [reflexivity|]. split; [exact Hnext|]. rewrite Hlog.
  split; [exact Hlen|]. rewrite Hlife, Hnext. reflexivity.
Defined.

Lemma pointers_known_acquire (k : dev_kind) (f : dev_field)
    (v : (dev_field -> ptr) * Device) :
  pointers_known v -> pointers_known (view_acquire k f v).
Proof.
  intros Hk g h. unfold view_acquire, Device_acquire. cbn [fst snd next_handle].
  destruct (decide (g = f)); intros Hg.
  - injection Hg as <-. lia.
  - specialize (Hk g h Hg). lia.
Qed.

Lemma pointers_known_acquire_all (fields : list (dev_kind * dev_field)) :
  forall v : (dev_field -> ptr) * Device, pointers_known v -> pointers_known (view_acquire_all fields v).
Proof.
  induction fields as [|[k f] fields IH]; intros v Hk; [exact Hk|].
  change (view_acquire_all ((k, f) :: fields) v)
    with (view_acquire_all fields (view_acquire k f v)).
  apply IH, pointers_known_acquire, Hk.
Qed.

(** An allocation that only member [keeper] may hold stays so under
    further allocating calls. *)
Lemma held_only_by_acquire_all (h : nat) (keeper : dev_field)
    (fields : list (dev_kind * dev_field)) :
  forall v : (dev_field -> ptr) * Device,
  (h < next_handle (snd v))%nat ->
  (forall g, fst v g = Some h -> g = keeper) ->
  forall g, fst (view_acquire_all fields v) g = Some h -> g = keeper.
Proof.
  induction fields as [|[k f] fields IH]; intros v Hlt Hk; [exact Hk|].
  change (view_acquire_all ((k, f) :: fields) v)
    with (view_acquire_all fields (view_acquire k f v)).
  apply IH.
  - unfold view_acquire, Device_acquire. cbn [snd next_handle]. lia.
  - intros g. unfold view_acquire. cbn [fst]. destruct (decide (g = f)); intros Hg.
    + injection Hg as Hg. lia.
    + apply Hk, Hg.
Qed.

Lemma unheld_release_events (h : nat) (o : HPM) (fields : list (dev_kind * dev_field)) :
  unheld h (dev_ptrs o) -> released h (release_events o fields) = 0%nat.
Proof.
  intros Hun. induction fields as [|[k f] fields IH]; [reflexivity|].
  change ((k, f) :: fields) with ([(k, f)] ++ fields).
  rewrite release_events_app, released_app, IH.
  unfold release_events. cbn [mbind list_bind app].
  destruct (dev_ptrs o f) as [h'|] eqn:Hf; [|reflexivity].
  cbn [app]. rewrite released_cons. cbn [is_release].
  destruct (Nat.eqb_spec h h') as [->|_]; [|reflexivity].
  exfalso. exact (Hun f Hf).
Qed.

(** X22.  With [hierarchy] on, every returning [CudaSpaceInitialization]
    loses a device buffer.  [pre_costs_cuda] is allocated in the common
    part and allocated again in the hierarchy part; the first
    allocation, the one made after the two per image and four buffers,
    is acquired once and never released, and when setup returns no
    member holds it any more.  So neither [CudaSpaceRelease] nor the
    destructor can free it: their releases do not mention it.  (The
    members are taken to hold, before the call, nothing the runtime has
    not handed out.) *)
Theorem setup_loses_first_pre_costs fs dense_folder problem o d o' d'
    (Hhier : hierarchy (params o) = true)
    (Hknown : pointers_known (device_view (o, d)))
    (Hrun : CudaSpaceInitialization fs dense_folder problem (o, d) = Returned (o', d')) :
  let h := (next_handle d + 2 * length (images o) + 4)%nat in
  exists new,
    dev_log d' = dev_log d ++ new /\
    lifetime h new = (1%nat, 0%nat) /\
    unheld h (dev_ptrs o') /\
    forall geom,
      released h (dev_log (snd (HPM_destructor (CudaSpaceRelease geom (o', d')))))
      = released h (dev_log d').
Proof.
  intros h.
  destruct (CudaSpaceInitialization_log _ _ _ _ _ _ _ Hrun) as [Hlog Hnext].
  rewrite length_setup_fields in Hnext.
  set (new := acquire_events (next_handle d) _) in Hlog.
  assert (Hlife : forall g, lifetime g new
                  = (if (next_handle d <=? g)%nat && (g <? next_handle d')%nat
                     then 1%nat else 0%nat, 0%nat)).
  { intros g. subst new.
    rewrite acquire_events_lifetime, length_setup_fields, Hnext. reflexivity. }
  clearbody new.
  pose proof (CudaSpaceInitialization_device _ _ _ _ _ _ _ Hrun) as Hview.
  rewrite Hhier in Hview, Hnext. unfold setup_fields in Hview.
  set (n := length (images o)) in *.
  set (geom := geom_consistency (params o)) in *.
  assert (Hun : unheld h (dev_ptrs o')).
  { change (dev_ptrs o') with (fst (device_view (o', d'))). rewrite Hview.
    rewrite !view_acquire_all_app.
    set (vA := view_acquire_all (setup_before_pre_costs n) (device_view (o, d))).
    assert (HkA : pointers_known vA) by (apply pointers_known_acquire_all, Hknown).
    assert (HnA : next_handle (snd vA) = h).
    { subst vA.
      rewrite (proj1 (view_acquire_all_log _ _)), length_setup_before_pre_costs.
      cbn [device_view snd]. subst h n. lia. }
    set (v1 := view_acquire_all [(Buffer, pre_costs_cuda)] vA).
    assert (Hlt1 : (h < next_handle (snd v1))%nat).
    { subst v1. rewrite (proj1 (view_acquire_all_log _ _)), HnA. cbn. lia. }
    assert (Hk1 : forall g, fst v1 g = Some h -> g = pre_costs_cuda).
    { intros g. subst v1. cbn [view_acquire_all foldl view_acquire fst].
      destruct (decide (g = pre_costs_cuda)); [intros _; assumption|].
      intros Hg. specialize (HkA g h Hg). lia. }
    set (vB := view_acquire_all (setup_after_pre_costs n geom) v1).
    assert (HltB : (h < next_handle (snd vB))%nat).
    { subst vB. rewrite (proj1 (view_acquire_all_log _ _)). lia. }
    assert (HkB : forall g, fst vB g = Some h -> g = pre_costs_cuda)
      by (apply held_only_by_acquire_all; assumption).
    intros g. cbn [view_acquire_all foldl view_acquire fst snd Device_acquire next_handle].
    destruct (decide (g = pre_costs_cuda)) as [->|Hne].
    - intros Hg. injection Hg as Hg. lia.
    - destruct (decide (g = scaled_plane_hypotheses_cuda)).
      + intros Hg. injection Hg as Hg. lia.
      + intros Hg. exact (Hne (HkB g Hg)). }
  exists new. split; [exact Hlog|]. split; [|split; [exact Hun|]].
  - rewrite Hlife, Hnext. unfold setup_count. subst h n geom.
    destruct (Nat.leb_spec (next_handle d) (next_handle d + 2 * length (images o) + 4));
      [|lia].
    match goal with
    | |- context [(?a <? ?b)%nat] => destruct (Nat.ltb_spec a b); [reflexivity|lia]
    end.
  - intros g. rewrite CudaSpaceRelease_events. cbn [snd dev_log].
    rewrite HPM_destructor_events. cbn [snd dev_log].
    rewrite !released_app, !unheld_release_events by exact Hun. lia.
Qed.

Lemma setup_loses_first_pre_costs_witness :
  exists o' d',
    run_CudaSpaceInitialization 1 2 1 2 = Returned (o', d') /\
    lifetime 6 (dev_log d') = (1%nat, 0%nat) /\
    unheld 6 (dev_ptrs o') /\
    released 6 (dev_log (snd (HPM_destructor (CudaSpaceRelease false (o', d'))))) = 0%nat.
Proof.
  destruct (run_CudaSpaceInitialization 1 2 1 2) as [[o' d']| |] eqn:E;
    [|vm_compute in E; discriminate..].
  exists o', d'.
  destruct (setup_loses_first_pre_costs (fs_coarse 1 2) "d" (mkProblem 0 [] 2)
              (HPM_hierarchical 1 2) Device_fresh o' d' eq_refl
              ltac:(intros g h Hg; discriminate Hg) E)
    as (new & Hlog & Hlife & Hun & Hnever).
  change (next_handle Device_fresh + 2 * length (images (HPM_hierarchical 1 2)) + 4)%nat
    with 6%nat in Hlife, Hun, Hnever.
  cbn [dev_log Device_fresh app] in Hlog. rewrite <- Hlog in Hlife.
  split; [reflexivity|]. split; [exact Hlife|]. split; [exact Hun|].
  rewrite (Hnever false). injection Hlife as _ Hr. exact Hr.
Defined.
(** ** An unloaded coarse map *)

Lemma Imagescale_of_empty (scaled_image_float src_depthmap : Mat) :
  rows src_depthmap = 0 \/ cols src_depthmap = 0 ->
  Imagescale_of scaled_image_float src_depthmap = Undefined.
Proof.
  intros Hempty. unfold Imagescale_of.
  destruct (Z.eqb_spec (rows src_depthmap) 0), (Z.eqb_spec (cols src_depthmap) 0);
    try reflexivity.
  exfalso. lia.
Qed.

(** X23.  Neither upsampling routine looks at the size of the coarse
    map before dividing by it.  A matrix without rows or columns that
    [readDepthDmb] could not fill (the file cannot be opened or carries
    another tag) comes back unchanged with return code -1; handed to
    [RunJBU] or to [JointBilateralUpsampling_prior] as the coarse map, it
    makes the computation of the scale an integer division by zero,
    whatever the image and the other arguments are. *)
Theorem upsampling_divides_by_zero_after_failed_read
    (fs : FileSystem) (path : string) (src_depthmap : Mat)
    (Hempty : rows src_depthmap = 0 \/ cols src_depthmap = 0)
    (Hfail : cannot_open_or_wrong_tag fs path) :
  readDepthDmb fs path src_depthmap = Returned (-1, src_depthmap) /\
  (forall JBU_NUM CudaRun scaled_image_float dense_folder problem w,
     RunJBU JBU_NUM CudaRun scaled_image_float src_depthmap dense_folder problem w
       = Undefined) /\
  (forall JBU_NUM CudaRun_prior scaled_image_float upsample_depthmap src_normal
          upsample_normal d,
     JointBilateralUpsampling_prior JBU_NUM CudaRun_prior scaled_image_float src_depthmap
       upsample_depthmap src_normal upsample_normal d = Undefined).
Proof.
  destruct (readDmb_signals 1 fs path src_depthmap) as ([_ Hread] & _).
  split; [exact (Hread Hfail)|]. split.
  - intros JBU_NUM CudaRun scaled_image_float dense_folder problem [fs0 d].
    unfold RunJBU. rewrite (Imagescale_of_empty _ _ Hempty). reflexivity.
  - intros. unfold JointBilateralUpsampling_prior.
    rewrite (Imagescale_of_empty _ _ Hempty). reflexivity.
Qed.

Lemma upsampling_divides_by_zero_after_failed_read_witness :
  (rows (Mat_empty 1 : Mat) = 0 \/ cols (Mat_empty 1 : Mat) = 0) /\
  cannot_open_or_wrong_tag fs_sample "d/missing.dmb" /\
  readDepthDmb fs_sample "d/missing.dmb" (Mat_empty 1) = Returned (-1, Mat_empty 1) /\
  RunJBU 2 (fun _ _ _ => []) (Mat_zeros 2 2 1) (Mat_empty 1) "d" (mkProblem 0 [] 2)
    (fs_sample, Device_fresh) = Undefined.
Proof.
  assert (Hempty : rows (Mat_empty 1 : Mat) = 0 \/ cols (Mat_empty 1 : Mat) = 0)
    by (left; reflexivity).
  assert (Hfail : cannot_open_or_wrong_tag fs_sample "d/missing.dmb")
    by (left; reflexivity).
  split; [exact Hempty|]. split; [exact Hfail|].
  destruct (upsampling_divides_by_zero_after_failed_read fs_sample "d/missing.dmb"
              (Mat_empty 1) Hempty Hfail) as (Hread & Hrun & _).
  split; [exact Hread|apply Hrun].
Defined.

(** ** File names *)

Lemma pretty_N_go_leading (x : N) :
  forall s, (0 < x)%N ->
  exists c rest, pretty_N_go x s = String c rest /\ c <> "0"%char.
Proof.
  induction (N.lt_wf_0 x) as [x _ IH]; intros s Hpos.
  rewrite pretty_N_go_step by exact Hpos.
  assert (x < 10 \/ 10 <= x)%N as [Hsmall|Hlarge] by lia.
  - rewrite N.div_small by exact Hsmall. rewrite pretty_N_go_0.
    rewrite N.mod_small by exact Hsmall.
    eexists _, _. split; [reflexivity|].
    assert (x = 1 \/ x = 2 \/ x = 3 \/ x = 4 \/ x = 5 \/ x = 6
            \/ x = 7 \/ x = 8 \/ x = 9)%N as Hx by lia.
    destruct Hx as [->|[->|[->|[->|[->|[->|[->|[->| ->]]]]]]]]; discriminate.
  - apply IH.
    + apply N.div_lt; lia.
    + apply N.div_str_pos. lia.
Qed.

Lemma pretty_Z_leading (id : Z) :
  id <> 0 -> exists c rest, pretty id = String c rest /\ c <> "0"%char.
Proof.
  intros Hne. destruct id as [|p|p]; [contradiction| |].
  - unfold pretty, pretty_Z, pretty, pretty_positive, pretty, pretty_N.
    destruct (decide (N.pos p = 0%N)); [discriminate|].
    apply pretty_N_go_leading. lia.
  - unfold pretty, pretty_Z. eexists _, _. split; [reflexivity|]. discriminate.
Qed.

Lemma strip_zeros_padding (n : nat) (s : string) :
  strip_zeros (zeros_str n ++ s) = strip_zeros s.
Proof. induction n as [|n IH]; [reflexivity|]. cbn. exact IH. Qed.

Lemma strip_zeros_setw8 (id : Z) :
  strip_zeros (setw8 id) = if decide (id = 0) then EmptyString else pretty id.
Proof.
  unfold setw8. rewrite strip_zeros_padding.
  destruct (decide (id = 0)) as [->|Hne]; [reflexivity|].
  destruct (pretty_Z_leading id Hne) as (c & rest & -> & Hc).
  cbn [strip_zeros].
  destruct c as [[] [] [] [] [] [] [] []]; try reflexivity.
  exfalso. apply Hc. reflexivity.
Qed.

Lemma setw8_inj (a b : Z) : setw8 a = setw8 b -> a = b.
Proof.
  intros Heq. apply (f_equal strip_zeros) in Heq. rewrite !strip_zeros_setw8 in Heq.
  destruct (decide (a = 0)) as [->|Ha], (decide (b = 0)) as [->|Hb]; [reflexivity| | |].
  - destruct (pretty_Z_leading b Hb) as (c & rest & Hp & _). congruence.
  - destruct (pretty_Z_leading a Ha) as (c & rest & Hp & _). congruence.
  - apply (inj pretty). exact Heq.
Qed.

Lemma string_app_inv_head (s t1 t2 : string) : (s ++ t1 = s ++ t2)%string -> t1 = t2.
Proof.
  induction s as [|c s IH]; [exact (fun H => H)|].
  cbn. intros H. injection H as H. apply IH, H.
Qed.

Lemma string_length_app (s t : string) :
  String.length (s ++ t) = (String.length s + String.length t)%nat.
Proof.
  induction s as [|c s IH]; [reflexivity|].
  change (S (String.length (s ++ t)) = S (String.length s + String.length t)).
  rewrite IH. reflexivity.
Qed.

Lemma string_app_inv_tail (t s1 s2 : string) : (s1 ++ t = s2 ++ t)%string -> s1 = s2.
Proof.
  revert s2. induction s1 as [|c s1 IH]; intros [|c' s2] H.
  - reflexivity.
  - apply (f_equal String.length) in H. rewrite !string_length_app in H.
    cbn [String.length] in H. lia.
  - apply (f_equal String.length) in H. rewrite !string_length_app in H.
    cbn [String.length] in H. lia.
  - change (String c (s1 ++ t) = String c' (s2 ++ t)) in H.
    injection H as -> H. f_equal. apply IH, H.
Qed.

(** X24.  Views with different ids never share a file.  The id is
    printed zero-padded to eight characters (longer when it needs more,
    the sign after the padding when it is negative), and under one dense
    folder different ids give different result folders, hence different
    depth and normal files whatever the file name, and different camera
    files. *)
Theorem view_files_distinct (dense_folder file : string) (p : PatchMatchParams)
    (a b : Z) (Hne : a <> b) :
  (result_folder_of dense_folder a ++ file)%string
    <> (result_folder_of dense_folder b ++ file)%string /\
  depth_path_of dense_folder p a <> depth_path_of dense_folder p b /\
  upsampled_depth_path dense_folder (mkProblem a [] 0)
    <> upsampled_depth_path dense_folder (mkProblem b [] 0) /\
  cam_path_of dense_folder a <> cam_path_of dense_folder b.
Proof.
  assert (Hfolder : forall f, (result_folder_of dense_folder a ++ f)%string
                              <> (result_folder_of dense_folder b ++ f)%string).
  { intros f Heq. apply string_app_inv_tail in Heq. unfold result_folder_of in Heq.
    do 3 apply string_app_inv_head in Heq.
    exact (Hne (setw8_inj _ _ Heq)). }
  split; [apply Hfolder|]. split; [apply Hfolder|]. split; [apply Hfolder|].
  unfold cam_path_of. intros Heq.
  do 2 apply string_app_inv_head in Heq. apply string_app_inv_tail in Heq.
  exact (Hne (setw8_inj _ _ Heq)).
Qed.

Lemma view_files_distinct_witness :
  1 <> 12 /\
  depth_path_of "d" params_plain 1 <> depth_path_of "d" params_plain 12 /\
  cam_path_of "d" 1 <> cam_path_of "d" 12.
Proof.
  assert (Hne : 1 <> 12) by lia.
  split; [exact Hne|].
  destruct (view_files_distinct "d" "" params_plain 1 12 Hne) as (_ & Hd & _ & Hc).
  split; [exact Hd|exact Hc].
Defined.
